(** * Product / supplier catalogue service: repository, query builder,
      change-tracked update and batch operations

    A shallow embedding of the catalogue service: the generic repository
    ([app/repositories/base.py]), the product, supplier and history
    repositories, the product, supplier and history services, the product
    and supplier schemas and the product list, update and batch
    endpoints, followed by the properties established about them: first
    those the specification states, then further ones read off the code.

    Conventions of the model.
    - A Python scalar is a [val]; a [float] is read as the exact rational
      it denotes (rounding is outside the model).
    - The relational store is a record of tables; a table keeps its rows
      in storage order, the order in which a [SELECT] without [ORDER BY]
      hands them back, and carries its [SERIAL] counter.
    - An [async] method is a computation [M A]: it reads the wall clock,
      threads the store and ends in a value or in a raised exception.
      Every [commit] of the source is a write to the store, so what was
      committed before an exception stays written.
    - An ORM object is the value of its columns at the time it is
      returned; relationships are not loaded into it.  The lists the batch
      operations return hold those values.
    - Foreign keys are not checked by the model: every writer of a history
      row in the source fetches the product first.
    - The model's store takes every integer and every text.  PostgreSQL
      refuses an integer outside 32 bits in an [Integer] column or
      parameter, an offset or limit outside 64 bits, a text longer than
      its [String(n)] column and a text holding the character of code 0;
      a property that depends on the store accepting a value carries
      these bounds as hypotheses ([int32], [text_fits], [product_fits],
      [supplier_fits], [list_query_fits]).
    - A call reads the clock once: the two stamps of a created row are
      equal in the model, where the source reads the clock for each.  The
      properties about a created row leave its stamps open.
    - A refused [INSERT] leaves the serial counter where it was, where
      PostgreSQL has already advanced it, and an updated row keeps its
      place in the storage order, where PostgreSQL is free to move it.
      Properties about a failed write speak of the rows, not of the
      counter.
    - [hasattr] and [getattr] on a mapped class know its columns only.
      Relationships and the other attributes of the class are outside
      the model: a filter key or a sort field that names one of them
      is a request the model does not describe. *)

From Stdlib Require Import ZArith QArith String Ascii List Bool Lia.
From Stdlib Require Import DecimalString.
From Stdlib Require DecimalPos.
From stdpp Require Import base option list gmap strings sorting.

Open Scope string_scope.
Open Scope Z_scope.

(** ** Python strings

    A string of the model is a string of code points below 256; text
    outside Latin-1 is outside the model. *)

Module PyStr.

Definition lower_ascii (c : ascii) : ascii :=
  let n := nat_of_ascii c in
  if ((65 <=? n) && (n <=? 90))%nat then ascii_of_nat (n + 32) else c.

(** The lower-case form of one character: the letters A to Z and the
    capital letters of Latin-1 (192 to 222, the multiplication sign
    apart). *)
Definition lower_char (c : ascii) : ascii :=
  let n := nat_of_ascii c in
  if (((65 <=? n) && (n <=? 90))
      || ((192 <=? n) && (n <=? 222) && negb (n =? 215)))%nat
  then ascii_of_nat (n + 32) else c.

(** [str.lower()] *)
Fixpoint lower (s : string) : string :=
  match s with
  | EmptyString => EmptyString
  | String c s' => String (lower_char c) (lower s')
  end.

(** [c.isspace()]: what [str.strip()] removes. *)
Definition is_space (c : ascii) : bool :=
  let n := nat_of_ascii c in
  ((n =? 32) || ((9 <=? n) && (n <=? 13)) || ((28 <=? n) && (n <=? 31))
   || (n =? 133) || (n =? 160))%nat.

Fixpoint lstrip (s : string) : string :=
  match s with
  | String c s' => if is_space c then lstrip s' else s
  | EmptyString => EmptyString
  end.

Fixpoint rstrip (s : string) : string :=
  match s with
  | EmptyString => EmptyString
  | String c s' =>
      match rstrip s' with
      | EmptyString => if is_space c then EmptyString else String c EmptyString
      | r => String c r
      end
  end.

(** [str.strip()] *)
Definition strip (s : string) : string := rstrip (lstrip s).

(** [str.split(sep)] for a one-character separator: never empty. *)
Fixpoint split (sep : ascii) (s : string) : list string :=
  match s with
  | EmptyString => [EmptyString]
  | String c s' =>
      if Ascii.eqb c sep then EmptyString :: split sep s'
      else match split sep s' with
           | w :: ws => String c w :: ws
           | [] => [String c EmptyString]
           end
  end.

(** [needle in hay] *)
Definition contains (needle hay : string) : bool :=
  match String.index 0 needle hay with Some _ => true | None => false end.

(** [str(n)] for an integer. *)
Definition of_Z (z : Z) : string := NilZero.string_of_int (Z.to_int z).

(** The number of decimal digits of an integer. *)
Definition ndigits (z : Z) : nat := String.length (of_Z (Z.abs z)).

Fixpoint join (sep : string) (l : list string) : string :=
  match l with
  | [] => EmptyString
  | [x] => x
  | x :: l' => x ++ sep ++ join sep l'
  end.

(** [str(l)] for a list of integers: [[1, 2, 999]]. *)
Definition of_list_Z (l : list Z) : string :=
  "[" ++ join ", " (map of_Z l) ++ "]".

Definition digit_of (c : ascii) : option Z :=
  let n := nat_of_ascii c in
  if ((48 <=? n) && (n <=? 57))%nat then Some (Z.of_nat (n - 48)) else None.

(** The white space [int] skips around a number: of the characters below
    128 only the blank and the five controls from tab to carriage
    return. *)
Definition is_int_space (c : ascii) : bool :=
  let n := nat_of_ascii c in
  ((n =? 32) || ((9 <=? n) && (n <=? 13)) || (n =? 133) || (n =? 160))%nat.

Fixpoint int_lstrip (s : string) : string :=
  match s with
  | String c s' => if is_int_space c then int_lstrip s' else s
  | EmptyString => EmptyString
  end.

Fixpoint int_rstrip (s : string) : string :=
  match s with
  | EmptyString => EmptyString
  | String c s' =>
      match int_rstrip s' with
      | EmptyString => if is_int_space c then EmptyString else String c EmptyString
      | r => String c r
      end
  end.

(** What follows a digit of a number: more digits, each one possibly
    preceded by a single underscore.  The result is the value and the
    number of digits read, [acc] and [count] being those read so far. *)
Fixpoint digits (acc : Z) (count : nat) (s : string) : option (Z * nat) :=
  match s with
  | EmptyString => Some (acc, count)
  | String "_" (String c s') =>
      match digit_of c with
      | Some d => digits (10 * acc + d) (S count) s'
      | None => None
      end
  | String c s' =>
      match digit_of c with
      | Some d => digits (10 * acc + d) (S count) s'
      | None => None
      end
  end.

(** [sys.get_int_max_str_digits()], at its default. *)
Definition max_str_digits : nat := 4300.

(** An unsigned number: a digit, then [digits]; a number of more than
    [max_str_digits] digits is refused. *)
Definition number (s : string) : option Z :=
  match s with
  | String c s' =>
      d ← digit_of c;
      r ← digits d 1 s';
      if (r.2 <=? max_str_digits)%nat then Some r.1 else None
  | EmptyString => None
  end.

(** [int(s)]: surrounding blanks, an optional sign, a number.  [None]
    stands for the [ValueError] of the source. *)
Definition to_int (s : string) : option Z :=
  match int_rstrip (int_lstrip s) with
  | String "-" r => Z.opp <$> number r
  | String "+" r => number r
  | r => number r
  end.

End PyStr.

(** ** Values *)

(** Python scalars that travel between the schemas, the ORM objects and
    the store: [None], [int], [float], [str], [datetime]. *)
Inductive val : Type :=
| VNone
| VInt (z : Z)
| VFloat (q : Q)
| VStr (s : string)
| VTime (t : Z).

(** What a caller can put under a key of a filter dictionary. *)
Inductive pyval : Type :=
| PScalar (v : val)
| PDict (d : gmap string val)
| PList (l : list val).

Definition is_none (v : val) : bool :=
  match v with VNone => true | _ => false end.

(** Python truthiness of a scalar ([if value:]). *)
Definition truthy (v : val) : bool :=
  match v with
  | VNone => false
  | VInt z => negb (z =? 0)
  | VFloat q => negb (Qeq_bool q 0)
  | VStr s => negb (String.eqb s "")
  | VTime _ => true
  end.

Definition py_truthy (p : pyval) : bool :=
  match p with
  | PScalar v => truthy v
  | PDict d => negb (bool_decide (d = ∅))
  | PList l => negb (bool_decide (l = []))
  end.

(** Numeric reading shared by [int] and [float]. *)
Definition as_number (v : val) : option Q :=
  match v with
  | VInt z => Some (inject_Z z)
  | VFloat q => Some q
  | _ => None
  end.

(** Python [==] on scalars. *)
Definition py_eqb (a b : val) : bool :=
  match a, b with
  | VNone, VNone => true
  | VStr s, VStr t => String.eqb s t
  | VTime s, VTime t => s =? t
  | _, _ =>
      match as_number a, as_number b with
      | Some x, Some y => Qeq_bool x y
      | _, _ => false
      end
  end.

(** Python [!=]. *)
Definition py_neb (a b : val) : bool := negb (py_eqb a b).

(** SQL comparison of a column value with a bound scalar: [None] when an
    operand is NULL or the operands are of different kinds, in which case
    no comparison operator holds. *)
Definition sql_compare (a b : val) : option comparison :=
  match a, b with
  | VStr s, VStr t => Some (String.compare s t)
  | VTime s, VTime t => Some (s ?= t)
  | _, _ =>
      match as_number a, as_number b with
      | Some x, Some y => Some (x ?= y)%Q
      | _, _ => None
      end
  end.

(** The total order [ORDER BY] sorts a column by; NULL is the greatest
    value (last ascending, first descending). *)
Definition val_rank (v : val) : Z :=
  match v with
  | VInt _ | VFloat _ => 0
  | VStr _ => 1
  | VTime _ => 2
  | VNone => 3
  end.

Definition val_leb (a b : val) : bool :=
  match sql_compare a b with
  | Some Gt => false
  | Some _ => true
  | None => val_rank a <=? val_rank b
  end.

(** ** SQL [ILIKE] *)

(** [text ILIKE pattern]: [%] stands for any run of characters, [_] for
    one character, a backslash quotes the next pattern character; letters
    are compared without case (ASCII folding). *)
Fixpoint like (p : string) : string → bool :=
  match p with
  | EmptyString => fun t => match t with EmptyString => true | _ => false end
  | String "%" p' =>
      fix any (t : string) : bool :=
        like p' t || match t with EmptyString => false | String _ t' => any t' end
  | String "_" p' =>
      fun t => match t with EmptyString => false | String _ t' => like p' t' end
  | String "\" (String c p') =>
      fun t => match t with
               | EmptyString => false
               | String d t' =>
                   Ascii.eqb (PyStr.lower_ascii c) (PyStr.lower_ascii d) && like p' t'
               end
  | String c p' =>
      fun t => match t with
               | EmptyString => false
               | String d t' =>
                   Ascii.eqb (PyStr.lower_ascii c) (PyStr.lower_ascii d) && like p' t'
               end
  end.

Definition ilike (text : val) (pattern : string) : bool :=
  match text with
  | VStr t => like pattern t
  | _ => false
  end.

(** ** Exceptions and results *)

Inductive exn : Type :=
| NotFoundException (detail : string)
| HTTPException (status_code : Z) (detail : string)
| AttributeError (detail : string)
| TypeError (detail : string)
| DBAPIError (detail : string).   (* raised by the store; IntegrityError is one *)

Inductive result (A : Type) : Type :=
| Ok (a : A)
| Err (e : exn).
Arguments Ok {A} a.
Arguments Err {A} e.

Definition is_ok {A} (r : result A) : bool :=
  match r with Ok _ => true | Err _ => false end.

(** ** Column conversions

    What a column of a given SQL type accepts from Python; [None] means
    the store refuses the value. *)

Definition to_int (v : val) : option Z :=
  match v with VInt z => Some z | _ => None end.

Definition to_float (v : val) : option Q := as_number v.

Definition to_str (v : val) : option string :=
  match v with VStr s => Some s | _ => None end.

Definition to_time (v : val) : option Z :=
  match v with VTime t => Some t | _ => None end.

(** A nullable column also accepts [None]. *)
Definition nullable {A} (conv : val → option A) (v : val) : option (option A) :=
  if is_none v then Some None else Some <$> conv v.

Definition of_opt {A} (inj : A → val) (o : option A) : val :=
  match o with Some a => inj a | None => VNone end.

(** The value under a key of a keyword dictionary, [None] when absent. *)
Definition kw (data : gmap string val) (key : string) : val :=
  default VNone (data !! key).

(** A column with a Python-side default: an absent or [None] attribute is
    left out of the INSERT and the default fills it. *)
Definition with_default (d : val) (v : val) : val :=
  if is_none v then d else v.

(** ** The ORM models ([app/models/models.py]) *)

Module Product.
Record t : Type := mk {
  id : Z;
  name : string;
  price : Q;
  description : option string;
  stock_quantity : Z;
  category : option string;
  discount : Q;
  created_at : option Z;
  updated_at : option Z }.

Definition columns : list string :=
  ["id"; "name"; "price"; "description"; "stock_quantity"; "category";
   "discount"; "created_at"; "updated_at"].

Definition getattr (p : t) (field : string) : val :=
  if String.eqb field "id" then VInt (id p)
  else if String.eqb field "name" then VStr (name p)
  else if String.eqb field "price" then VFloat (price p)
  else if String.eqb field "description" then of_opt VStr (description p)
  else if String.eqb field "stock_quantity" then VInt (stock_quantity p)
  else if String.eqb field "category" then of_opt VStr (category p)
  else if String.eqb field "discount" then VFloat (discount p)
  else if String.eqb field "created_at" then of_opt VTime (created_at p)
  else if String.eqb field "updated_at" then of_opt VTime (updated_at p)
  else VNone.

(** [setattr(p, field, v)] as the next flush stores it. *)
Definition setattr (p : t) (field : string) (v : val) : option t :=
  let '(mk i n pr d s c di ca ua) := p in
  if String.eqb field "id" then (λ x, mk x n pr d s c di ca ua) <$> to_int v
  else if String.eqb field "name" then (λ x, mk i x pr d s c di ca ua) <$> to_str v
  else if String.eqb field "price" then (λ x, mk i n x d s c di ca ua) <$> to_float v
  else if String.eqb field "description" then
    (λ x, mk i n pr x s c di ca ua) <$> nullable to_str v
  else if String.eqb field "stock_quantity" then
    (λ x, mk i n pr d x c di ca ua) <$> to_int v
  else if String.eqb field "category" then
    (λ x, mk i n pr d s x di ca ua) <$> nullable to_str v
  else if String.eqb field "discount" then
    (λ x, mk i n pr d s c x ca ua) <$> to_float v
  else if String.eqb field "created_at" then
    (λ x, mk i n pr d s c di x ua) <$> nullable to_time v
  else if String.eqb field "updated_at" then
    (λ x, mk i n pr d s c di ca x) <$> nullable to_time v
  else Some p.

(** The object built from the keyword dictionary [data], as its INSERT
    stores it: [serial] fills the
    primary key, [now] the timestamp defaults, [0] the defaults of
    [stock_quantity] and [discount]. *)
Definition construct (serial now : Z) (data : gmap string val) : option t :=
  i ← to_int (with_default (VInt serial) (kw data "id"));
  n ← to_str (kw data "name");
  pr ← to_float (kw data "price");
  d ← nullable to_str (kw data "description");
  s ← to_int (with_default (VInt 0) (kw data "stock_quantity"));
  c ← nullable to_str (kw data "category");
  di ← to_float (with_default (VInt 0) (kw data "discount"));
  ca ← to_time (with_default (VTime now) (kw data "created_at"));
  ua ← to_time (with_default (VTime now) (kw data "updated_at"));
  Some (mk i n pr d s c di (Some ca) (Some ua)).

(** [onupdate=datetime.utcnow] of [updated_at]: an UPDATE that does not
    itself assign [updated_at] stamps it. *)
Definition onupdate (now : Z) (old new : t) : t :=
  let '(mk i n pr d s c di ca ua) := new in
  if py_eqb (of_opt VTime (updated_at old)) (of_opt VTime ua)
  then mk i n pr d s c di ca (Some now) else new.
End Product.

Module Supplier.
Record t : Type := mk {
  id : Z;
  name : string;
  contact_info : string;
  credit_rating : Z;
  created_at : option Z;
  updated_at : option Z }.

Definition columns : list string :=
  ["id"; "name"; "contact_info"; "credit_rating"; "created_at"; "updated_at"].

Definition getattr (s : t) (field : string) : val :=
  if String.eqb field "id" then VInt (id s)
  else if String.eqb field "name" then VStr (name s)
  else if String.eqb field "contact_info" then VStr (contact_info s)
  else if String.eqb field "credit_rating" then VInt (credit_rating s)
  else if String.eqb field "created_at" then of_opt VTime (created_at s)
  else if String.eqb field "updated_at" then of_opt VTime (updated_at s)
  else VNone.

Definition setattr (s : t) (field : string) (v : val) : option t :=
  let '(mk i n ci cr ca ua) := s in
  if String.eqb field "id" then (λ x, mk x n ci cr ca ua) <$> to_int v
  else if String.eqb field "name" then (λ x, mk i x ci cr ca ua) <$> to_str v
  else if String.eqb field "contact_info" then (λ x, mk i n x cr ca ua) <$> to_str v
  else if String.eqb field "credit_rating" then (λ x, mk i n ci x ca ua) <$> to_int v
  else if String.eqb field "created_at" then
    (λ x, mk i n ci cr x ua) <$> nullable to_time v
  else if String.eqb field "updated_at" then
    (λ x, mk i n ci cr ca x) <$> nullable to_time v
  else Some s.

Definition construct (serial now : Z) (data : gmap string val) : option t :=
  i ← to_int (with_default (VInt serial) (kw data "id"));
  n ← to_str (kw data "name");
  ci ← to_str (kw data "contact_info");
  cr ← to_int (with_default (VInt 0) (kw data "credit_rating"));
  ca ← to_time (with_default (VTime now) (kw data "created_at"));
  ua ← to_time (with_default (VTime now) (kw data "updated_at"));
  Some (mk i n ci cr (Some ca) (Some ua)).

Definition onupdate (now : Z) (old new : t) : t :=
  let '(mk i n ci cr ca ua) := new in
  if py_eqb (of_opt VTime (updated_at old)) (of_opt VTime ua)
  then mk i n ci cr ca (Some now) else new.
End Supplier.

Module PriceHistory.
Record t : Type := mk {
  id : Z;
  product_id : Z;
  old_price : Q;
  new_price : Q;
  timestamp : option Z }.

Definition columns : list string :=
  ["id"; "product_id"; "old_price"; "new_price"; "timestamp"].

Definition getattr (h : t) (field : string) : val :=
  if String.eqb field "id" then VInt (id h)
  else if String.eqb field "product_id" then VInt (product_id h)
  else if String.eqb field "old_price" then VFloat (old_price h)
  else if String.eqb field "new_price" then VFloat (new_price h)
  else if String.eqb field "timestamp" then of_opt VTime (timestamp h)
  else VNone.

Definition setattr (h : t) (field : string) (v : val) : option t :=
  let '(mk i p o n ts) := h in
  if String.eqb field "id" then (λ x, mk x p o n ts) <$> to_int v
  else if String.eqb field "product_id" then (λ x, mk i x o n ts) <$> to_int v
  else if String.eqb field "old_price" then (λ x, mk i p x n ts) <$> to_float v
  else if String.eqb field "new_price" then (λ x, mk i p o x ts) <$> to_float v
  else if String.eqb field "timestamp" then
    (λ x, mk i p o n x) <$> nullable to_time v
  else Some h.

Definition construct (serial now : Z) (data : gmap string val) : option t :=
  i ← to_int (with_default (VInt serial) (kw data "id"));
  p ← to_int (kw data "product_id");
  o ← to_float (kw data "old_price");
  n ← to_float (kw data "new_price");
  ts ← to_time (with_default (VTime now) (kw data "timestamp"));
  Some (mk i p o n (Some ts)).

Definition onupdate (now : Z) (old new : t) : t := new.
End PriceHistory.

Module StockHistory.
Record t : Type := mk {
  id : Z;
  product_id : Z;
  old_quantity : Z;
  new_quantity : Z;
  change_reason : option string;
  timestamp : option Z }.

Definition columns : list string :=
  ["id"; "product_id"; "old_quantity"; "new_quantity"; "change_reason";
   "timestamp"].

Definition getattr (h : t) (field : string) : val :=
  if String.eqb field "id" then VInt (id h)
  else if String.eqb field "product_id" then VInt (product_id h)
  else if String.eqb field "old_quantity" then VInt (old_quantity h)
  else if String.eqb field "new_quantity" then VInt (new_quantity h)
  else if String.eqb field "change_reason" then of_opt VStr (change_reason h)
  else if String.eqb field "timestamp" then of_opt VTime (timestamp h)
  else VNone.

Definition setattr (h : t) (field : string) (v : val) : option t :=
  let '(mk i p o n r ts) := h in
  if String.eqb field "id" then (λ x, mk x p o n r ts) <$> to_int v
  else if String.eqb field "product_id" then (λ x, mk i x o n r ts) <$> to_int v
  else if String.eqb field "old_quantity" then (λ x, mk i p x n r ts) <$> to_int v
  else if String.eqb field "new_quantity" then (λ x, mk i p o x r ts) <$> to_int v
  else if String.eqb field "change_reason" then
    (λ x, mk i p o n x ts) <$> nullable to_str v
  else if String.eqb field "timestamp" then
    (λ x, mk i p o n r x) <$> nullable to_time v
  else Some h.

Definition construct (serial now : Z) (data : gmap string val) : option t :=
  i ← to_int (with_default (VInt serial) (kw data "id"));
  p ← to_int (kw data "product_id");
  o ← to_int (kw data "old_quantity");
  n ← to_int (kw data "new_quantity");
  r ← nullable to_str (kw data "change_reason");
  ts ← to_time (with_default (VTime now) (kw data "timestamp"));
  Some (mk i p o n r (Some ts)).

Definition onupdate (now : Z) (old new : t) : t := new.
End StockHistory.

(** ** The store *)

Record Table (T : Type) : Type := mkTable {
  rows : list T;       (* in storage order *)
  next_id : Z }.       (* the SERIAL sequence of the primary key *)
Arguments mkTable {T} rows next_id.
Arguments rows {T} _.
Arguments next_id {T} _.

Record Store : Type := mkStore {
  products : Table Product.t;
  suppliers : Table Supplier.t;
  product_suppliers : list (Z * Z);     (* (product_id, supplier_id) *)
  price_history : Table PriceHistory.t;
  stock_history : Table StockHistory.t }.

(** ** Computations *)

(** An [async] method: wall clock in, store threaded, value or exception
    out.  The store is returned in both cases. *)
Definition M (A : Type) : Type := Z → Store → result A * Store.

Definition ret {A} (a : A) : M A := fun _ st => (Ok a, st).

Definition bind {A B} (m : M A) (k : A → M B) : M B :=
  fun now st =>
    match m now st with
    | (Ok a, st') => k a now st'
    | (Err e, st') => (Err e, st')
    end.

(** [raise e] *)
Definition throw {A} (e : exn) : M A := fun _ st => (Err e, st).

(** [try: m  except ... as e: h e] *)
Definition try_except {A} (m : M A) (h : exn → M A) : M A :=
  fun now st =>
    match m now st with
    | (Ok a, st') => (Ok a, st')
    | (Err e, st') => h e now st'
    end.

Definition utcnow : M Z := fun now st => (Ok now, st).
Definition get_store : M Store := fun _ st => (Ok st, st).
Definition put_store (st : Store) : M unit := fun _ _ => (Ok tt, st).

Notation "'let*' x ':=' c1 'in' c2" := (bind c1 (fun x => c2))
  (at level 10, x pattern, c1 at level 100, c2 at level 200).
Notation "c1 '>>' c2" := (bind c1 (fun _ => c2))
  (at level 62, right associativity).

(** [for x in l: body x], stopping at the first exception. *)
Fixpoint for_each {A} (l : list A) (body : A → M unit) : M unit :=
  match l with
  | [] => ret tt
  | x :: l' => body x >> for_each l' body
  end.

(** A loop that appends to a list as it goes: [acc] is the list so far. *)
Fixpoint for_collect {A B} (l : list A) (acc : B) (body : B → A → M B) : M B :=
  match l with
  | [] => ret acc
  | x :: l' => let* acc' := body acc x in for_collect l' acc' body
  end.

(** ** Mapped classes *)

(** What the generic repository knows of the class it is instantiated
    at: its name, its column attributes, attribute access, how an object
    is built and stored, its table in the store, and what the ORM removes
    along with a deleted row. *)
Class Model (T : Type) : Type := {
  model_name : string;
  model_columns : list string;
  pk : T → Z;
  getattr : T → string → val;
  setattr : T → string → val → option T;
  construct : Z → Z → gmap string val → option T;
  onupdate : Z → T → T → T;
  table : Store → Table T;
  with_table : Table T → Store → Store;
  cascade : Z → Store → Store }.

(** [hasattr(self.model, key)], for the column attributes: the names of
    relationships ([suppliers], [price_history], ...) and of the other
    attributes of a mapped class, for which Python also answers [True],
    are outside the model. *)
Definition hasattr `{Model T} (key : string) : bool :=
  bool_decide (key ∈ model_columns).

Definition drop_history_of {H} (product_id : H → Z) (pid : Z) (tb : Table H) : Table H :=
  mkTable (filter (λ h, product_id h ≠ pid) (rows tb)) (next_id tb).

#[export] Instance Product_model : Model Product.t := {|
  model_name := "Product";
  model_columns := Product.columns;
  pk := Product.id;
  getattr := Product.getattr;
  setattr := Product.setattr;
  construct := Product.construct;
  onupdate := Product.onupdate;
  table := products;
  with_table tb st :=
    mkStore tb (suppliers st) (product_suppliers st) (price_history st) (stock_history st);
  (* cascade="all, delete-orphan" on both histories; the association rows
     of the many-to-many relationship go as well *)
  cascade pid st :=
    mkStore (products st) (suppliers st)
      (filter (λ a, a.1 ≠ pid) (product_suppliers st))
      (drop_history_of PriceHistory.product_id pid (price_history st))
      (drop_history_of StockHistory.product_id pid (stock_history st)) |}.

#[export] Instance Supplier_model : Model Supplier.t := {|
  model_name := "Supplier";
  model_columns := Supplier.columns;
  pk := Supplier.id;
  getattr := Supplier.getattr;
  setattr := Supplier.setattr;
  construct := Supplier.construct;
  onupdate := Supplier.onupdate;
  table := suppliers;
  with_table tb st :=
    mkStore (products st) tb (product_suppliers st) (price_history st) (stock_history st);
  cascade sid st :=
    mkStore (products st) (suppliers st)
      (filter (λ a, a.2 ≠ sid) (product_suppliers st))
      (price_history st) (stock_history st) |}.

#[export] Instance PriceHistory_model : Model PriceHistory.t := {|
  model_name := "PriceHistory";
  model_columns := PriceHistory.columns;
  pk := PriceHistory.id;
  getattr := PriceHistory.getattr;
  setattr := PriceHistory.setattr;
  construct := PriceHistory.construct;
  onupdate := PriceHistory.onupdate;
  table := price_history;
  with_table tb st :=
    mkStore (products st) (suppliers st) (product_suppliers st) tb (stock_history st);
  cascade _ st := st |}.

#[export] Instance StockHistory_model : Model StockHistory.t := {|
  model_name := "StockHistory";
  model_columns := StockHistory.columns;
  pk := StockHistory.id;
  getattr := StockHistory.getattr;
  setattr := StockHistory.setattr;
  construct := StockHistory.construct;
  onupdate := StockHistory.onupdate;
  table := stock_history;
  with_table tb st :=
    mkStore (products st) (suppliers st) (product_suppliers st) (price_history st) tb;
  cascade _ st := st |}.

(** ** Queries *)

Inductive cmpop : Type := OpEq | OpGe | OpLe | OpLt.

(** The conditions the repositories build with SQLAlchemy operators.  The
    right operand of a comparison is whatever Python value the caller
    handed over. *)
#[warnings="-register-all"]
Inductive cond : Type :=
| CCompare (col : string) (op : cmpop) (v : pyval)
| CIn (col : string) (vs : list val)
| CBetween (col : string) (lo hi : val)
| CILike (col : string) (pattern : string)
| COr (cs : list cond).

Inductive direction : Type := Asc | Desc.

Record query : Type := mkQuery {
  q_where : list cond;                       (* where(and_( ... )) *)
  q_order_by : option (string * direction);  (* order_by( ... ) *)
  q_offset : option Z;                       (* offset( ... ) *)
  q_limit : option Z }.                      (* limit( ... ) *)

Definition test_op (op : cmpop) (c : comparison) : bool :=
  match op, c with
  | OpEq, Eq => true
  | OpGe, (Eq | Gt) => true
  | OpLe, (Eq | Lt) => true
  | OpLt, Lt => true
  | _, _ => false
  end.

(** A dictionary or a list cannot be bound as the operand of a comparison:
    the driver refuses the statement. *)
Fixpoint bindable (c : cond) : bool :=
  match c with
  | CCompare _ _ (PScalar _) => true
  | CCompare _ _ _ => false
  | COr cs => forallb bindable cs
  | _ => true
  end.

Section Session.
Context {T : Type} `{Model T}.

(** Whether a row satisfies a condition (SQL three-valued logic: a
    comparison with NULL selects nothing; [col == None] is [IS NULL]). *)
Fixpoint holds (r : T) (c : cond) : bool :=
  match c with
  | CCompare col OpEq (PScalar VNone) => is_none (getattr r col)
  | CCompare col op (PScalar v) =>
      match sql_compare (getattr r col) v with
      | Some cmp => test_op op cmp
      | None => false
      end
  | CCompare _ _ _ => false
  | CIn col vs =>
      existsb (λ v, match sql_compare (getattr r col) v with
                    | Some Eq => true | _ => false end) vs
  | CBetween col lo hi =>
      match sql_compare (getattr r col) lo, sql_compare (getattr r col) hi with
      | Some c1, Some c2 => test_op OpGe c1 && test_op OpLe c2
      | _, _ => false
      end
  | CILike col pattern => ilike (getattr r col) pattern
  | COr cs => existsb (holds r) cs
  end.

Definition order_le (ob : string * direction) (a b : T) : Prop :=
  match ob.2 with
  | Asc => val_leb (getattr a ob.1) (getattr b ob.1) = true
  | Desc => val_leb (getattr b ob.1) (getattr a ob.1) = true
  end.

#[export] Instance order_le_dec ob : RelDecision (order_le ob).
Proof. intros a b. unfold order_le. destruct (ob.2); apply _. Defined.

Definition ordered (ob : option (string * direction)) (l : list T) : list T :=
  match ob with
  | Some ob => merge_sort (order_le ob) l
  | None => l
  end.

Definition window (off lim : option Z) (l : list T) : list T :=
  let l' := match off with Some o => drop (Z.to_nat o) l | None => l end in
  match lim with Some n => take (Z.to_nat n) l' | None => l' end.

Definition negative (o : option Z) : bool :=
  match o with Some z => z <? 0 | None => false end.

(** The rows a SELECT statement returns on a table. *)
Definition select_rows (q : query) (tb : list T) : result (list T) :=
  if negb (forallb bindable (q_where q)) then
    Err (DBAPIError "invalid input for query argument")
  else if negative (q_offset q) || negative (q_limit q) then
    Err (DBAPIError "OFFSET and LIMIT must not be negative")
  else
    Ok (window (q_offset q) (q_limit q)
          (ordered (q_order_by q)
             (List.filter (λ r, forallb (holds r) (q_where q)) tb))).

Definition lift_result {A} (r : result A) : M A := fun _ st => (r, st).

(** [(await db.execute(query)).scalars().all()] *)
Definition db_execute (q : query) : M (list T) :=
  let* st := get_store in lift_result (select_rows q (rows (table st))).

(** [(await db.execute(select(func.count()) ...)).scalar_one()] *)
Definition db_count (conds : list cond) : M Z :=
  let* l := db_execute (mkQuery conds None None None) in
  ret (Z.of_nat (length l)).

(** [await db.get(self.model, id)] *)
Definition db_get (id : Z) : M (option T) :=
  let* st := get_store in
  ret (List.find (λ r, pk r =? id) (rows (table st))).

(** [db.add(obj); await db.commit(); await db.refresh(obj)] for a new
    object built from [data]. *)
Definition db_insert (data : gmap string val) : M T :=
  let* st := get_store in
  let* now := utcnow in
  let tb := table st in
  match construct (next_id tb) now data with
  | None => throw (DBAPIError "constraint violated on INSERT")
  | Some obj =>
      if existsb (λ r, pk r =? pk obj) (rows tb) then
        throw (DBAPIError "duplicate key")
      else
        let next := if is_none (kw data "id") then next_id tb + 1 else next_id tb in
        put_store (with_table (mkTable (rows tb ++ [obj]) next) st) >>
        ret obj
  end.

(** The pending objects of one transaction, built in order. *)
Fixpoint construct_all (now : Z) (tb : Table T) (datas : list (gmap string val))
  : option (list T * Table T) :=
  match datas with
  | [] => Some ([], tb)
  | data :: datas' =>
      obj ← construct (next_id tb) now data;
      if existsb (λ r, pk r =? pk obj) (rows tb) then None
      else
        let next := if is_none (kw data "id") then next_id tb + 1 else next_id tb in
        '(objs, tb') ← construct_all now (mkTable (rows tb ++ [obj]) next) datas';
        Some (obj :: objs, tb')
  end.

(** Several [db.add] followed by one [commit]: all rows or none. *)
Definition db_insert_all (datas : list (gmap string val)) : M (list T) :=
  let* st := get_store in
  let* now := utcnow in
  match construct_all now (table st) datas with
  | None => throw (DBAPIError "constraint violated on INSERT")
  | Some (objs, tb') => put_store (with_table tb' st) >> ret objs
  end.

(** The attribute assignments of an update, column by column. *)
Definition assign (obj : T) (fields : list string) (update_data : gmap string val)
  : option T :=
  foldl (λ acc field,
           o ← acc;
           match update_data !! field with
           | Some v => setattr o field v
           | None => Some o
           end) (Some obj) fields.

Definition modified (old new : T) : bool :=
  existsb (λ c, py_neb (getattr old c) (getattr new c)) model_columns.

(** [db.add(obj); await db.commit(); await db.refresh(obj)] for a loaded
    object whose attributes were assigned: no UPDATE is sent when no
    attribute changed. *)
Definition db_update (old : T) (assigned : option T) : M T :=
  let* st := get_store in
  let* now := utcnow in
  let tb := table st in
  match assigned with
  | None => throw (DBAPIError "constraint violated on UPDATE")
  | Some new =>
      if negb (modified old new) then ret new
      else if negb (pk new =? pk old) && existsb (λ r, pk r =? pk new) (rows tb) then
        throw (DBAPIError "duplicate key")
      else
        let stored := onupdate now old new in
        put_store
          (with_table
             (mkTable (map (λ r, if pk r =? pk old then stored else r) (rows tb))
                      (next_id tb)) st) >>
        ret stored
  end.

(** [await db.delete(obj); await db.commit()] *)
Definition db_delete (obj : T) : M unit :=
  let* st := get_store in
  let tb := table st in
  put_store
    (cascade (pk obj)
       (with_table (mkTable (filter (λ r, pk r ≠ pk obj) (rows tb)) (next_id tb)) st)).

End Session.

(** ** The generic repository ([app/repositories/base.py]) *)

Definition py_is_none (p : pyval) : bool :=
  match p with PScalar v => is_none v | _ => false end.

(** The conditions of a [{"min": ..., "max": ...}] dictionary on a column:
    a bound counts when its key is present and its value is not [None]. *)
Definition range_conditions (col : string) (d : gmap string val) : list cond :=
  ((if is_none (kw d "min") then [] else [CCompare col OpGe (PScalar (kw d "min"))]) ++
   (if is_none (kw d "max") then [] else [CCompare col OpLe (PScalar (kw d "max"))]))%list.

Definition str_truthy (s : option string) : bool :=
  match s with Some s => negb (String.eqb s "") | None => false end.

(** [isinstance(value, dict)] *)
Definition is_dict (p : pyval) : bool :=
  match p with PDict _ => true | _ => false end.

Definition dict_of (p : pyval) : gmap string val :=
  match p with PDict d => d | _ => ∅ end.

(** The text a value contributes to an f-string.  (The service passes a
    [str]; the rendering of floats, dates, dictionaries and lists is
    outside the model.) *)
Definition fstring (p : pyval) : string :=
  match p with
  | PScalar (VStr s) => s
  | PScalar (VInt z) => PyStr.of_Z z
  | PScalar VNone => "None"
  | _ => ""
  end.

Module BaseRepository.
Section Generic.
Context {T : Type} `{Model T}.

Definition get (id : Z) : M T :=
  let* result := db_get id in
  match result with
  | None =>
      throw (NotFoundException
               (model_name ++ " with id " ++ PyStr.of_Z id ++ " not found"))
  | Some r => ret r
  end.

Definition get_multi_conditions (filters : list (string * pyval)) : list cond :=
  flat_map (λ '(key, value),
    if hasattr key then
      match value with
      | PDict d => range_conditions key d
      | PList l => [CIn key l]
      | PScalar v => if is_none v then [] else [CCompare key OpEq value]
      end
    else []) filters.

Definition get_multi (skip limit : Z) (sort_by sort_order : option string)
    (filters : list (string * pyval)) : M (list T) :=
  let conds := get_multi_conditions filters in
  let* order :=
    match sort_by with
    | Some f =>
        if str_truthy sort_by && hasattr f then
          match sort_order with
          | None => throw (AttributeError "'NoneType' object has no attribute 'lower'")
          | Some o =>
              ret (Some (f, if String.eqb (PyStr.lower o) "desc" then Desc else Asc))
          end
        else ret None
    | None => ret None
    end in
  db_execute (mkQuery conds order (Some skip) (Some limit)).

Definition count_conditions (filters : list (string * pyval)) : list cond :=
  flat_map (λ '(key, value),
    if hasattr key && negb (py_is_none value)
    then [CCompare key OpEq value] else []) filters.

Definition count (filters : list (string * pyval)) : M Z :=
  db_count (count_conditions filters).

(** The constructor of a mapped class refuses a keyword that is no
    attribute. *)
Definition check_keywords (data : gmap string val) : M unit :=
  if forallb (λ kv, hasattr kv.1) (map_to_list data) then ret tt
  else throw (TypeError ("invalid keyword argument for " ++ model_name)).

Definition create (obj_in_data : gmap string val) : M T :=
  check_keywords obj_in_data >> db_insert obj_in_data.

Definition batch_create (objs_in : list (gmap string val)) : M (list T) :=
  for_each objs_in check_keywords >> db_insert_all objs_in.

Definition update (db_obj : T) (update_data : gmap string val) : M T :=
  db_update db_obj (assign db_obj model_columns update_data).

Definition delete (id : Z) : M T :=
  let* obj := get id in
  db_delete obj >> ret obj.

(** The rows whose key is among [ids] are deleted in one transaction; an
    id without a row contributes nothing. *)
Definition batch_delete (ids : list Z) : M (list T) :=
  match ids with
  | [] => ret []
  | _ =>
      let* db_objs := db_execute (mkQuery [CIn "id" (map VInt ids)] None None None) in
      match db_objs with
      | [] => ret []
      | _ => for_each db_objs db_delete >> ret db_objs
      end
  end.

End Generic.
End BaseRepository.

(** ** The product repository ([app/repositories/product.py]) *)

Module ProductRepository.

Definition get : Z → M Product.t := BaseRepository.get.
Definition create : gmap string val → M Product.t := BaseRepository.create.
Definition update : Product.t → gmap string val → M Product.t :=
  BaseRepository.update.

Definition get_with_suppliers (id : Z) : M (option Product.t) :=
  let* l := db_execute (mkQuery [CCompare "id" OpEq (PScalar (VInt id))] None None None) in
  ret (head l).

(** The filter loop of [get_multi_with_suppliers]. *)
Definition list_conditions (kwargs : list (string * pyval)) : list cond :=
  flat_map (λ '(key, value),
    if String.eqb key "category" && py_truthy value then
      [CCompare "category" OpEq value]
    else if String.eqb key "price_range" && is_dict value then
      range_conditions "price" (dict_of value)
    else if String.eqb key "stock_range" && is_dict value then
      range_conditions "stock_quantity" (dict_of value)
    else if hasattr (T:=Product.t) key && negb (py_is_none value) then
      [CCompare key OpEq value]
    else []) kwargs.

Definition get_multi_with_suppliers (skip limit : Z)
    (sort_by sort_order : option string) (kwargs : list (string * pyval))
  : M (list Product.t) :=
  let conds := list_conditions kwargs in
  let order :=
    match sort_by with
    | Some f =>
        if str_truthy sort_by && hasattr (T:=Product.t) f then
          if str_truthy sort_order
             && String.eqb (PyStr.lower (default "" sort_order)) "desc"
          then (f, Desc) else (f, Asc)
        else ("id", Asc)
    | None => ("id", Asc)
    end in
  db_execute (mkQuery conds (Some order) (Some skip) (Some limit)).

(** The filter loop of [count]: the one of [get_multi_with_suppliers]
    with a [search_term] branch. *)
Definition count_conditions (kwargs : list (string * pyval)) : list cond :=
  flat_map (λ '(key, value),
    if String.eqb key "category" && py_truthy value then
      [CCompare "category" OpEq value]
    else if String.eqb key "price_range" && is_dict value then
      range_conditions "price" (dict_of value)
    else if String.eqb key "stock_range" && is_dict value then
      range_conditions "stock_quantity" (dict_of value)
    else if String.eqb key "search_term" && py_truthy value then
      [COr [CILike "name" ("%" ++ fstring value ++ "%");
            CILike "description" ("%" ++ fstring value ++ "%")]]
    else if hasattr (T:=Product.t) key && negb (py_is_none value) then
      [CCompare key OpEq value]
    else []) kwargs.

Definition count (kwargs : list (string * pyval)) : M Z :=
  db_count (T:=Product.t) (count_conditions kwargs).

Definition search_conditions (kwargs : list (string * pyval)) : list cond :=
  flat_map (λ '(key, value),
    if hasattr (T:=Product.t) key then
      if String.eqb key "category" && py_truthy value then
        [CCompare "category" OpEq value]
      else if String.eqb key "price_range" && is_dict value then
        range_conditions "price" (dict_of value)
      else if String.eqb key "stock_range" && is_dict value then
        range_conditions "stock_quantity" (dict_of value)
      else if negb (py_is_none value) then [CCompare key OpEq value]
      else []
    else []) kwargs.

Definition search_products (search_term : string) (skip limit : Z)
    (kwargs : list (string * pyval)) : M (list Product.t) :=
  db_execute
    (mkQuery
       (COr [CILike "name" ("%" ++ search_term ++ "%");
             CILike "description" ("%" ++ search_term ++ "%")]
        :: search_conditions kwargs)
       None (Some skip) (Some limit)).

(** The override of [delete]: [get] already raises when the row is
    absent, so the test on [obj] always succeeds. *)
Definition delete (id : Z) : M Product.t :=
  let* obj := get id in
  db_delete obj >> ret obj.

(** The override of [batch_create] takes the [model_dump()] of each
    [ProductCreate]. *)
Definition batch_create (objs_in : list (gmap string val)) : M (list Product.t) :=
  for_each objs_in (BaseRepository.check_keywords (T:=Product.t)) >>
  db_insert_all objs_in.

Definition get_low_stock_products (threshold skip limit : Z) : M (list Product.t) :=
  db_execute
    (mkQuery [CCompare "stock_quantity" OpLt (PScalar (VInt threshold))]
       None (Some skip) (Some limit)).

(** [GROUP BY category] with [count(id)], read into a dictionary: one
    entry per category that occurs, [None] being one of them. *)
Definition count_by_category : M (gmap (option string) Z) :=
  let* st := get_store in
  ret (foldr (λ p acc,
                <[ Product.category p :=
                     default 0 (acc !! Product.category p) + 1 ]> acc)
         ∅ (rows (products st))).

End ProductRepository.

(** ** The history repositories ([app/repositories/history.py]) *)

(** The conditions of [get_by_date_range], the same in both classes. *)
Definition date_conditions (product_id : Z) (start_date end_date : option Z)
  : list cond :=
  CCompare "product_id" OpEq (PScalar (VInt product_id)) ::
  match start_date, end_date with
  | Some s, Some e => [CBetween "timestamp" (VTime s) (VTime e)]
  | Some s, None => [CCompare "timestamp" OpGe (PScalar (VTime s))]
  | None, Some e => [CCompare "timestamp" OpLe (PScalar (VTime e))]
  | None, None => []
  end.

Module PriceHistoryRepository.

Definition get_by_product_id (product_id skip limit : Z) : M (list PriceHistory.t) :=
  db_execute
    (mkQuery [CCompare "product_id" OpEq (PScalar (VInt product_id))]
       (Some ("timestamp", Desc)) (Some skip) (Some limit)).

Definition get_by_date_range (product_id : Z) (start_date end_date : option Z)
    (skip limit : Z) : M (list PriceHistory.t) :=
  db_execute
    (mkQuery (date_conditions product_id start_date end_date)
       (Some ("timestamp", Desc)) (Some skip) (Some limit)).

Definition add_price_change (product_id : Z) (old_price new_price : val)
  : M PriceHistory.t :=
  let* now := utcnow in
  db_insert {[ "product_id" := VInt product_id;
               "old_price" := old_price;
               "new_price" := new_price;
               "timestamp" := VTime now ]}.

End PriceHistoryRepository.

Module StockHistoryRepository.

Definition get_by_product_id (product_id skip limit : Z) : M (list StockHistory.t) :=
  db_execute
    (mkQuery [CCompare "product_id" OpEq (PScalar (VInt product_id))]
       (Some ("timestamp", Desc)) (Some skip) (Some limit)).

Definition get_by_date_range (product_id : Z) (start_date end_date : option Z)
    (skip limit : Z) : M (list StockHistory.t) :=
  db_execute
    (mkQuery (date_conditions product_id start_date end_date)
       (Some ("timestamp", Desc)) (Some skip) (Some limit)).

Definition add_stock_change (product_id : Z) (old_quantity new_quantity : val)
    (change_reason : val) : M StockHistory.t :=
  let* now := utcnow in
  db_insert {[ "product_id" := VInt product_id;
               "old_quantity" := old_quantity;
               "new_quantity" := new_quantity;
               "change_reason" := change_reason;
               "timestamp" := VTime now ]}.

End StockHistoryRepository.

(** ** The supplier repository ([app/repositories/supplier.py]) *)

Module SupplierRepository.
Definition get : Z → M Supplier.t := BaseRepository.get.
Definition create : gmap string val → M Supplier.t := BaseRepository.create.
Definition batch_create : list (gmap string val) → M (list Supplier.t) :=
  BaseRepository.batch_create.
Definition update : Supplier.t → gmap string val → M Supplier.t :=
  BaseRepository.update.
Definition delete : Z → M Supplier.t := BaseRepository.delete.
Definition batch_delete : list Z → M (list Supplier.t) := BaseRepository.batch_delete.
Definition get_with_products (id : Z) : M (option Supplier.t) :=
  let* l := db_execute (mkQuery [CCompare "id" OpEq (PScalar (VInt id))] None None None) in
  ret (head l).

(** The filter loop of [get_multi_with_products]. *)
Definition list_conditions (kwargs : list (string * pyval)) : list cond :=
  flat_map (λ '(key, value),
    if hasattr (T:=Supplier.t) key then
      if String.eqb key "credit_rating" && negb (py_is_none value) then
        if is_dict value then range_conditions "credit_rating" (dict_of value)
        else [CCompare "credit_rating" OpEq value]
      else if negb (py_is_none value) then [CCompare key OpEq value]
      else []
    else []) kwargs.

(** No [order_by] is ever added: [sort_by] and [sort_order] are not
    parameters of this method and arrive among [kwargs]. *)
Definition get_multi_with_products (skip limit : Z) (kwargs : list (string * pyval))
  : M (list Supplier.t) :=
  db_execute (mkQuery (list_conditions kwargs) None (Some skip) (Some limit)).

Definition get_by_credit_rating (rating skip limit : Z) : M (list Supplier.t) :=
  db_execute
    (mkQuery [CCompare "credit_rating" OpEq (PScalar (VInt rating))]
       None (Some skip) (Some limit)).

Definition get_by_credit_rating_range (min_rating max_rating : option Z)
    (skip limit : Z) : M (list Supplier.t) :=
  db_execute
    (mkQuery
       ((match min_rating with
         | Some m => [CCompare "credit_rating" OpGe (PScalar (VInt m))]
         | None => []
         end) ++
        (match max_rating with
         | Some m => [CCompare "credit_rating" OpLe (PScalar (VInt m))]
         | None => []
         end))%list
       None (Some skip) (Some limit)).

Definition get_top_rated_suppliers (limit : Z) : M (list Supplier.t) :=
  db_execute (mkQuery [] (Some ("credit_rating", Desc)) None (Some limit)).
End SupplierRepository.

(** ** Schemas ([app/schemas/product.py], [app/schemas/supplier.py]) *)

(** A field of a schema whose fields are all optional: unset, set to
    [None], or set to a value. *)
Definition field (A : Type) : Type := option (option A).

(** Reading the attribute: [None] when unset or null. *)
Definition attr {A} (f : field A) : option A :=
  match f with Some (Some a) => Some a | _ => None end.

(** The entry a field contributes to [model_dump(exclude_unset=True)]. *)
Definition dump_field {A} (key : string) (inj : A → val) (f : field A)
  : list (string * val) :=
  match f with
  | None => []
  | Some o => [(key, of_opt inj o)]
  end.

(** A constraint on an optional field bears on the value when there is one. *)
Definition field_ok {A} (P : A → bool) (f : field A) : bool :=
  match attr f with Some a => P a | None => true end.

Definition Qltb (x y : Q) : bool := negb (Qle_bool y x).

Definition len_between (lo hi : nat) (s : string) : bool :=
  ((lo <=? String.length s) && (String.length s <=? hi))%nat.

Module ProductCreate.
(** [ProductBase], which [ProductCreate] inherits unchanged. *)
Record t : Type := mk {
  name : string;
  price : Q;
  description : option string;
  stock_quantity : Z;
  category : option string;
  discount : option Q }.

(** [Field(..., gt=0)] *)
Definition price_constraint (v : Q) : bool := Qltb 0 v.

(** The schema as a test on an input.  [validate_price] is the verdict of
    the validator of that name on the price: it reads the printed form of
    the float ([str(v)]), which is outside the model, so the test is
    stated for whatever that verdict is. *)
Definition validate (validate_price : Q → bool) (p : t) : bool :=
  len_between 3 100 (name p)
  && price_constraint (price p) && validate_price (price p)
  && (0 <=? stock_quantity p)
  && match discount p with
     | Some d => Qle_bool 0 d && Qle_bool d 100
     | None => true
     end.

(** [model_dump()] *)
Definition model_dump (p : t) : gmap string val :=
  {[ "name" := VStr (name p);
     "price" := VFloat (price p);
     "description" := of_opt VStr (description p);
     "stock_quantity" := VInt (stock_quantity p);
     "category" := of_opt VStr (category p);
     "discount" := of_opt VFloat (discount p) ]}.
End ProductCreate.

Module ProductUpdate.
Record t : Type := mk {
  name : field string;
  price : field Q;
  description : field string;
  stock_quantity : field Z;
  category : field string;
  discount : field Q;
  change_reason : field string }.

(** [Field(None, gt=0)] *)
Definition price_constraint (v : Q) : bool := Qltb 0 v.

(** The schema as a test on an input.  [validate_price] is the verdict of
    the validator of that name on a supplied price: it multiplies and
    truncates the float ([v * 100 != int(v * 100)]), which is outside the
    model, so the test is stated for whatever that verdict is.  A field
    set to [None] passes: every constraint bears on a value. *)
Definition validate (validate_price : Q → bool) (u : t) : bool :=
  field_ok (len_between 3 100) (name u)
  && field_ok (λ v, price_constraint v && validate_price v) (price u)
  && field_ok (λ v, 0 <=? v) (stock_quantity u)
  && field_ok (λ d, Qle_bool 0 d && Qle_bool d 100) (discount u).

(** [model_dump(exclude_unset=True)] *)
Definition model_dump (u : t) : gmap string val :=
  list_to_map
    (dump_field "name" VStr (name u) ++
     dump_field "price" VFloat (price u) ++
     dump_field "description" VStr (description u) ++
     dump_field "stock_quantity" VInt (stock_quantity u) ++
     dump_field "category" VStr (category u) ++
     dump_field "discount" VFloat (discount u) ++
     dump_field "change_reason" VStr (change_reason u))%list.
End ProductUpdate.

Module ProductBatchUpdateItem.
(** No field of this schema carries a constraint. *)
Record t : Type := mk {
  id : Z;
  name : field string;
  description : field string;
  price : field Q;
  stock_quantity : field Z;
  discount : field Q;
  category : field string;
  change_reason : field string }.

Definition validate (u : t) : bool := true.

Definition model_dump (u : t) : gmap string val :=
  list_to_map
    ([("id", VInt (id u))] ++
     dump_field "name" VStr (name u) ++
     dump_field "description" VStr (description u) ++
     dump_field "price" VFloat (price u) ++
     dump_field "stock_quantity" VInt (stock_quantity u) ++
     dump_field "discount" VFloat (discount u) ++
     dump_field "category" VStr (category u) ++
     dump_field "change_reason" VStr (change_reason u))%list.
End ProductBatchUpdateItem.

Module SupplierCreate.
Record t : Type := mk {
  name : string;
  contact_info : string;
  credit_rating : Z }.

Definition validate (s : t) : bool :=
  len_between 2 100 (name s) && (0 <=? credit_rating s) && (credit_rating s <=? 5).

(** [jsonable_encoder(obj_in)] *)
Definition encode (s : t) : gmap string val :=
  {[ "name" := VStr (name s);
     "contact_info" := VStr (contact_info s);
     "credit_rating" := VInt (credit_rating s) ]}.
End SupplierCreate.

Module SupplierUpdate.
Record t : Type := mk {
  name : field string;
  contact_info : field string;
  credit_rating : field Z }.

Definition validate (s : t) : bool :=
  field_ok (len_between 2 100) (name s)
  && field_ok (λ r, (0 <=? r) && (r <=? 5)) (credit_rating s).

(** [obj_in.dict(exclude_unset=True)] *)
Definition dict (s : t) : gmap string val :=
  list_to_map
    (dump_field "name" VStr (name s) ++
     dump_field "contact_info" VStr (contact_info s) ++
     dump_field "credit_rating" VInt (credit_rating s))%list.
End SupplierUpdate.

(** ** The product service ([app/services/product.py]) *)

Module ProductService.

Definition get_products (skip limit : Z) (sort_by sort_order : option string)
    (filters : list (string * pyval)) : M (list Product.t) :=
  ProductRepository.get_multi_with_suppliers skip limit sort_by sort_order filters.

Definition search_products (search_term : string) (skip limit : Z)
    (filters : list (string * pyval)) : M (list Product.t) :=
  ProductRepository.search_products search_term skip limit filters.

(** [ProductCreate] has no [supplier_ids] attribute, so the list of
    suppliers to attach is empty and the loop over it does nothing. *)
Definition create_product (product_in : ProductCreate.t) : M (option Product.t) :=
  let product_data := ProductCreate.model_dump product_in in
  let* product := ProductRepository.create product_data in
  ProductRepository.get_with_suppliers (Product.id product).

Definition batch_create_products (products_in : list ProductCreate.t)
  : M (list Product.t) :=
  ProductRepository.batch_create (map ProductCreate.model_dump products_in).

(** [product_in] is the dictionary of the fields to change (a
    [ProductUpdate] is passed through its [model_dump(exclude_unset=True)]).
    [get] raises for an absent id, so the 404 of the source is never
    reached. *)
Definition update_product (id : Z) (product_in : gmap string val)
    (change_reason : val) : M Product.t :=
  let* product := ProductRepository.get id in
  let update_data := product_in in
  (* Check for price changes *)
  (match update_data !! "price" with
   | Some new_price =>
       if py_neb new_price (VFloat (Product.price product)) then
         PriceHistoryRepository.add_price_change (Product.id product)
           (VFloat (Product.price product)) new_price >> ret tt
       else ret tt
   | None => ret tt
   end) >>
  (* Check for stock quantity changes *)
  (match update_data !! "stock_quantity" with
   | Some new_quantity =>
       if py_neb new_quantity (VInt (Product.stock_quantity product)) then
         StockHistoryRepository.add_stock_change (Product.id product)
           (VInt (Product.stock_quantity product)) new_quantity change_reason
         >> ret tt
       else ret tt
   | None => ret tt
   end) >>
  (* Update the product *)
  ProductRepository.update product update_data.

(** One turn of the loop of [batch_update_products]; the accumulator is
    [(updated_products, missing_products)].  [missing_products] is only
    appended to when [get] returns nothing, which it never does. *)
Definition batch_update_step (acc : list Product.t * list Z)
    (update_item : gmap string val) : M (list Product.t * list Z) :=
  match update_item !! "id" with
  | None => ret acc
  | Some (VInt product_id) =>
      let* product := ProductRepository.get product_id in
      let update_data := delete "id" update_item in
      let change_reason := kw update_data "change_reason" in
      let update_data := delete "change_reason" update_data in
      (match update_data !! "price" with
       | Some new_price =>
           if py_neb new_price (VFloat (Product.price product)) then
             PriceHistoryRepository.add_price_change (Product.id product)
               (VFloat (Product.price product)) new_price >> ret tt
           else ret tt
       | None => ret tt
       end) >>
      (match update_data !! "stock_quantity" with
       | Some new_quantity =>
           if py_neb new_quantity (VInt (Product.stock_quantity product)) then
             StockHistoryRepository.add_stock_change (Product.id product)
               (VInt (Product.stock_quantity product)) new_quantity change_reason
             >> ret tt
           else ret tt
       | None => ret tt
       end) >>
      let* updated_product := ProductRepository.update product update_data in
      ret (acc.1 ++ [updated_product], acc.2)%list
  | Some _ => throw (DBAPIError "invalid input for query argument")
  end.

Definition batch_update_products (updates : list (gmap string val))
  : M (list Product.t) :=
  let* acc := for_collect updates ([], []) batch_update_step in
  match acc.2 with
  | [] => ret acc.1
  | missing_products =>
      throw (HTTPException 404
               ("Products with IDs " ++ PyStr.of_list_Z missing_products ++ " not found"))
  end.

(** One turn of the loop of [batch_delete_products]; the accumulator is
    [(deleted_products, not_found_ids)].  The [else] branch of the
    source, which records the id in [not_found_ids], needs [get] to
    return nothing; [get] raises instead. *)
Definition batch_delete_step (acc : list Product.t * list Z) (product_id : Z)
  : M (list Product.t * list Z) :=
  let* product := ProductRepository.get product_id in
  ProductRepository.delete product_id >>
  ret (acc.1 ++ [product], acc.2)%list.

Definition batch_delete_products (ids : list Z) : M (list Product.t) :=
  let* acc := for_collect ids ([], []) batch_delete_step in
  match acc.2 with
  | [] => ret acc.1
  | not_found_ids =>
      throw (HTTPException 404
               ("Products with IDs " ++ PyStr.of_list_Z not_found_ids ++ " not found"))
  end.

(** [get_with_suppliers] hands back [None] for an absent row, so this
    404 is reached. *)
Definition get_product (id : Z) : M Product.t :=
  let* product := ProductRepository.get_with_suppliers id in
  match product with
  | None =>
      throw (HTTPException 404 ("Product with ID " ++ PyStr.of_Z id ++ " not found"))
  | Some product => ret product
  end.

Definition delete_product (id : Z) : M Product.t :=
  ProductRepository.get id >> ProductRepository.delete id.

Definition get_low_stock_products (threshold skip limit : Z) : M (list Product.t) :=
  ProductRepository.get_low_stock_products threshold skip limit.

Record ProductStatistics : Type := mkStatistics {
  total_products : Z;
  products_by_category : gmap (option string) Z;
  low_stock_products : Z }.

Definition get_product_statistics : M ProductStatistics :=
  let* category_stats := ProductRepository.count_by_category in
  let* total_products := ProductRepository.count [] in
  let* low_stock := ProductRepository.get_low_stock_products 10 0 1000 in
  ret (mkStatistics total_products category_stats (Z.of_nat (length low_stock))).

(** [{"search_term": search_term, **filters}] *)
Definition count_search_results (search_term : string)
    (filters : list (string * pyval)) : M Z :=
  ProductRepository.count (("search_term", PScalar (VStr search_term)) :: filters).

End ProductService.

(** ** The supplier service ([app/services/supplier.py]) *)

Module SupplierService.

Definition out_of_range (credit_rating : Z) : bool :=
  (credit_rating <? 0) || (5 <? credit_rating).

Definition bad_rating : exn :=
  HTTPException 400 "Credit rating must be between 0 and 5".

Definition create_supplier (supplier_in : SupplierCreate.t) : M Supplier.t :=
  if out_of_range (SupplierCreate.credit_rating supplier_in) then throw bad_rating
  else SupplierRepository.create (SupplierCreate.encode supplier_in).

Definition update_supplier (id : Z) (supplier_in : SupplierUpdate.t) : M Supplier.t :=
  let* supplier := SupplierRepository.get id in
  match attr (SupplierUpdate.credit_rating supplier_in) with
  | Some r =>
      if out_of_range r then throw bad_rating
      else SupplierRepository.update supplier (SupplierUpdate.dict supplier_in)
  | None => SupplierRepository.update supplier (SupplierUpdate.dict supplier_in)
  end.

Definition batch_create_suppliers (suppliers_in : list SupplierCreate.t)
  : M (list Supplier.t) :=
  for_each suppliers_in
    (λ supplier_in,
       if out_of_range (SupplierCreate.credit_rating supplier_in)
       then throw bad_rating else ret tt) >>
  SupplierRepository.batch_create (map SupplierCreate.encode suppliers_in).

Definition get_supplier (id : Z) : M Supplier.t :=
  let* supplier := SupplierRepository.get_with_products id in
  match supplier with
  | None =>
      throw (HTTPException 404 ("Supplier with ID " ++ PyStr.of_Z id ++ " not found"))
  | Some supplier => ret supplier
  end.

(** [sort_by] and [sort_order] travel on as keyword arguments, next to
    the filters. *)
Definition get_suppliers (skip limit : Z) (sort_by sort_order : option string)
    (filters : list (string * pyval)) : M (list Supplier.t) :=
  SupplierRepository.get_multi_with_products skip limit
    (("sort_by", PScalar (of_opt VStr sort_by))
     :: ("sort_order", PScalar (of_opt VStr sort_order)) :: filters).

Definition delete_supplier (id : Z) : M Supplier.t :=
  SupplierRepository.get id >> SupplierRepository.delete id.

Definition batch_delete_suppliers (ids : list Z) : M (list Supplier.t) :=
  SupplierRepository.batch_delete ids.

Definition get_top_rated_suppliers (limit : Z) : M (list Supplier.t) :=
  SupplierRepository.get_top_rated_suppliers limit.

Definition get_by_credit_rating (rating skip limit : Z) : M (list Supplier.t) :=
  if out_of_range rating then throw bad_rating
  else SupplierRepository.get_by_credit_rating rating skip limit.

Definition get_by_credit_rating_range (min_rating max_rating : option Z)
    (skip limit : Z) : M (list Supplier.t) :=
  if match min_rating with Some m => out_of_range m | None => false end then
    throw (HTTPException 400 "Minimum credit rating must be between 0 and 5")
  else if match max_rating with Some m => out_of_range m | None => false end then
    throw (HTTPException 400 "Maximum credit rating must be between 0 and 5")
  else if match min_rating, max_rating with
          | Some lo, Some hi => hi <? lo
          | _, _ => false
          end then
    throw (HTTPException 400
             "Minimum credit rating cannot be greater than maximum credit rating")
  else SupplierRepository.get_by_credit_rating_range min_rating max_rating skip limit.

End SupplierService.

(** ** The history service ([app/services/history.py]) *)

Module HistoryService.

(** Every method starts by fetching the product with [get], which raises
    for an absent id. *)
Definition get_price_history (product_id skip limit : Z) : M (list PriceHistory.t) :=
  ProductRepository.get product_id >>
  PriceHistoryRepository.get_by_product_id product_id skip limit.

Definition get_price_history_by_date_range (product_id : Z)
    (start_date end_date : option Z) (skip limit : Z) : M (list PriceHistory.t) :=
  ProductRepository.get product_id >>
  PriceHistoryRepository.get_by_date_range product_id start_date end_date skip limit.

Definition get_stock_history (product_id skip limit : Z) : M (list StockHistory.t) :=
  ProductRepository.get product_id >>
  StockHistoryRepository.get_by_product_id product_id skip limit.

Definition get_stock_history_by_date_range (product_id : Z)
    (start_date end_date : option Z) (skip limit : Z) : M (list StockHistory.t) :=
  ProductRepository.get product_id >>
  StockHistoryRepository.get_by_date_range product_id start_date end_date skip limit.

Definition add_price_change (product_id : Z) (old_price new_price : Q)
  : M PriceHistory.t :=
  ProductRepository.get product_id >>
  PriceHistoryRepository.add_price_change product_id (VFloat old_price) (VFloat new_price).

Definition add_stock_change (product_id old_quantity new_quantity : Z)
    (change_reason : option string) : M StockHistory.t :=
  ProductRepository.get product_id >>
  StockHistoryRepository.add_stock_change product_id (VInt old_quantity)
    (VInt new_quantity) (of_opt VStr change_reason).

Record CombinedHistory : Type := mkCombined {
  product_id : Z;
  product_name : string;
  combined_price_history : list PriceHistory.t;
  combined_stock_history : list StockHistory.t }.

Definition get_combined_history (product_id : Z) (start_date end_date : option Z)
    (skip limit : Z) : M CombinedHistory :=
  let* product := ProductRepository.get product_id in
  let* price_history :=
    PriceHistoryRepository.get_by_date_range product_id start_date end_date skip limit in
  let* stock_history :=
    StockHistoryRepository.get_by_date_range product_id start_date end_date skip limit in
  ret (mkCombined product_id (Product.name product) price_history stock_history).

End HistoryService.

(** ** The product endpoints ([app/api/v1/endpoints/product.py]) *)

Module Endpoints.

Record ProductListResponse : Type := mkResponse {
  items : list Product.t;
  total : Z;
  page : Z;
  size : Z;
  pages : Z }.

Record ListParams : Type := mkParams {
  p_skip : Z;
  p_limit : Z;
  p_page : option Z;
  p_size : option Z;
  p_name : option string;
  p_category : option string;
  p_min_price : option Q;
  p_max_price : option Q;
  p_min_stock : option Z;
  p_max_stock : option Z;
  p_sort : option string;
  p_order : option string }.

(** The bounds FastAPI enforces on the query before the handler runs. *)
Definition query_ok (p : ListParams) : bool :=
  (0 <=? p_skip p) && (1 <=? p_limit p) && (p_limit p <=? 100)
  && match p_page p with Some n => 1 <=? n | None => true end
  && match p_size p with Some n => (1 <=? n) && (n <=? 100) | None => true end.

(** The first lines of [get_products]: [(skip, limit, actual_skip,
    actual_size)] after the reconciliation of the two addressing modes. *)
Definition reconcile (skip limit : Z) (page size : option Z) : Z * Z * Z * Z :=
  let actual_size := match size with Some s => s | None => limit end in
  let actual_skip := skip in
  match page with
  | Some pg =>
      let actual_skip := (pg - 1) * actual_size in
      (actual_skip, actual_size, actual_skip, actual_size)
  | None => (skip, limit, actual_skip, actual_size)
  end.

Definition make_filters (p : ListParams) : list (string * pyval) :=
  ((if str_truthy (p_category p)
    then [("category", PScalar (of_opt VStr (p_category p)))] else []) ++
   (match p_min_price p, p_max_price p with
    | None, None => []
    | lo, hi => [("price_range",
                  PDict {[ "min" := of_opt VFloat lo; "max" := of_opt VFloat hi ]})]
    end) ++
   (match p_min_stock p, p_max_stock p with
    | None, None => []
    | lo, hi => [("stock_range",
                  PDict {[ "min" := of_opt VInt lo; "max" := of_opt VInt hi ]})]
    end))%list.

(** [GET /].  [ProductListResponse(...)] is taken to accept the products
    it is given: the validation of stored products against the response
    schema is not modelled, so that the model answers wherever the handler
    does, and with the same response. *)
Definition get_products (p : ListParams) : M ProductListResponse :=
  let filters := make_filters p in
  let '(skip, limit, actual_skip, actual_size) :=
    reconcile (p_skip p) (p_limit p) (p_page p) (p_size p) in
  let* products :=
    if str_truthy (p_name p) then
      ProductService.search_products (default "" (p_name p)) skip limit filters
    else
      ProductService.get_products skip limit (p_sort p) (p_order p) filters in
  let* total := ProductRepository.count filters in
  let current_page :=
    match p_page p with
    | Some pg => pg
    | None => if 0 <? actual_size then actual_skip / actual_size + 1 else 1
    end in
  let current_size := actual_size in
  ret (mkResponse products total current_page current_size
         (if 0 <? current_size
          then (total + current_size - 1) / current_size else 1)).

(** [PUT /{product_id}] *)
Definition update_product (product_id : Z) (product_in : ProductUpdate.t)
  : M Product.t :=
  let update_data := ProductUpdate.model_dump product_in in
  let change_reason := kw update_data "change_reason" in
  let update_data := delete "change_reason" update_data in
  ProductService.update_product product_id update_data change_reason.

(** [PUT /batch]; the result is the list under the key ["updated"].  The
    fallback names a method, [batch_update_products_silently], that the
    service does not have. *)
Definition batch_update_products (updates : list ProductBatchUpdateItem.t)
  : M (list Product.t) :=
  let updates := map ProductBatchUpdateItem.model_dump updates in
  try_except
    (ProductService.batch_update_products updates)
    (λ e,
       match e with
       | HTTPException status_code detail =>
           if (status_code =? 404) && PyStr.contains "not found" (PyStr.lower detail)
           then throw (AttributeError
             "'ProductService' object has no attribute 'batch_update_products_silently'")
           else throw e
       | _ => throw e
       end).

(** [[int(s.strip()) for s in product_ids.split(",") if s.strip()]];
    [None] is the [ValueError] of [int]. *)
Definition parse_ids (product_ids : string) : option (list Z) :=
  mapM PyStr.to_int
    (List.filter (λ s, negb (String.eqb (PyStr.strip s) ""))
       (PyStr.split "," product_ids)).

(** The function of this name is defined at module level in the
    endpoints file, with a [self] parameter it reads
    [product_repository] from; the service class has no such method. *)
Definition batch_delete_products_silently (ids : list Z) : M (list Product.t) :=
  for_collect ids []
    (λ deleted_products product_id,
       let* product := ProductRepository.get product_id in
       ProductRepository.delete product_id >>
       ret (deleted_products ++ [product])%list).

(** [DELETE /batch]; the result is the list under the key ["deleted"]. *)
Definition batch_delete_products (product_ids : string) : M (list Z) :=
  match parse_ids product_ids with
  | None =>
      throw (HTTPException 422
               "Invalid product IDs format. Must be comma-separated integers.")
  | Some [] => throw (HTTPException 400 "No valid product IDs provided")
  | Some ids =>
      try_except
        (let* deleted_products := ProductService.batch_delete_products ids in
         ret (map Product.id deleted_products))
        (λ e,
           match e with
           | HTTPException status_code detail =>
               if (status_code =? 404) && PyStr.contains "not found" (PyStr.lower detail)
               then throw (AttributeError
                 "'ProductService' object has no attribute 'batch_delete_products_silently'")
               else throw e
           | _ => throw e
           end)
  end.

End Endpoints.

(** ** Specification vocabulary *)

(** The ceiling of [a / b] for a positive [b]. *)
Definition ceil_div (a b : Z) : Z := - ((- a) / b).

(** The product with a given id, as [db.get] finds it. *)
Definition product_of (st : Store) (id : Z) : option Product.t :=
  List.find (λ r, Product.id r =? id) (rows (products st)).

Definition supplier_of (st : Store) (id : Z) : option Supplier.t :=
  List.find (λ r, Supplier.id r =? id) (rows (suppliers st)).

(** The serial counter of a table is ahead of every key in it. *)
Definition serial_fresh `{Model T} (tb : Table T) : Prop :=
  Forall (λ r, pk r < next_id tb) (rows tb).

(** The effect of deleting one product: its row, its history and its
    supplier associations go. *)
Definition remove_product (st : Store) (id : Z) : Store :=
  cascade (T:=Product.t) id
    (with_table
       (mkTable (filter (λ r, Product.id r ≠ id) (rows (products st)))
                (next_id (products st))) st).

Definition remove_products (st : Store) (ids : list Z) : Store :=
  foldl remove_product st ids.

(** Newest first: [a] is at least as recent as [b]; a NULL timestamp
    sorts before every date in descending order. *)
Definition newer_or_equal (a b : option Z) : Prop :=
  match a, b with
  | None, _ => True
  | Some _, None => False
  | Some x, Some y => y ≤ x
  end.

Definition prices_positive (st : Store) : Prop :=
  Forall (λ p, (0 < Product.price p)%Q) (rows (products st)).

(** The keyword dictionaries the history repositories build their rows
    from. *)
Definition price_change_data (pid now : Z) (old : Q) (x : val) : gmap string val :=
  {[ "product_id" := VInt pid; "old_price" := VFloat old;
     "new_price" := x; "timestamp" := VTime now ]}.

Definition stock_change_data (pid now old : Z) (x reason : val) : gmap string val :=
  {[ "product_id" := VInt pid; "old_quantity" := VInt old;
     "new_quantity" := x; "change_reason" := reason; "timestamp" := VTime now ]}.

(** The store after one more price-history row. *)
Definition with_price_row (st : Store) (row : PriceHistory.t) : Store :=
  mkStore (products st) (suppliers st) (product_suppliers st)
    (mkTable (rows (price_history st) ++ [row]) (next_id (price_history st) + 1))
    (stock_history st).

Definition with_stock_row (st : Store) (row : StockHistory.t) : Store :=
  mkStore (products st) (suppliers st) (product_suppliers st) (price_history st)
    (mkTable (rows (stock_history st) ++ [row]) (next_id (stock_history st) + 1)).

(** The two tracking steps of [update_product], named. *)
Definition price_step (update_data : gmap string val) (product : Product.t) : M unit :=
  match update_data !! "price" with
  | Some new_price =>
      if py_neb new_price (VFloat (Product.price product)) then
        PriceHistoryRepository.add_price_change (Product.id product)
          (VFloat (Product.price product)) new_price >> ret tt
      else ret tt
  | None => ret tt
  end.

Definition stock_step (update_data : gmap string val) (product : Product.t)
    (change_reason : val) : M unit :=
  match update_data !! "stock_quantity" with
  | Some new_quantity =>
      if py_neb new_quantity (VInt (Product.stock_quantity product)) then
        StockHistoryRepository.add_stock_change (Product.id product)
          (VInt (Product.stock_quantity product)) new_quantity change_reason
        >> ret tt
      else ret tt
  | None => ret tt
  end.

(** The price step of an update does not raise: the patch has no price,
    or a numeric one. *)
Definition price_accepted (update_data : gmap string val) : Prop :=
  match update_data !! "price" with
  | Some x => is_Some (as_number x)
  | None => True
  end.

(** A computation leaves a component of the store as it found it. *)
Definition preserves {A X} (f : Store → X) (m : M A) : Prop :=
  ∀ now st, f (m now st).2 = f st.

(** A timestamp lies within a pair of optional bounds; a row without a
    timestamp satisfies no bound. *)
Definition within (start_date end_date ts : option Z) : Prop :=
  match start_date with Some s => ∃ t, ts = Some t ∧ s ≤ t | None => True end
  ∧ match end_date with Some e => ∃ t, ts = Some t ∧ t ≤ e | None => True end.

(** Every table's serial counter is ahead of its keys. *)
Definition serials_fresh (st : Store) : Prop :=
  serial_fresh (products st) ∧ serial_fresh (suppliers st)
  ∧ serial_fresh (price_history st) ∧ serial_fresh (stock_history st).

(** The number of products of a category. *)
Definition in_category (st : Store) (c : option string) : nat :=
  length (filter (λ p, Product.category p = c) (rows (products st))).

(** The effect of deleting suppliers: their rows and their product
    associations go; products and histories stay. *)
Definition remove_suppliers (st : Store) (ids : list Z) : Store :=
  mkStore (products st)
    (mkTable (filter (λ s, Supplier.id s ∉ ids) (rows (suppliers st)))
             (next_id (suppliers st)))
    (filter (λ a, a.2 ∉ ids) (product_suppliers st))
    (price_history st) (stock_history st).

(** A computation keeps an invariant of the store, whether it returns or
    raises. *)
Definition maintains {A} (I : Store → Prop) (m : M A) : Prop :=
  ∀ now st, I st → I (m now st).2.

(** A computation moves the store along a relation. *)
Definition advances {A} (R : relation Store) (m : M A) : Prop :=
  ∀ now st, R st (m now st).2.

(** Both histories only gained rows, at their end. *)
Definition history_grows (st st' : Store) : Prop :=
  rows (price_history st) `prefix_of` rows (price_history st')
  ∧ rows (stock_history st) `prefix_of` rows (stock_history st').

(** What keeping the serial counters fresh asks of a mapped class: its
    table is one of the four, its cascade deletes only, a new object
    built without an explicit key takes the serial, and no assignment but
    the one of [id] touches the key. *)
Record serial_class (T : Type) `{Model T} : Prop := {
  serial_table : ∀ st, serials_fresh st → serial_fresh (table (T:=T) st);
  serial_with_table :
    ∀ tb st, serials_fresh st → serial_fresh tb → serials_fresh (with_table (T:=T) tb st);
  serial_cascade : ∀ id st, serials_fresh st → serials_fresh (cascade (T:=T) id st);
  serial_construct :
    ∀ serial now data (obj : T),
      construct serial now data = Some obj → is_none (kw data "id") = true →
      pk obj = serial;
  serial_onupdate : ∀ now (old new : T), pk (onupdate now old new) = pk new;
  serial_setattr :
    ∀ (o o' : T) f v, setattr o f v = Some o' → f ≠ "id" → pk o' = pk o }.

(** A piece of text with no blank and no comma in it. *)
Definition plain (s : string) : Prop :=
  Forall (λ c, PyStr.is_space c = false ∧ c ≠ ","%char) (list_ascii_of_string s).

(** What an update relies on in a mapped class: an assignment that
    the store accepts is read back equal ([==]) to the value assigned,
    touches no other column, and the [onupdate] stamp touches
    [updated_at] alone. *)
Record attr_class (T : Type) `{Model T} : Prop := {
  attr_assigned :
    ∀ (o o' : T) f v, setattr o f v = Some o' → f ∈ model_columns (T:=T) →
                      py_eqb (getattr o' f) v = true;
  attr_others :
    ∀ (o o' : T) f g v, setattr o f v = Some o' → g ≠ f → getattr o' g = getattr o g;
  attr_onupdate :
    ∀ now (old new : T) g, g ≠ "updated_at" →
                           getattr (onupdate now old new) g = getattr new g }.

(** The integers an [Integer] column holds and the driver binds against
    one. *)
Definition int32 (z : Z) : Prop := -2147483648 ≤ z ≤ 2147483647.

#[export] Instance within_dec start_date end_date ts :
  Decision (within start_date end_date ts).
Proof.
  assert (∀ (P : Z → Prop), (∀ t, Decision (P t)) →
          Decision (∃ t, ts = Some t ∧ P t)) as Hbound.
  { intros P HP. destruct ts as [t|].
    - destruct (HP t) as [Ht|Ht].
      + left. exists t. split; [reflexivity | exact Ht].
      + right. intros (t' & Heq & Ht'). injection Heq as ->. exact (Ht Ht').
    - right. intros (t' & Heq & _). discriminate Heq. }
  unfold within. destruct start_date as [s|], end_date as [e|]; apply _.
Defined.

(** A page of records, newest first: the window that [skip] and [limit]
    cut out of the records put in descending order of timestamp.  Records
    of one timestamp come in any order. *)
Definition newest_first_page {T} (ts : T → option Z) (records : list T)
    (skip limit : Z) (l : list T) : Prop :=
  ∃ all, all ≡ₚ records
         ∧ StronglySorted (λ a b, newer_or_equal (ts a) (ts b)) all
         ∧ l = take (Z.to_nat limit) (drop (Z.to_nat skip) all).

(** Two stores hold the same rows and associations; the serial counters
    may differ. *)
Definition same_rows (st st' : Store) : Prop :=
  rows (products st') = rows (products st)
  ∧ rows (suppliers st') = rows (suppliers st)
  ∧ product_suppliers st' = product_suppliers st
  ∧ rows (price_history st') = rows (price_history st)
  ∧ rows (stock_history st') = rows (stock_history st).

(** A text the store can hold in a column of the given width, or in a
    [Text] column when no width is given: PostgreSQL refuses the character
    of code 0 in any text. *)
Definition text_fits (width : option nat) (s : string) : Prop :=
  Forall (λ c, c ≠ "000"%char) (list_ascii_of_string s)
  ∧ ∀ w, width = Some w → (String.length s ≤ w)%nat.

(** An input whose values fit the columns they go to: [String(100)] for
    the name, [String(50)] for the category, [Text] for the description
    and the contact information, [Integer] for the stock quantity. *)
Definition product_fits (p : ProductCreate.t) : Prop :=
  text_fits (Some 100%nat) (ProductCreate.name p)
  ∧ (∀ d, ProductCreate.description p = Some d → text_fits None d)
  ∧ (∀ c, ProductCreate.category p = Some c → text_fits (Some 50%nat) c)
  ∧ int32 (ProductCreate.stock_quantity p).

Definition supplier_fits (s : SupplierCreate.t) : Prop :=
  text_fits (Some 100%nat) (SupplierCreate.name s)
  ∧ text_fits None (SupplierCreate.contact_info s).

(** What a stored supplier, and a stored product, keeps of the input it was
    created from. *)
Definition supplier_from (s : Supplier.t) (i : SupplierCreate.t) : Prop :=
  Supplier.name s = SupplierCreate.name i
  ∧ Supplier.contact_info s = SupplierCreate.contact_info i
  ∧ Supplier.credit_rating s = SupplierCreate.credit_rating i.

Definition product_from (q : Product.t) (i : ProductCreate.t) : Prop :=
  Product.name q = ProductCreate.name i
  ∧ Product.price q = ProductCreate.price i
  ∧ Product.description q = ProductCreate.description i
  ∧ Product.stock_quantity q = ProductCreate.stock_quantity i
  ∧ Product.category q = ProductCreate.category i
  ∧ Product.discount q = default (inject_Z 0) (ProductCreate.discount i).

(** A list request that the store can answer: a sort field that is left
    out, empty or the name of a column, stock bounds of 32 bits and an
    offset of 64 bits. *)
Definition list_query_fits (p : Endpoints.ListParams) : Prop :=
  (∀ f, Endpoints.p_sort p = Some f → f = "" ∨ hasattr (T:=Product.t) f = true)
  ∧ (∀ n, Endpoints.p_min_stock p = Some n → int32 n)
  ∧ (∀ n, Endpoints.p_max_stock p = Some n → int32 n)
  ∧ (Endpoints.reconcile (Endpoints.p_skip p) (Endpoints.p_limit p)
       (Endpoints.p_page p) (Endpoints.p_size p)).1.1.1 < 2 ^ 63.

(** ** Sample data *)

Module Sample.

Definition desk : Product.t :=
  Product.mk 1 "Desk" (1999 # 100) None 5 (Some "Home") 0 (Some 10) (Some 10).
Definition lamp : Product.t :=
  Product.mk 2 "Lamp" (500 # 100) None 7 None 0 (Some 11) (Some 11).
Definition acme : Supplier.t :=
  Supplier.mk 1 "Acme" "acme@example.org" 4 (Some 12) (Some 12).

Definition empty_store : Store :=
  mkStore (mkTable [] 1) (mkTable [] 1) [] (mkTable [] 1) (mkTable [] 1).

(** Two products and one supplier; the lamp precedes the desk in
    storage order. *)
Definition store : Store :=
  mkStore (mkTable [lamp; desk] 3) (mkTable [acme] 2) [] (mkTable [] 1) (mkTable [] 1).

Definition change1 : PriceHistory.t := PriceHistory.mk 1 1 (1999 # 100) (2499 # 100) (Some 20).
Definition change2 : PriceHistory.t := PriceHistory.mk 2 1 (2499 # 100) (2999 # 100) (Some 30).

Definition store_with_history : Store :=
  mkStore (mkTable [lamp; desk] 3) (mkTable [acme] 2) []
    (mkTable [change1; change2] 3) (mkTable [] 1).

Definition bolt : Supplier.t :=
  Supplier.mk 2 "Bolt" "bolt@example.org" 2 (Some 13) (Some 13).

(** Two suppliers, both linked to the desk. *)
Definition store_with_links : Store :=
  mkStore (mkTable [lamp; desk] 3) (mkTable [acme; bolt] 3) [(1, 1); (1, 2)]
    (mkTable [change1; change2] 3) (mkTable [] 1).

Definition both_modes : Endpoints.ListParams :=
  Endpoints.mkParams 5 7 (Some 2) (Some 1) None None None None None None None (Some "asc").

End Sample.

(** * Properties *)

(** ** Running computations *)

Lemma bind_ok {A B} (m : M A) (k : A → M B) now st a st' :
  m now st = (Ok a, st') → bind m k now st = k a now st'.
Proof. intros Hm. unfold bind. now rewrite Hm. Qed.

Lemma bind_err {A B} (m : M A) (k : A → M B) now st e st' :
  m now st = (Err e, st') → bind m k now st = (Err e, st').
Proof. intros Hm. unfold bind. now rewrite Hm. Qed.

Lemma bind_inv {A B} (m : M A) (k : A → M B) now st b st2 :
  bind m k now st = (Ok b, st2) →
  ∃ a st1, m now st = (Ok a, st1) ∧ k a now st1 = (Ok b, st2).
Proof.
  unfold bind. destruct (m now st) as [[a|e] st1]; intros Hk.
  - eauto.
  - discriminate.
Qed.

Lemma db_execute_run `{Model T} (q : query) now st :
  db_execute q now st = (select_rows q (rows (table st)), st).
Proof. reflexivity. Qed.

Lemma db_count_run `{Model T} (conds : list cond) now st :
  db_count conds now st =
  (match select_rows (T:=T) (mkQuery conds None None None) (rows (table st)) with
   | Ok l => Ok (Z.of_nat (length l))
   | Err e => Err e
   end, st).
Proof.
  unfold db_count, bind. rewrite db_execute_run.
  now destruct (select_rows _ _).
Qed.

Lemma get_found `{Model T} id now st r :
  List.find (λ r, pk r =? id) (rows (table st)) = Some r →
  BaseRepository.get id now st = (Ok r, st).
Proof.
  intros Hf. unfold BaseRepository.get, db_get, bind, get_store, ret.
  now rewrite Hf.
Qed.

Lemma get_missing `{Model T} id now st :
  List.find (λ r, pk r =? id) (rows (table st)) = None →
  BaseRepository.get id now st =
  (Err (NotFoundException (model_name ++ " with id " ++ PyStr.of_Z id ++ " not found")), st).
Proof.
  intros Hf. unfold BaseRepository.get, db_get, bind, get_store, ret.
  now rewrite Hf.
Qed.

(** ** Reading rows *)

Lemma select_rows_ok `{Model T} (q : query) (tb : list T) :
  forallb bindable (q_where q) = true →
  negative (q_offset q) = false → negative (q_limit q) = false →
  select_rows q tb
  = Ok (window (q_offset q) (q_limit q)
          (ordered (q_order_by q)
             (List.filter (λ r, forallb (holds r) (q_where q)) tb))).
Proof. intros Hb Ho Hl. unfold select_rows. now rewrite Hb, Ho, Hl. Qed.

Lemma window_all {T} (l : list T) (limit : Z) :
  Z.of_nat (length l) ≤ limit → window (Some 0) (Some limit) l = l.
Proof.
  intros Hl. unfold window. cbn. rewrite drop_0. apply take_ge. lia.
Qed.

Lemma window_sublist {T} (off lim : option Z) (l : list T) :
  window off lim l `sublist_of` l.
Proof.
  unfold window. destruct off, lim; simpl.
  - etransitivity; [apply sublist_take | apply sublist_drop].
  - apply sublist_drop.
  - apply sublist_take.
  - reflexivity.
Qed.

Lemma window_length {T} (off : option Z) (limit : Z) (l : list T) :
  0 ≤ limit → Z.of_nat (length (window off (Some limit) l)) ≤ limit.
Proof.
  intros Hl. unfold window. rewrite length_take. lia.
Qed.

Lemma ordered_Permutation `{Model T} (ob : option (string * direction)) (l : list T) :
  ordered ob l ≡ₚ l.
Proof.
  destruct ob as [ob|]; simpl; [|reflexivity].
  apply merge_sort_Permutation.
Qed.

Lemma select_rows_inv `{Model T} (q : query) (tb l : list T) :
  select_rows q tb = Ok l →
  forallb bindable (q_where q) = true
  ∧ negative (q_offset q) = false ∧ negative (q_limit q) = false
  ∧ l = window (q_offset q) (q_limit q)
          (ordered (q_order_by q)
             (List.filter (λ r, forallb (holds r) (q_where q)) tb)).
Proof.
  unfold select_rows.
  destruct (forallb bindable (q_where q)); simpl; [|discriminate].
  destruct (negative (q_offset q)); simpl; [discriminate|].
  destruct (negative (q_limit q)); simpl; [discriminate|].
  intros [= <-]. done.
Qed.


Lemma select_rows_storage_order `{Model T} (q : query) (tb l : list T) :
  q_order_by q = None → select_rows q tb = Ok l → l `sublist_of` tb.
Proof.
  intros Hob Hsel. apply select_rows_inv in Hsel as (_ & _ & _ & ->).
  rewrite Hob. simpl. etransitivity; [apply window_sublist|].
  induction tb as [|a tb IH]; simpl; [done|].
  destruct (forallb (holds a) (q_where q)); [by apply sublist_skip | by apply sublist_cons].
Qed.

(** ** Reading conditions *)

Lemma Qcompare_inject_Z (a b : Z) : (inject_Z a ?= inject_Z b)%Q = (a ?= b).
Proof. unfold Qcompare. simpl. by rewrite !Z.mul_1_r. Qed.

Lemma sql_compare_ints (a b : Z) : sql_compare (VInt a) (VInt b) = Some (a ?= b).
Proof. simpl. by rewrite Qcompare_inject_Z. Qed.

Lemma test_op_ge (a b : Z) : test_op OpGe (a ?= b) = true ↔ b ≤ a.
Proof. destruct (Z.compare_spec a b); simpl; split; (lia || done). Qed.

Lemma test_op_le (a b : Z) : test_op OpLe (a ?= b) = true ↔ a ≤ b.
Proof. destruct (Z.compare_spec a b); simpl; split; (lia || done). Qed.

Lemma test_op_lt (a b : Z) : test_op OpLt (a ?= b) = true ↔ a < b.
Proof. destruct (Z.compare_spec a b); simpl; split; (lia || done). Qed.

Lemma test_op_eq (a b : Z) : test_op OpEq (a ?= b) = true ↔ a = b.
Proof. destruct (Z.compare_spec a b); simpl; split; (lia || done). Qed.

(** ** Pagination (C5) *)

Lemma ceil_div_bounds (a b : Z) :
  0 < b → (ceil_div a b - 1) * b < a ∧ a ≤ ceil_div a b * b.
Proof.
  intros Hb. unfold ceil_div.
  pose proof (Z.div_mod (- a) b ltac:(lia)) as Hdm.
  pose proof (Z.mod_pos_bound (- a) b Hb) as Hm.
  nia.
Qed.

Lemma pages_formula_is_ceiling (total size : Z) :
  0 < size → (total + size - 1) / size = ceil_div total size.
Proof.
  intros Hs.
  destruct (ceil_div_bounds total size Hs) as [Hlo Hhi].
  symmetry. apply (Z.div_unique_pos _ _ _ (total + size - 1 - size * ceil_div total size)); lia.
Qed.

Lemma reconcile_both (skip limit pg sz : Z) :
  Endpoints.reconcile skip limit (Some pg) (Some sz)
  = ((pg - 1) * sz, sz, (pg - 1) * sz, sz).
Proof. reflexivity. Qed.

(** C5.  When a list request carries both [page] and [size] (whatever
    [skip] and [limit] it also carries), the items are fetched with
    [skip = (page - 1) * size] and [limit = size], the response reports
    that page and size, and its [pages] field is the ceiling of
    [total / size], or [1] when [size <= 0]. *)
Theorem get_products_page_size_precedence
    (p : Endpoints.ListParams) (pg sz now : Z) (st st' : Store)
    (resp : Endpoints.ProductListResponse) :
  Endpoints.p_page p = Some pg →
  Endpoints.p_size p = Some sz →
  Endpoints.get_products p now st = (Ok resp, st') →
  (if str_truthy (Endpoints.p_name p)
   then ProductService.search_products (default "" (Endpoints.p_name p))
          ((pg - 1) * sz) sz (Endpoints.make_filters p) now st
   else ProductService.get_products ((pg - 1) * sz) sz
          (Endpoints.p_sort p) (Endpoints.p_order p) (Endpoints.make_filters p) now st)
  = (Ok (Endpoints.items resp), st)
  ∧ ProductRepository.count (Endpoints.make_filters p) now st
    = (Ok (Endpoints.total resp), st)
  ∧ Endpoints.page resp = pg
  ∧ Endpoints.size resp = sz
  ∧ Endpoints.pages resp
    = (if 0 <? sz then ceil_div (Endpoints.total resp) sz else 1).
Proof.
  intros Hpg Hsz Hrun.
  unfold Endpoints.get_products in Hrun.
  rewrite Hpg, Hsz, reconcile_both in Hrun.
  apply bind_inv in Hrun as (products & st1 & Hitems & Hrun).
  apply bind_inv in Hrun as (total & st2 & Hcount & Hret).
  assert (st1 = st) as ->.
  { destruct (str_truthy (Endpoints.p_name p));
      [ unfold ProductService.search_products, ProductRepository.search_products in Hitems
      | unfold ProductService.get_products, ProductRepository.get_multi_with_suppliers
          in Hitems ];
      rewrite db_execute_run in Hitems; congruence. }
  assert (st2 = st) as ->.
  { unfold ProductRepository.count in Hcount. rewrite db_count_run in Hcount.
    congruence. }
  unfold ret in Hret. injection Hret as <- <-. simpl.
  split; [destruct (str_truthy (Endpoints.p_name p)); exact Hitems|].
  repeat split; try assumption.
  destruct (0 <? sz) eqn:Hpos; [|reflexivity].
  apply pages_formula_is_ceiling. lia.
Qed.

Lemma get_products_page_size_precedence_witness :
  ∃ resp,
    Endpoints.get_products Sample.both_modes 100 Sample.store = (Ok resp, Sample.store)
    ∧ Endpoints.page resp = 2 ∧ Endpoints.size resp = 1
    ∧ Endpoints.pages resp = (if 0 <? 1 then ceil_div (Endpoints.total resp) 1 else 1).
Proof.
  eexists. split; [vm_compute; reflexivity|].
  apply (get_products_page_size_precedence Sample.both_modes 2 1 100
           Sample.store Sample.store);
    [reflexivity | reflexivity | vm_compute; reflexivity].
Defined.

(** ** Supplier rating bound (C6) *)

Lemma out_of_range_iff (r : Z) :
  SupplierService.out_of_range r = true ↔ r < 0 ∨ 5 < r.
Proof. unfold SupplierService.out_of_range. lia. Qed.

Lemma rating_check_stops (l : list SupplierCreate.t) now st :
  Exists (λ s, SupplierCreate.credit_rating s < 0 ∨ 5 < SupplierCreate.credit_rating s) l →
  for_each l
    (λ supplier_in,
       if SupplierService.out_of_range (SupplierCreate.credit_rating supplier_in)
       then throw SupplierService.bad_rating else ret tt) now st
  = (Err SupplierService.bad_rating, st).
Proof.
  induction l as [|s l IH]; intros Hex.
  - inversion Hex.
  - cbn [for_each]. unfold bind at 1.
    destruct (SupplierService.out_of_range (SupplierCreate.credit_rating s)) eqn:Hs.
    + reflexivity.
    + cbn. apply IH. inversion Hex as [? ? Hbad|]; [|assumption].
      apply out_of_range_iff in Hbad. congruence.
Qed.

(** C6.  A supplier create, a batch create containing one such record,
    or a single update, whose credit rating lies outside [0, 5], ends in
    an error and leaves the store exactly as it was: nothing is written. *)
Theorem supplier_rating_rejected_before_write :
  (∀ (s : SupplierCreate.t) now st,
     SupplierCreate.credit_rating s < 0 ∨ 5 < SupplierCreate.credit_rating s →
     SupplierService.create_supplier s now st = (Err SupplierService.bad_rating, st))
  ∧ (∀ (l : list SupplierCreate.t) now st,
       Exists (λ s, SupplierCreate.credit_rating s < 0
                    ∨ 5 < SupplierCreate.credit_rating s) l →
       SupplierService.batch_create_suppliers l now st
       = (Err SupplierService.bad_rating, st))
  ∧ (∀ (id : Z) (u : SupplierUpdate.t) (r : Z) now st,
       attr (SupplierUpdate.credit_rating u) = Some r →
       r < 0 ∨ 5 < r →
       SupplierService.update_supplier id u now st
       = (Err (match supplier_of st id with
               | Some _ => SupplierService.bad_rating
               | None => NotFoundException
                           ("Supplier with id " ++ PyStr.of_Z id ++ " not found")
               end), st)).
Proof.
  split; [|split].
  - intros s now st Hbad. apply out_of_range_iff in Hbad.
    unfold SupplierService.create_supplier. now rewrite Hbad.
  - intros l now st Hex. unfold SupplierService.batch_create_suppliers.
    apply bind_err. now apply rating_check_stops.
  - intros id u r now st Hr Hbad. apply out_of_range_iff in Hbad.
    unfold SupplierService.update_supplier, SupplierRepository.get, supplier_of.
    destruct (List.find _ _) as [s|] eqn:Hf.
    + rewrite (bind_ok _ _ _ _ s st) by (now apply (get_found (T:=Supplier.t))).
      now rewrite Hr, Hbad.
    + apply bind_err.
      etransitivity; [apply (get_missing (T:=Supplier.t)); exact Hf | reflexivity].
Qed.

Lemma supplier_rating_rejected_before_write_witness :
  SupplierService.create_supplier (SupplierCreate.mk "Bolt" "bolt@example.org" 6)
    100 Sample.store = (Err SupplierService.bad_rating, Sample.store)
  ∧ SupplierService.batch_create_suppliers
      [SupplierCreate.mk "Nut" "nut@example.org" 3;
       SupplierCreate.mk "Bolt" "bolt@example.org" 6] 100 Sample.store
    = (Err SupplierService.bad_rating, Sample.store)
  ∧ SupplierService.update_supplier 1
      (SupplierUpdate.mk None None (Some (Some (-1)))) 100 Sample.store
    = (Err SupplierService.bad_rating, Sample.store).
Proof.
  destruct supplier_rating_rejected_before_write as (Hc & Hb & Hu).
  split; [|split].
  - apply Hc. simpl. lia.
  - apply Hb. apply Exists_cons_tl, Exists_cons_hd. simpl. lia.
  - apply (Hu 1 _ (-1)); [reflexivity | lia].
Defined.

(** ** History reads, newest first (C9) *)

Lemma val_leb_timestamps (a b : option Z) :
  val_leb (of_opt VTime b) (of_opt VTime a) = true ↔ newer_or_equal a b.
Proof.
  destruct a as [x|], b as [y|]; cbn; try (intuition (congruence || lia)).
  unfold val_leb. cbn. destruct (y ?= x) eqn:Hc.
  - apply Z.compare_eq in Hc. intuition lia.
  - rewrite Z.compare_lt_iff in Hc. intuition lia.
  - rewrite Z.compare_gt_iff in Hc. intuition (congruence || lia).
Qed.

#[local] Instance newer_or_equal_trans : Transitive newer_or_equal.
Proof. intros [x|] [y|] [z|]; cbn; intuition lia. Qed.

Lemma newer_or_equal_total (a b : option Z) : newer_or_equal a b ∨ newer_or_equal b a.
Proof. destruct a as [x|], b as [y|]; cbn; intuition lia. Qed.

Lemma StronglySorted_impl {A} (R S : relation A) (l : list A) :
  (∀ x y, R x y → S x y) → StronglySorted R l → StronglySorted S l.
Proof.
  intros HRS Hl. induction Hl as [|x l Hl IH Hx]; constructor; [assumption|].
  eapply Forall_impl; [exact Hx | auto].
Qed.

Lemma StronglySorted_window {A} (R : relation A) (l : list A) (n m : nat) :
  StronglySorted R l → StronglySorted R (take m (drop n l)).
Proof.
  intros Hl.
  rewrite <- (take_drop n l) in Hl. apply StronglySorted_app_1_r in Hl.
  rewrite <- (take_drop m (drop n l)) in Hl. now apply StronglySorted_app_1_l in Hl.
Qed.

Section NewestFirst.
Context {T : Type} `{Model T} (ts : T → option Z).
Hypothesis getattr_timestamp : ∀ r, getattr r "timestamp" = of_opt VTime (ts r).

Lemma order_le_timestamp_desc (a b : T) :
  order_le ("timestamp", Desc) a b ↔ newer_or_equal (ts a) (ts b).
Proof.
  unfold order_le. cbn. rewrite !getattr_timestamp.
  apply val_leb_timestamps.
Qed.

Lemma sort_newest_first (l : list T) :
  StronglySorted (λ a b, newer_or_equal (ts a) (ts b))
    (merge_sort (order_le ("timestamp", Desc)) l).
Proof.
  apply (StronglySorted_impl (order_le ("timestamp", Desc))).
  { intros x y. apply order_le_timestamp_desc. }
  apply StronglySorted_merge_sort.
  - intros x y z. rewrite !order_le_timestamp_desc.
    apply newer_or_equal_trans.
  - intros x y. rewrite !order_le_timestamp_desc. apply newer_or_equal_total.
Qed.

(** A statement ordered by [timestamp] descending, with scalar operands
    and a non-negative window, runs and returns its rows newest first. *)
Lemma timestamp_desc_query (conds : list cond) (skip limit : Z) now st :
  forallb bindable conds = true → 0 ≤ skip → 0 ≤ limit →
  ∃ l, db_execute (T:=T)
         (mkQuery conds (Some ("timestamp", Desc)) (Some skip) (Some limit)) now st
       = (Ok l, st)
       ∧ StronglySorted (λ a b, newer_or_equal (ts a) (ts b)) l.
Proof.
  intros Hb Hs Hl. rewrite db_execute_run. unfold select_rows. cbn.
  rewrite Hb. cbn.
  destruct (skip <? 0) eqn:E1; [lia|]. destruct (limit <? 0) eqn:E2; [lia|]. cbn.
  eexists. split; [reflexivity|].
  apply StronglySorted_window, sort_newest_first.
Qed.
End NewestFirst.

Lemma date_conditions_bindable (product_id : Z) (start_date end_date : option Z) :
  forallb bindable (date_conditions product_id start_date end_date) = true.
Proof. now destruct start_date, end_date. Qed.

Section HistoryRows.
Context {T : Type} `{Model T} (pid : T → Z) (ts : T → option Z).
Hypothesis getattr_product_id : ∀ r, getattr r "product_id" = VInt (pid r).
Hypothesis getattr_timestamp : ∀ r, getattr r "timestamp" = of_opt VTime (ts r).

Lemma holds_product_id (r : T) (product_id : Z) :
  holds r (CCompare "product_id" OpEq (PScalar (VInt product_id))) = true
  ↔ pid r = product_id.
Proof.
  cbn [holds]. rewrite getattr_product_id, sql_compare_ints. apply test_op_eq.
Qed.

Lemma holds_timestamp_ge (r : T) (s : Z) :
  holds r (CCompare "timestamp" OpGe (PScalar (VTime s))) = true
  ↔ ∃ t, ts r = Some t ∧ s ≤ t.
Proof.
  cbn [holds]. rewrite getattr_timestamp.
  destruct (ts r) as [t|]; cbn [of_opt sql_compare as_number].
  - rewrite test_op_ge. split; [eauto|]. by intros (? & [= <-] & ?).
  - split; [done|]. by intros (? & ? & ?).
Qed.

Lemma holds_timestamp_le (r : T) (e : Z) :
  holds r (CCompare "timestamp" OpLe (PScalar (VTime e))) = true
  ↔ ∃ t, ts r = Some t ∧ t ≤ e.
Proof.
  cbn [holds]. rewrite getattr_timestamp.
  destruct (ts r) as [t|]; cbn [of_opt sql_compare as_number].
  - rewrite test_op_le. split; [eauto|]. by intros (? & [= <-] & ?).
  - split; [done|]. by intros (? & ? & ?).
Qed.

Lemma holds_timestamp_between (r : T) (s e : Z) :
  holds r (CBetween "timestamp" (VTime s) (VTime e)) = true
  ↔ (∃ t, ts r = Some t ∧ s ≤ t) ∧ (∃ t, ts r = Some t ∧ t ≤ e).
Proof.
  cbn [holds]. rewrite getattr_timestamp.
  destruct (ts r) as [t|]; cbn [of_opt sql_compare as_number].
  - rewrite andb_true_iff, test_op_ge, test_op_le.
    split.
    + intros [??]; split; eauto.
    + intros [(? & [= <-] & ?) (? & [= <-] & ?)]. done.
  - split; [done|]. by intros [(? & ? & ?) _].
Qed.

Lemma holds_date_conditions (r : T) (product_id : Z) (start_date end_date : option Z) :
  forallb (holds r) (date_conditions product_id start_date end_date) = true
  ↔ pid r = product_id ∧ within start_date end_date (ts r).
Proof.
  unfold date_conditions, within.
  cbn [forallb]. rewrite andb_true_iff, holds_product_id.
  destruct start_date as [s|], end_date as [e|]; cbn [forallb];
    rewrite ?andb_true_r, ?holds_timestamp_between, ?holds_timestamp_ge,
      ?holds_timestamp_le; tauto.
Qed.

(** What a read of the history of one product returns: rows of that
    product within the bounds, at most [limit] of them; and, when the
    window covers the table, all of them. *)
Lemma date_range_read (product_id : Z) (start_date end_date : option Z)
    (skip limit : Z) now st :
  0 ≤ skip → 0 ≤ limit →
  ∃ l, db_execute (T:=T)
         (mkQuery (date_conditions product_id start_date end_date)
            (Some ("timestamp", Desc)) (Some skip) (Some limit)) now st = (Ok l, st)
       ∧ Forall (λ r, r ∈ rows (table st) ∧ pid r = product_id
                      ∧ within start_date end_date (ts r)) l
       ∧ Z.of_nat (length l) ≤ limit
       ∧ (skip = 0 → Z.of_nat (length (rows (table st))) ≤ limit →
          ∀ r, r ∈ rows (table st) → pid r = product_id →
               within start_date end_date (ts r) → r ∈ l).
Proof.
  intros Hs Hl. rewrite db_execute_run.
  pose proof (select_rows_ok (T:=T)
    (mkQuery (date_conditions product_id start_date end_date)
       (Some ("timestamp", Desc)) (Some skip) (Some limit)) (rows (table st))) as Hok.
  cbn [q_where q_offset q_limit q_order_by negative] in Hok.
  rewrite Hok; clear Hok.
  2: { apply date_conditions_bindable. }
  2, 3: apply Z.ltb_ge; lia.
  eexists. split; [reflexivity|]. split; [|split].
  - apply Forall_forall. intros r Hr.
    apply (λ H, elem_of_sublist _ _ _ H (window_sublist _ _ _)) in Hr.
    rewrite ordered_Permutation in Hr.
    apply list_elem_of_In, filter_In in Hr as [Hin Hh].
    apply holds_date_conditions in Hh. split; [by apply list_elem_of_In | done].
  - by apply window_length.
  - intros -> Hlen r Hr Hp Hw.
    rewrite window_all.
    + rewrite ordered_Permutation. apply list_elem_of_In, filter_In.
      split; [by apply list_elem_of_In | by apply holds_date_conditions].
    + rewrite (Permutation_length (ordered_Permutation _ _)).
      pose proof (List.filter_length_le
        (λ r, forallb (holds r) (date_conditions product_id start_date end_date))
        (rows (table st))). lia.
Qed.

Lemma filter_holds (conds : list cond) (P : T → Prop) `{!∀ r, Decision (P r)}
    (l : list T) :
  (∀ r, forallb (holds r) conds = true ↔ P r) →
  List.filter (λ r, forallb (holds r) conds) l = filter P l.
Proof.
  intros HP. induction l as [|r l IH]; [reflexivity|].
  cbn [List.filter]. rewrite filter_cons, IH.
  destruct (forallb (holds r) conds) eqn:Hr.
  - rewrite decide_True by (apply HP; exact Hr). reflexivity.
  - rewrite decide_False; [reflexivity|].
    intros HPr. apply HP in HPr. congruence.
Qed.

(** A statement ordered by [timestamp] descending returns the page that
    its offset and limit cut out of the matching rows, newest first. *)
Lemma newest_first_read (conds : list cond) (P : T → Prop) `{!∀ r, Decision (P r)}
    (skip limit : Z) now st :
  (∀ r, forallb (holds r) conds = true ↔ P r) →
  forallb bindable conds = true → 0 ≤ skip → 0 ≤ limit →
  ∃ l, db_execute (T:=T)
         (mkQuery conds (Some ("timestamp", Desc)) (Some skip) (Some limit)) now st
       = (Ok l, st)
       ∧ newest_first_page ts (filter P (rows (table st))) skip limit l
       ∧ StronglySorted (λ a b, newer_or_equal (ts a) (ts b)) l.
Proof.
  intros HP Hb Hs Hl. rewrite db_execute_run.
  rewrite select_rows_ok; cbn [q_where q_offset q_limit q_order_by negative];
    [|exact Hb|apply Z.ltb_ge; lia|apply Z.ltb_ge; lia].
  eexists. split; [reflexivity|]. split.
  - eexists. split; [|split; [|reflexivity]].
    + cbn [ordered]. rewrite merge_sort_Permutation, (filter_holds conds P) by exact HP.
      reflexivity.
    + apply (sort_newest_first ts getattr_timestamp).
  - apply StronglySorted_window, (sort_newest_first ts getattr_timestamp).
Qed.

End HistoryRows.

Lemma price_row_product (r : PriceHistory.t) :
  getattr r "product_id" = VInt (PriceHistory.product_id r).
Proof. reflexivity. Qed.

Lemma price_row_timestamp (r : PriceHistory.t) :
  getattr r "timestamp" = of_opt VTime (PriceHistory.timestamp r).
Proof. reflexivity. Qed.

Lemma stock_row_product (r : StockHistory.t) :
  getattr r "product_id" = VInt (StockHistory.product_id r).
Proof. reflexivity. Qed.

Lemma stock_row_timestamp (r : StockHistory.t) :
  getattr r "timestamp" = of_opt VTime (StockHistory.timestamp r).
Proof. reflexivity. Qed.

(** C9.  Each of the four history reads ([get_by_product_id] and
    [get_by_date_range], on price history and on stock history), for a
    product id of 32 bits and a non-negative [skip] and [limit] of 64 bits, returns
    the records of that product (within the dates, for a date range) in
    descending order of timestamp: what it returns is the page that [skip]
    and [limit] cut out of all these records ordered newest first, a
    record without a timestamp counting as newest.  The store is left as
    it was. *)
Theorem history_reads_newest_first
    (product_id skip limit : Z) (start_date end_date : option Z) now st :
  0 ≤ skip < 2 ^ 63 → 0 ≤ limit < 2 ^ 63 → int32 product_id →
  (∃ l, PriceHistoryRepository.get_by_product_id product_id skip limit now st = (Ok l, st)
        ∧ newest_first_page PriceHistory.timestamp
            (filter (λ h, PriceHistory.product_id h = product_id)
               (rows (price_history st))) skip limit l
        ∧ StronglySorted
            (λ a b, newer_or_equal (PriceHistory.timestamp a) (PriceHistory.timestamp b)) l)
  ∧ (∃ l, PriceHistoryRepository.get_by_date_range product_id start_date end_date
            skip limit now st = (Ok l, st)
          ∧ newest_first_page PriceHistory.timestamp
              (filter (λ h, PriceHistory.product_id h = product_id
                            ∧ within start_date end_date (PriceHistory.timestamp h))
                 (rows (price_history st))) skip limit l
          ∧ StronglySorted
              (λ a b, newer_or_equal (PriceHistory.timestamp a) (PriceHistory.timestamp b)) l)
  ∧ (∃ l, StockHistoryRepository.get_by_product_id product_id skip limit now st = (Ok l, st)
          ∧ newest_first_page StockHistory.timestamp
              (filter (λ h, StockHistory.product_id h = product_id)
                 (rows (stock_history st))) skip limit l
          ∧ StronglySorted
              (λ a b, newer_or_equal (StockHistory.timestamp a) (StockHistory.timestamp b)) l)
  ∧ (∃ l, StockHistoryRepository.get_by_date_range product_id start_date end_date
            skip limit now st = (Ok l, st)
          ∧ newest_first_page StockHistory.timestamp
              (filter (λ h, StockHistory.product_id h = product_id
                            ∧ within start_date end_date (StockHistory.timestamp h))
                 (rows (stock_history st))) skip limit l
          ∧ StronglySorted
              (λ a b, newer_or_equal (StockHistory.timestamp a) (StockHistory.timestamp b)) l).
Proof.
  intros [Hs _] [Hl _] _.
  split; [|split; [|split]].
  - apply (newest_first_read (T:=PriceHistory.t) PriceHistory.timestamp price_row_timestamp); [|reflexivity|lia|lia].
    intros r. cbn [forallb]. rewrite andb_true_r.
    apply (holds_product_id (T:=PriceHistory.t) PriceHistory.product_id price_row_product).
  - apply (newest_first_read (T:=PriceHistory.t) PriceHistory.timestamp price_row_timestamp);
      [|apply date_conditions_bindable|lia|lia].
    intros r.
    apply (holds_date_conditions (T:=PriceHistory.t) PriceHistory.product_id
             PriceHistory.timestamp price_row_product price_row_timestamp).
  - apply (newest_first_read (T:=StockHistory.t) StockHistory.timestamp stock_row_timestamp); [|reflexivity|lia|lia].
    intros r. cbn [forallb]. rewrite andb_true_r.
    apply (holds_product_id (T:=StockHistory.t) StockHistory.product_id stock_row_product).
  - apply (newest_first_read (T:=StockHistory.t) StockHistory.timestamp stock_row_timestamp);
      [|apply date_conditions_bindable|lia|lia].
    intros r.
    apply (holds_date_conditions (T:=StockHistory.t) StockHistory.product_id
             StockHistory.timestamp stock_row_product stock_row_timestamp).
Qed.

Lemma history_reads_newest_first_witness :
  ∃ l, PriceHistoryRepository.get_by_product_id 1 0 100 50 Sample.store_with_history
       = (Ok l, Sample.store_with_history)
       ∧ newest_first_page PriceHistory.timestamp
           (filter (λ h, PriceHistory.product_id h = 1)
              (rows (price_history Sample.store_with_history))) 0 100 l
       ∧ StronglySorted
           (λ a b, newer_or_equal (PriceHistory.timestamp a) (PriceHistory.timestamp b)) l.
Proof.
  apply (history_reads_newest_first 1 0 100 None None 50 Sample.store_with_history);
    unfold int32; lia.
Defined.

Example history_reads_newest_first_sample :
  PriceHistoryRepository.get_by_product_id 1 0 100 50 Sample.store_with_history
  = (Ok [Sample.change2; Sample.change1], Sample.store_with_history).
Proof. vm_compute. reflexivity. Qed.

(** ** Strict batch delete (C2) *)

Lemma products_remove_product (st : Store) (id : Z) :
  rows (products (remove_product st id))
  = filter (λ r, Product.id r ≠ id) (rows (products st)).
Proof. reflexivity. Qed.

Lemma find_id_filter (l : list Product.t) (a y : Z) :
  List.find (λ r, Product.id r =? y) (filter (λ r, Product.id r ≠ a) l)
  = if y =? a then None else List.find (λ r, Product.id r =? y) l.
Proof.
  induction l as [|r l IH].
  - cbn. now destruct (y =? a).
  - rewrite filter_cons. case_decide as Hr; cbn [List.find].
    + rewrite IH. destruct (Product.id r =? y) eqn:E; [|reflexivity].
      destruct (y =? a) eqn:E'; [lia | reflexivity].
    + rewrite IH. destruct (y =? a) eqn:E'; [reflexivity|].
      destruct (Product.id r =? y) eqn:E; [lia | reflexivity].
Qed.

Lemma product_of_remove (st : Store) (a y : Z) :
  product_of (remove_product st a) y = if y =? a then None else product_of st y.
Proof. unfold product_of. rewrite products_remove_product. apply find_id_filter. Qed.

Lemma product_of_id (st : Store) (id : Z) (p : Product.t) :
  product_of st id = Some p → Product.id p = id.
Proof.
  unfold product_of. intros Hf. apply List.find_some in Hf as [_ Hid]. lia.
Qed.

Lemma product_get_found (st : Store) (id now : Z) (p : Product.t) :
  product_of st id = Some p → ProductRepository.get id now st = (Ok p, st).
Proof. intros Hf. now apply (get_found (T:=Product.t)). Qed.

Lemma product_get_missing (st : Store) (id now : Z) :
  product_of st id = None →
  ProductRepository.get id now st
  = (Err (NotFoundException ("Product with id " ++ PyStr.of_Z id ++ " not found")), st).
Proof.
  intros Hf.
  etransitivity; [apply (get_missing (T:=Product.t)); exact Hf | reflexivity].
Qed.

Lemma product_delete_found (st : Store) (id now : Z) (p : Product.t) :
  product_of st id = Some p →
  ProductRepository.delete id now st = (Ok p, remove_product st id).
Proof.
  intros Hf. unfold ProductRepository.delete.
  rewrite (bind_ok _ _ _ _ p st) by now apply product_get_found.
  apply product_of_id in Hf. subst id. reflexivity.
Qed.

Lemma batch_delete_step_found (acc : list Product.t * list Z) (st : Store)
    (id now : Z) (p : Product.t) :
  product_of st id = Some p →
  ProductService.batch_delete_step acc id now st
  = (Ok ((acc.1 ++ [p])%list, acc.2), remove_product st id).
Proof.
  intros Hf. unfold ProductService.batch_delete_step.
  rewrite (bind_ok _ _ _ _ p st) by now apply product_get_found.
  rewrite (bind_ok _ _ _ _ p (remove_product st id)) by now apply product_delete_found.
  reflexivity.
Qed.

Lemma batch_delete_loop (ids : list Z) (now : Z) :
  ∀ (acc : list Product.t * list Z) (st : Store),
    (∃ x, x ∈ ids ∧ product_of st x = None) →
    ∃ pre x post,
      ids = (pre ++ x :: post)%list
      ∧ Forall (λ y, is_Some (product_of st y)) pre
      ∧ product_of (remove_products st pre) x = None
      ∧ for_collect ids acc ProductService.batch_delete_step now st
        = (Err (NotFoundException ("Product with id " ++ PyStr.of_Z x ++ " not found")),
           remove_products st pre).
Proof.
  induction ids as [|a ids IH]; intros acc st (x & Hin & Habs).
  - inversion Hin.
  - destruct (product_of st a) as [p|] eqn:Ha.
    + assert (x ≠ a) as Hne by congruence.
      destruct (IH ((acc.1 ++ [p])%list, acc.2) (remove_product st a))
        as (pre & x' & post & -> & Hpre & Hx' & Hrun).
      { exists x. split.
        - apply elem_of_cons in Hin as [?|?]; [contradiction | assumption].
        - rewrite product_of_remove, Habs. now destruct (x =? a). }
      exists (a :: pre), x', post. repeat split.
      * constructor; [rewrite Ha; eauto|].
        eapply Forall_impl; [exact Hpre|]. intros y Hy. cbv beta in Hy.
        rewrite product_of_remove in Hy.
        destruct (y =? a); [destruct Hy; discriminate | exact Hy].
      * exact Hx'.
      * cbn [for_collect].
        rewrite (bind_ok _ _ _ _ _ _ (batch_delete_step_found acc st a now p Ha)).
        exact Hrun.
    + exists [], a, ids. repeat split; [constructor | exact Ha |].
      cbn [for_collect]. apply bind_err.
      unfold ProductService.batch_delete_step. apply bind_err.
      now apply product_get_missing.
Qed.

Lemma products_remove_products (ids : list Z) :
  ∀ st, rows (products (remove_products st ids))
        = filter (λ r, Product.id r ∉ ids) (rows (products st)).
Proof.
  induction ids as [|a ids IH]; intros st.
  - change (remove_products st []) with st.
    induction (rows (products st)) as [|r l IHl]; [reflexivity|].
    rewrite filter_cons. case_decide as Hr; [now rewrite <- IHl|].
    exfalso. set_solver.
  - change (remove_products st (a :: ids))
      with (remove_products (remove_product st a) ids).
    rewrite IH, products_remove_product, list_filter_filter.
    apply list_filter_iff. intros r. rewrite not_elem_of_cons. tauto.
Qed.

Lemma batch_delete_products_run (ids : list Z) (now : Z) (st : Store) :
  (∃ x, x ∈ ids ∧ product_of st x = None) →
  ∃ pre x post,
    ids = (pre ++ x :: post)%list
    ∧ Forall (λ y, is_Some (product_of st y)) pre
    ∧ ProductService.batch_delete_products ids now st
      = (Err (NotFoundException ("Product with id " ++ PyStr.of_Z x ++ " not found")),
         remove_products st pre).
Proof.
  intros Hex.
  destruct (batch_delete_loop ids now ([], []) st Hex)
    as (pre & x & post & Hids & Hpre & _ & Hrun).
  exists pre, x, post. repeat split; try assumption.
  unfold ProductService.batch_delete_products. now apply bind_err.
Qed.

Lemma product_of_remove_products (ids : list Z) :
  ∀ st y, product_of (remove_products st ids) y
          = if bool_decide (y ∈ ids) then None else product_of st y.
Proof.
  induction ids as [|a ids IH]; intros st y.
  - rewrite bool_decide_eq_false_2 by apply not_elem_of_nil. reflexivity.
  - change (remove_products st (a :: ids))
      with (remove_products (remove_product st a) ids).
    rewrite IH, product_of_remove.
    destruct (decide (y ∈ ids)) as [Hin|Hin].
    + rewrite !bool_decide_eq_true_2; [reflexivity | now right | assumption].
    + rewrite (bool_decide_eq_false_2 (y ∈ ids)) by assumption.
      destruct (Z.eqb_spec y a) as [->|Hne].
      * rewrite bool_decide_eq_true_2 by apply list_elem_of_here. reflexivity.
      * rewrite bool_decide_eq_false_2; [reflexivity|].
        rewrite not_elem_of_cons. tauto.
Qed.

Lemma remove_products_frame (ids : list Z) :
  ∀ st, suppliers (remove_products st ids) = suppliers st
        ∧ rows (price_history (remove_products st ids))
          = filter (λ h, PriceHistory.product_id h ∉ ids) (rows (price_history st))
        ∧ rows (stock_history (remove_products st ids))
          = filter (λ h, StockHistory.product_id h ∉ ids) (rows (stock_history st))
        ∧ product_suppliers (remove_products st ids)
          = filter (λ a, a.1 ∉ ids) (product_suppliers st).
Proof.
  assert (∀ {A} (f : A → Z) (l : list A), filter (λ x, f x ∉ []) l = l) as Hnil.
  { intros A f l. induction l as [|x l IHl]; [reflexivity|].
    rewrite filter_cons, decide_True by apply not_elem_of_nil. now rewrite IHl. }
  assert (∀ {A} (f : A → Z) (a : Z) (js : list Z) (l : list A),
            filter (λ x, f x ∉ js) (filter (λ x, f x ≠ a) l)
            = filter (λ x, f x ∉ a :: js) l) as Hcons.
  { intros A f a js l. rewrite list_filter_filter. apply list_filter_iff.
    intros x. rewrite not_elem_of_cons. tauto. }
  induction ids as [|a ids IH]; intros st.
  - change (remove_products st []) with st. rewrite !Hnil. auto.
  - change (remove_products st (a :: ids))
      with (remove_products (remove_product st a) ids).
    destruct (IH (remove_product st a)) as (Hs & Hp & Hk & Hl).
    rewrite Hs, Hp, Hk, Hl. cbn [remove_product cascade Product_model with_table
      suppliers price_history stock_history product_suppliers drop_history_of rows].
    rewrite !Hcons. auto.
Qed.

(** C2, as the code has it.  A strict batch delete whose list names an id
    absent from the store ends in an error, but it is not atomic.  The ids
    are taken in list order and each deletion is committed on its own:
    when the call ends, every listed product that precedes the first id
    that cannot be fetched is gone from the store, with its history rows
    and its supplier associations.  Products that are not listed, and the
    suppliers, are as before.  [pre] is that prefix and [x] that id. *)
Theorem strict_batch_delete_is_not_atomic (ids : list Z) (now : Z) (st : Store) :
  (∃ x, x ∈ ids ∧ product_of st x = None) →
  ∃ pre x post e st',
    ids = (pre ++ x :: post)%list
    ∧ Forall (λ y, is_Some (product_of st y)) pre
    ∧ product_of (remove_products st pre) x = None
    ∧ ProductService.batch_delete_products ids now st = (Err e, st')
    ∧ Forall (λ y, product_of st' y = None) pre
    ∧ Forall (λ h, PriceHistory.product_id h ∉ pre) (rows (price_history st'))
    ∧ Forall (λ h, StockHistory.product_id h ∉ pre) (rows (stock_history st'))
    ∧ Forall (λ a, a.1 ∉ pre) (product_suppliers st')
    ∧ (∀ y, y ∉ ids → product_of st' y = product_of st y)
    ∧ suppliers st' = suppliers st.
Proof.
  intros Hex.
  destruct (batch_delete_loop ids now ([], []) st Hex)
    as (pre & x & post & Hids & Hpre & Hx & Hrun).
  destruct (remove_products_frame pre st) as (Hs & Hp & Hk & Hl).
  exists pre, x, post, (NotFoundException ("Product with id " ++ PyStr.of_Z x ++ " not found")),
    (remove_products st pre).
  split; [exact Hids|]. split; [exact Hpre|]. split; [exact Hx|].
  split; [unfold ProductService.batch_delete_products; now apply bind_err|].
  split; [|split; [|split; [|split; [|split]]]].
  - apply Forall_forall. intros y Hy.
    rewrite product_of_remove_products, bool_decide_eq_true_2 by exact Hy. reflexivity.
  - rewrite Hp. apply Forall_forall. intros h Hh.
    now apply list_elem_of_filter in Hh as [Hh _].
  - rewrite Hk. apply Forall_forall. intros h Hh.
    now apply list_elem_of_filter in Hh as [Hh _].
  - rewrite Hl. apply Forall_forall. intros a Ha.
    now apply list_elem_of_filter in Ha as [Ha _].
  - intros y Hy. rewrite product_of_remove_products, bool_decide_eq_false_2; [reflexivity|].
    intros Hin. apply Hy. rewrite Hids. apply elem_of_app. now left.
  - exact Hs.
Qed.

Lemma strict_batch_delete_is_not_atomic_witness :
  ∃ pre x post e st',
    [1; 999; 2] = (pre ++ x :: post)%list
    ∧ Forall (λ y, is_Some (product_of Sample.store y)) pre
    ∧ product_of (remove_products Sample.store pre) x = None
    ∧ ProductService.batch_delete_products [1; 999; 2] 100 Sample.store = (Err e, st')
    ∧ Forall (λ y, product_of st' y = None) pre
    ∧ Forall (λ h, PriceHistory.product_id h ∉ pre) (rows (price_history st'))
    ∧ Forall (λ h, StockHistory.product_id h ∉ pre) (rows (stock_history st'))
    ∧ Forall (λ a, a.1 ∉ pre) (product_suppliers st')
    ∧ (∀ y, y ∉ [1; 999; 2] → product_of st' y = product_of Sample.store y)
    ∧ suppliers st' = suppliers Sample.store.
Proof.
  apply strict_batch_delete_is_not_atomic.
  exists 999. split; [|reflexivity].
  apply elem_of_cons. right. apply list_elem_of_here.
Defined.

(** No partial effect does not hold: deleting [[1, 999]] from a store that
    holds product 1 and no product 999 removes product 1 although the
    call ends in an error. *)
Lemma strict_batch_delete_partial_effect :
  (∃ x, x ∈ [1; 999] ∧ product_of Sample.store x = None)
  ∧ is_ok (ProductService.batch_delete_products [1; 999] 100 Sample.store).1 = false
  ∧ (ProductService.batch_delete_products [1; 999] 100 Sample.store).2 ≠ Sample.store
  ∧ product_of Sample.store 1 = Some Sample.desk
  ∧ product_of (ProductService.batch_delete_products [1; 999] 100 Sample.store).2 1 = None.
Proof.
  split; [exists 999; split; [|reflexivity]|].
  { apply elem_of_cons. right. apply list_elem_of_here. }
  split; [vm_compute; reflexivity|].
  split; [|split; vm_compute; reflexivity].
  intros Heq.
  assert (product_of (ProductService.batch_delete_products [1; 999] 100 Sample.store).2 1
          = product_of Sample.store 1) as Hp by now rewrite Heq.
  vm_compute in Hp. discriminate.
Qed.

(** ** Lenient batch delete (C3) *)

(** C3, at the input of the specification.  With products 1 and 2 in the
    store and no product 999, [DELETE /batch?product_ids=1,2,999] does not
    answer [{deleted: [1, 2]}]: products 1 and 2 are deleted and the
    [NotFoundException] raised for 999 by [get] leaves the handler, which
    only catches [HTTPException].  The function
    [batch_delete_products_silently] stops on the same exception. *)
Theorem lenient_batch_delete_raises_on_missing_id :
  Endpoints.parse_ids "1,2,999" = Some [1; 2; 999]
  ∧ product_of Sample.store 999 = None
  ∧ Endpoints.batch_delete_products "1,2,999" 100 Sample.store
    = (Err (NotFoundException "Product with id 999 not found"),
       remove_products Sample.store [1; 2])
  ∧ Endpoints.batch_delete_products_silently [1; 2; 999] 100 Sample.store
    = (Err (NotFoundException "Product with id 999 not found"),
       remove_products Sample.store [1; 2]).
Proof. repeat split; vm_compute; reflexivity. Qed.

(** The same for every request: when some listed id cannot be fetched,
    the endpoint never answers with a list of deleted ids. *)
Lemma lenient_batch_delete_never_succeeds (product_ids : string) (ids : list Z) now st :
  Endpoints.parse_ids product_ids = Some ids →
  (∃ x, x ∈ ids ∧ product_of st x = None) →
  ∃ e, (Endpoints.batch_delete_products product_ids now st).1 = Err e.
Proof.
  intros Hp Hex. unfold Endpoints.batch_delete_products. rewrite Hp.
  destruct ids as [|a ids]; [destruct Hex as (x & Hin & _); inversion Hin|].
  destruct (batch_delete_products_run _ now st Hex)
    as (pre & x & post & _ & _ & Hrun).
  unfold try_except. rewrite (bind_err _ _ _ _ _ _ Hrun). cbn. eauto.
Qed.

(** ** Count against list (C1) *)

(** On exact-match filters the two loops of the generic repository build
    the same conditions. *)
Lemma count_conditions_scalar `{Model T} (filters : list (string * pyval)) :
  Forall (λ kv, ∃ v, kv.2 = PScalar v) filters →
  BaseRepository.count_conditions (T:=T) filters
  = BaseRepository.get_multi_conditions (T:=T) filters.
Proof.
  induction 1 as [|[key value] filters (v & Hv) _ IH]; [reflexivity|].
  cbn in Hv. subst value.
  unfold BaseRepository.count_conditions, BaseRepository.get_multi_conditions in *.
  cbn [flat_map]. rewrite IH. f_equal.
  destruct (hasattr key); [|reflexivity]. cbn.
  now destruct (is_none v).
Qed.

(** The generic repository has no such branch: without a usable sort
    field the statement carries no ORDER BY, and the rows come back in
    storage order. *)
Lemma base_list_no_order `{Model T}
    (skip limit : Z) (sort_by sort_order : option string)
    (filters : list (string * pyval)) now st :
  (str_truthy sort_by && hasattr (T:=T) (default "" sort_by)) = false →
  BaseRepository.get_multi (T:=T) skip limit sort_by sort_order filters now st
  = (select_rows
       (mkQuery (BaseRepository.get_multi_conditions (T:=T) filters) None
          (Some skip) (Some limit)) (rows (table st)), st).
Proof.
  intros Hsort. unfold BaseRepository.get_multi.
  destruct sort_by as [f|]; [|reflexivity].
  change (default "" (Some f)) with f in Hsort. now rewrite Hsort.
Qed.

(** On exact-match filters, [count] is the length of the unpaginated list. *)
Lemma count_mirrors_list_on_scalars `{Model T}
    (filters : list (string * pyval)) (limit : Z) now st l :
  Forall (λ kv, ∃ v, kv.2 = PScalar v) filters →
  Z.of_nat (length (rows (table (T:=T) st))) ≤ limit →
  BaseRepository.get_multi (T:=T) 0 limit None (Some "asc") filters now st = (Ok l, st) →
  BaseRepository.count (T:=T) filters now st = (Ok (Z.of_nat (length l)), st).
Proof.
  intros Hsc Hlim Hrun.
  unfold BaseRepository.count.
  rewrite db_count_run, (count_conditions_scalar filters Hsc).
  rewrite base_list_no_order in Hrun by reflexivity.
  unfold select_rows in *. cbn [q_where q_order_by q_offset q_limit negative ordered] in *.
  destruct (forallb bindable _); cbn [negb] in *; [|congruence].
  destruct (limit <? 0) eqn:E; [lia|]. cbn [orb Z.ltb Z.compare] in *.
  injection Hrun as <-.
  change (take (Z.to_nat limit) (drop (Z.to_nat 0) ?l))
    with (window (Some 0) (Some limit) l).
  rewrite window_all; [reflexivity|].
  etransitivity; [|exact Hlim]. apply inj_le, List.filter_length_le.
Qed.

(** On any table, [count] fails as soon as one filter on an attribute of
    the model is a range dictionary or a list. *)
Lemma count_refuses_range_and_list `{Model T}
    (filters : list (string * pyval)) (key : string) (value : pyval) now st :
  (key, value) ∈ filters →
  hasattr (T:=T) key = true →
  (∀ v, value ≠ PScalar v) →
  BaseRepository.count (T:=T) filters now st
  = (Err (DBAPIError "invalid input for query argument"), st).
Proof.
  intros Hin Hattr Hshape. unfold BaseRepository.count.
  rewrite db_count_run. unfold select_rows. cbn [q_where].
  assert (forallb bindable (BaseRepository.count_conditions (T:=T) filters) = false)
    as ->; [|reflexivity].
  apply not_true_is_false. intros Hall. rewrite forallb_forall in Hall.
  assert (bindable (CCompare key OpEq value) = true) as Hb.
  { apply Hall. unfold BaseRepository.count_conditions.
    apply in_flat_map. exists (key, value). split; [now apply list_elem_of_In|].
    cbn. rewrite Hattr. destruct value as [v| |]; cbn; auto.
    now destruct (Hshape v). }
  destruct value as [v| |]; [now destruct (Hshape v) | discriminate | discriminate].
Qed.

(** C1, at a range filter and at a list filter.  On the supplier table,
    [get_multi] applies [{"min": 3, "max": None}] on [credit_rating] as a
    lower bound, and [[4]] as a membership test, and returns the one
    matching supplier; [count], given the same filters, compares the
    column with the dictionary (with the list) itself, a statement the
    store refuses: it returns no number at all. *)
Theorem count_does_not_mirror_range_and_list_filters :
  let range := [("credit_rating", PDict {[ "min" := VInt 3; "max" := VNone ]})] in
  let member := [("credit_rating", PList [VInt 4])] in
  BaseRepository.get_multi (T:=Supplier.t) 0 100 None (Some "asc") range 100 Sample.store
  = (Ok [Sample.acme], Sample.store)
  ∧ BaseRepository.count (T:=Supplier.t) range 100 Sample.store
    = (Err (DBAPIError "invalid input for query argument"), Sample.store)
  ∧ BaseRepository.get_multi (T:=Supplier.t) 0 100 None (Some "asc") member 100 Sample.store
    = (Ok [Sample.acme], Sample.store)
  ∧ BaseRepository.count (T:=Supplier.t) member 100 Sample.store
    = (Err (DBAPIError "invalid input for query argument"), Sample.store).
Proof. repeat split; vm_compute; reflexivity. Qed.

(** ** Default order (C7) *)

Lemma val_leb_ints (x y : Z) : val_leb (VInt x) (VInt y) = true ↔ x ≤ y.
Proof.
  unfold val_leb. cbn. unfold Qcompare. cbn. rewrite !Z.mul_1_r.
  destruct (x ?= y) eqn:Hc.
  - apply Z.compare_eq in Hc. intuition lia.
  - rewrite Z.compare_lt_iff in Hc. intuition lia.
  - rewrite Z.compare_gt_iff in Hc. intuition (congruence || lia).
Qed.

Lemma order_le_id_asc (a b : Product.t) :
  order_le (T:=Product.t) ("id", Asc) a b ↔ Product.id a ≤ Product.id b.
Proof.
  change (order_le (T:=Product.t) ("id", Asc) a b)
    with (val_leb (VInt (Product.id a)) (VInt (Product.id b)) = true).
  apply val_leb_ints.
Qed.

Lemma sort_by_id (l : list Product.t) :
  StronglySorted (λ a b, Product.id a ≤ Product.id b)
    (merge_sort (order_le (T:=Product.t) ("id", Asc)) l).
Proof.
  apply (StronglySorted_impl (order_le (T:=Product.t) ("id", Asc))).
  { intros x y. apply order_le_id_asc. }
  apply StronglySorted_merge_sort.
  - intros x y z. rewrite !order_le_id_asc. lia.
  - intros x y. rewrite !order_le_id_asc. lia.
Qed.

(** The product repository does fall back to the identifier: when the
    sort field is absent, empty or no attribute of the product, the list
    comes back in ascending order of [id]. *)
Lemma product_list_default_order
    (skip limit : Z) (sort_by sort_order : option string)
    (kwargs : list (string * pyval)) now st l :
  (str_truthy sort_by && hasattr (T:=Product.t) (default "" sort_by)) = false →
  ProductRepository.get_multi_with_suppliers skip limit sort_by sort_order kwargs now st
  = (Ok l, st) →
  StronglySorted (λ a b, Product.id a ≤ Product.id b) l.
Proof.
  intros Hsort Hrun. unfold ProductRepository.get_multi_with_suppliers in Hrun.
  rewrite db_execute_run in Hrun.
  assert (match sort_by with
          | Some f =>
              if str_truthy sort_by && hasattr (T:=Product.t) f
              then if str_truthy sort_order
                      && String.eqb (PyStr.lower (default "" sort_order)) "desc"
                   then (f, Desc) else (f, Asc)
              else ("id", Asc)
          | None => ("id", Asc)
          end = ("id", Asc)) as Horder.
  { destruct sort_by as [f|]; [|reflexivity].
    change (default "" (Some f)) with f in Hsort. now rewrite Hsort. }
  rewrite Horder in Hrun. unfold select_rows in Hrun. cbn in Hrun.
  destruct (negb _); [discriminate|].
  destruct (_ || _); [discriminate|].
  injection Hrun as <-. apply StronglySorted_window, sort_by_id.
Qed.

(** C7, on the generic repository.  The product table holds the lamp
    (id 2) before the desk (id 1).  Listing it through
    [BaseRepository.get_multi] without a sort field, or with a sort field
    that is no attribute, returns the lamp first: the order is the storage
    order, not ascending [id].  The product repository returns the desk
    first on the same request. *)
Theorem base_get_multi_ignores_default_order :
  BaseRepository.get_multi (T:=Product.t) 0 100 None (Some "asc") [] 100 Sample.store
  = (Ok [Sample.lamp; Sample.desk], Sample.store)
  ∧ BaseRepository.get_multi (T:=Product.t) 0 100 (Some "no_such_field") (Some "asc") []
      100 Sample.store
    = (Ok [Sample.lamp; Sample.desk], Sample.store)
  ∧ ¬ StronglySorted (λ a b, Product.id a ≤ Product.id b) [Sample.lamp; Sample.desk]
  ∧ ProductRepository.get_multi_with_suppliers 0 100 (Some "no_such_field") None []
      100 Sample.store
    = (Ok [Sample.desk; Sample.lamp], Sample.store).
Proof.
  repeat split; try (vm_compute; reflexivity).
  intros Hs. apply StronglySorted_inv in Hs as [_ Hf].
  apply Forall_inv in Hf. vm_compute in Hf. now apply Hf.
Qed.

(** ** Change tracking (C4, C8) *)

Lemma serial_fresh_no_duplicate `{Model T} (tb : Table T) :
  serial_fresh tb → existsb (λ r, pk r =? next_id tb) (rows tb) = false.
Proof.
  unfold serial_fresh. intros Hf. apply not_true_is_false. intros He.
  apply existsb_exists in He as (r & Hin & Hr).
  rewrite Forall_forall in Hf. apply list_elem_of_In in Hin.
  specialize (Hf r Hin). lia.
Qed.

Lemma price_change_construct (serial now pid : Z) (old : Q) (x : val) :
  PriceHistory.construct serial now (price_change_data pid now old x)
  = (λ q, PriceHistory.mk serial pid old q (Some now)) <$> as_number x.
Proof.
  unfold PriceHistory.construct.
  change (kw _ "id") with VNone.
  change (kw _ "product_id") with (VInt pid).
  change (kw _ "old_price") with (VFloat old).
  change (kw _ "new_price") with x.
  change (kw _ "timestamp") with (VTime now).
  cbn. unfold to_float. now destruct (as_number x).
Qed.

Lemma stock_change_construct (serial now pid old : Z) (x reason : val) :
  StockHistory.construct serial now (stock_change_data pid now old x reason)
  = match to_int x, nullable to_str reason with
    | Some n, Some r => Some (StockHistory.mk serial pid old n r (Some now))
    | _, _ => None
    end.
Proof.
  unfold StockHistory.construct.
  change (kw _ "id") with VNone.
  change (kw _ "product_id") with (VInt pid).
  change (kw _ "old_quantity") with (VInt old).
  change (kw _ "new_quantity") with x.
  change (kw _ "change_reason") with reason.
  change (kw _ "timestamp") with (VTime now).
  cbn. destruct (to_int x); [|reflexivity]. cbn.
  now destruct (nullable to_str reason).
Qed.

Lemma add_price_change_run (pid now : Z) (old : Q) (x : val) (st : Store) :
  serial_fresh (price_history st) →
  PriceHistoryRepository.add_price_change pid (VFloat old) x now st
  = match as_number x with
    | Some q =>
        let row := PriceHistory.mk (next_id (price_history st)) pid old q (Some now) in
        (Ok row, with_price_row st row)
    | None => (Err (DBAPIError "constraint violated on INSERT"), st)
    end.
Proof.
  intros Hfresh.
  unfold PriceHistoryRepository.add_price_change, db_insert, bind, utcnow, get_store.
  change (construct (T:=PriceHistory.t) ?a ?b ?d) with (PriceHistory.construct a b d).
  fold (price_change_data pid now old x). rewrite price_change_construct.
  destruct (as_number x) as [q|]; [|reflexivity]. cbn [fmap option_fmap option_map].
  change (pk (PriceHistory.mk ?i _ _ _ _)) with i.
  change (table (T:=PriceHistory.t) st) with (price_history st).
  rewrite (serial_fresh_no_duplicate (T:=PriceHistory.t)) by assumption.
  reflexivity.
Qed.

Lemma add_stock_change_run (pid now old : Z) (x reason : val) (st : Store) :
  serial_fresh (stock_history st) →
  StockHistoryRepository.add_stock_change pid (VInt old) x reason now st
  = match to_int x, nullable to_str reason with
    | Some n, Some r =>
        let row := StockHistory.mk (next_id (stock_history st)) pid old n r (Some now) in
        (Ok row, with_stock_row st row)
    | _, _ => (Err (DBAPIError "constraint violated on INSERT"), st)
    end.
Proof.
  intros Hfresh.
  unfold StockHistoryRepository.add_stock_change, db_insert, bind, utcnow, get_store.
  change (construct (T:=StockHistory.t) ?a ?b ?d) with (StockHistory.construct a b d).
  fold (stock_change_data pid now old x reason). rewrite stock_change_construct.
  destruct (to_int x) as [n|]; [|reflexivity].
  destruct (nullable to_str reason) as [r|]; [|reflexivity].
  change (pk (StockHistory.mk ?i _ _ _ _ _)) with i.
  change (table (T:=StockHistory.t) st) with (stock_history st).
  rewrite (serial_fresh_no_duplicate (T:=StockHistory.t)) by assumption.
  reflexivity.
Qed.

Lemma update_product_steps (id : Z) (patch : gmap string val) (reason : val) :
  ProductService.update_product id patch reason
  = (let* product := ProductRepository.get id in
     price_step patch product >> stock_step patch product reason >>
     ProductRepository.update product patch).
Proof. reflexivity. Qed.

(** *** Frame lemmas *)

Lemma preserves_ret {A X} (f : Store → X) (a : A) : preserves f (ret a).
Proof. now intros now st. Qed.

Lemma preserves_throw {A X} (f : Store → X) (e : exn) : preserves f (throw (A:=A) e).
Proof. now intros now st. Qed.

Lemma preserves_bind {A B X} (f : Store → X) (m : M A) (k : A → M B) :
  preserves f m → (∀ a, preserves f (k a)) → preserves f (bind m k).
Proof.
  intros Hm Hk now st. unfold bind. specialize (Hm now st).
  destruct (m now st) as [[a|e] st1]; cbn in *; [|assumption].
  now rewrite Hk.
Qed.

Lemma preserves_db_insert `{Model T} {X} (f : Store → X) (data : gmap string val) :
  (∀ tb st, f (with_table (T:=T) tb st) = f st) → preserves f (db_insert (T:=T) data).
Proof.
  intros Hf now st. unfold db_insert, bind, get_store, utcnow, put_store, throw, ret.
  destruct (construct _ _ _); [|reflexivity].
  destruct (existsb _ _); [reflexivity|]. cbn. apply Hf.
Qed.

Lemma preserves_db_update `{Model T} {X} (f : Store → X) (old : T) (new : option T) :
  (∀ tb st, f (with_table (T:=T) tb st) = f st) → preserves f (db_update old new).
Proof.
  intros Hf now st. unfold db_update, bind, get_store, utcnow, put_store, throw, ret.
  destruct new as [new|]; [|reflexivity].
  destruct (negb (modified old new)); [reflexivity|].
  destruct (_ && _); [reflexivity|]. cbn. apply Hf.
Qed.

Lemma preserves_get `{Model T} {X} (f : Store → X) (id : Z) :
  preserves f (BaseRepository.get (T:=T) id).
Proof.
  intros now st. unfold BaseRepository.get, db_get, bind, get_store, ret, throw.
  now destruct (List.find _ _).
Qed.

Lemma preserves_price_step {X} (f : Store → X) (patch : gmap string val) (p : Product.t) :
  (∀ tb st, f (with_table (T:=PriceHistory.t) tb st) = f st) →
  preserves f (price_step patch p).
Proof.
  intros Hf. unfold price_step.
  destruct (patch !! "price") as [x|]; [|apply preserves_ret].
  destruct (py_neb _ _); [|apply preserves_ret].
  apply preserves_bind; [|intros; apply preserves_ret].
  unfold PriceHistoryRepository.add_price_change.
  apply preserves_bind; [intros ? ?; reflexivity|].
  intros. now apply preserves_db_insert.
Qed.

Lemma preserves_stock_step {X} (f : Store → X) (patch : gmap string val)
    (p : Product.t) (reason : val) :
  (∀ tb st, f (with_table (T:=StockHistory.t) tb st) = f st) →
  preserves f (stock_step patch p reason).
Proof.
  intros Hf. unfold stock_step.
  destruct (patch !! "stock_quantity") as [x|]; [|apply preserves_ret].
  destruct (py_neb _ _); [|apply preserves_ret].
  apply preserves_bind; [|intros; apply preserves_ret].
  unfold StockHistoryRepository.add_stock_change.
  apply preserves_bind; [intros ? ?; reflexivity|].
  intros. now apply preserves_db_insert.
Qed.

Lemma preserves_product_update {X} (f : Store → X) (p : Product.t)
    (patch : gmap string val) :
  (∀ tb st, f (with_table (T:=Product.t) tb st) = f st) →
  preserves f (ProductRepository.update p patch).
Proof. intros Hf. now apply preserves_db_update. Qed.

(** *** The two steps *)

Lemma Qeq_bool_inject_Z (x y : Z) : Qeq_bool (inject_Z x) (inject_Z y) = (x =? y).
Proof. unfold Qeq_bool, Z.eqb. cbn. rewrite !Z.mul_1_r. reflexivity. Qed.

Lemma py_neb_number (x : val) (q r : Q) :
  as_number x = Some q → py_neb x (VFloat r) = negb (Qeq_bool q r).
Proof. destruct x; cbn; intros [= <-]; reflexivity. Qed.

Lemma py_neb_ints (n m : Z) : py_neb (VInt n) (VInt m) = negb (n =? m).
Proof. unfold py_neb, py_eqb. cbn. now rewrite Qeq_bool_inject_Z. Qed.

Lemma price_step_run (patch : gmap string val) (p : Product.t) now st :
  serial_fresh (price_history st) →
  price_step patch p now st
  = match patch !! "price" with
    | Some x =>
        match as_number x with
        | Some q =>
            if Qeq_bool q (Product.price p) then (Ok tt, st)
            else (Ok tt, with_price_row st
                           (PriceHistory.mk (next_id (price_history st)) (Product.id p)
                              (Product.price p) q (Some now)))
        | None => (Err (DBAPIError "constraint violated on INSERT"), st)
        end
    | None => (Ok tt, st)
    end.
Proof.
  intros Hfresh. unfold price_step.
  destruct (patch !! "price") as [x|]; [|reflexivity].
  destruct (as_number x) as [q|] eqn:Hx.
  - rewrite (py_neb_number x q _ Hx).
    destruct (Qeq_bool q (Product.price p)); [reflexivity|]. cbn [negb].
    unfold bind. rewrite add_price_change_run, Hx by assumption. reflexivity.
  - assert (py_neb x (VFloat (Product.price p)) = true) as ->
      by (destruct x; cbn in *; congruence).
    unfold bind. rewrite add_price_change_run, Hx by assumption. reflexivity.
Qed.

Lemma stock_step_run (patch : gmap string val) (p : Product.t) (reason : option string)
    (n : Z) now st :
  serial_fresh (stock_history st) →
  patch !! "stock_quantity" = Some (VInt n) →
  stock_step patch p (of_opt VStr reason) now st
  = if n =? Product.stock_quantity p then (Ok tt, st)
    else (Ok tt, with_stock_row st
                   (StockHistory.mk (next_id (stock_history st)) (Product.id p)
                      (Product.stock_quantity p) n reason (Some now))).
Proof.
  intros Hfresh Hn. unfold stock_step. rewrite Hn, py_neb_ints.
  destruct (n =? Product.stock_quantity p); [reflexivity|]. cbn [negb].
  unfold bind. rewrite add_stock_change_run by assumption.
  now destruct reason.
Qed.

(** A stock value that is no integer adds no row: it either equals the
    current quantity or is refused by the store. *)
Lemma stock_step_no_row (patch : gmap string val) (p : Product.t) (reason : val) now st :
  serial_fresh (stock_history st) →
  (∀ n, patch !! "stock_quantity" ≠ Some (VInt n)) →
  (stock_step patch p reason now st).2 = st.
Proof.
  intros Hfresh Hn. unfold stock_step.
  destruct (patch !! "stock_quantity") as [x|]; [|reflexivity].
  destruct (py_neb _ _); [|reflexivity].
  unfold bind. rewrite add_stock_change_run by assumption.
  destruct x; try reflexivity. now destruct (Hn z).
Qed.

Lemma price_step_accepted (patch : gmap string val) (p : Product.t) now st :
  serial_fresh (price_history st) → price_accepted patch →
  ∃ st1, price_step patch p now st = (Ok tt, st1)
         ∧ stock_history st1 = stock_history st
         ∧ products st1 = products st.
Proof.
  intros Hfresh Hacc. rewrite price_step_run by assumption.
  unfold price_accepted in Hacc.
  destruct (patch !! "price") as [x|]; [|eauto].
  destruct Hacc as [q ->].
  destruct (Qeq_bool q (Product.price p)); eauto.
Qed.

Lemma rest_preserves_price_history (patch : gmap string val) (p : Product.t) (reason : val) :
  preserves price_history
    (stock_step patch p reason >> ProductRepository.update p patch).
Proof.
  apply preserves_bind; [now apply preserves_stock_step|].
  intros _. now apply preserves_product_update.
Qed.

Lemma price_history_after_update
    (st : Store) (now id : Z) (p : Product.t) (patch : gmap string val)
    (reason : val) (x : val) (q : Q) :
  product_of st id = Some p →
  serial_fresh (price_history st) →
  patch !! "price" = Some x → as_number x = Some q →
  rows (price_history (ProductService.update_product id patch reason now st).2)
  = (rows (price_history st) ++
     if Qeq_bool q (Product.price p) then []
     else [PriceHistory.mk (next_id (price_history st)) (Product.id p)
             (Product.price p) q (Some now)])%list.
Proof.
  intros Hp Hfp Hx Hq. rewrite update_product_steps.
  rewrite (bind_ok _ _ _ _ p st) by now apply product_get_found.
  unfold bind at 1. rewrite price_step_run, Hx, Hq by assumption.
  destruct (Qeq_bool q (Product.price p));
    rewrite rest_preserves_price_history; cbn; [now rewrite app_nil_r | reflexivity].
Qed.

Lemma stock_history_after_update
    (st : Store) (now id : Z) (p : Product.t) (patch : gmap string val)
    (reason : option string) (n : Z) :
  product_of st id = Some p →
  serial_fresh (price_history st) →
  serial_fresh (stock_history st) →
  patch !! "stock_quantity" = Some (VInt n) → price_accepted patch →
  rows (stock_history
          (ProductService.update_product id patch (of_opt VStr reason) now st).2)
  = (rows (stock_history st) ++
     if n =? Product.stock_quantity p then []
     else [StockHistory.mk (next_id (stock_history st)) (Product.id p)
             (Product.stock_quantity p) n reason (Some now)])%list.
Proof.
  intros Hp Hfp Hfs Hn Hacc. rewrite update_product_steps.
  rewrite (bind_ok _ _ _ _ p st) by now apply product_get_found.
  destruct (price_step_accepted patch p now st Hfp Hacc) as (st1 & Hstep & Hsh & _).
  unfold bind at 1. rewrite Hstep. unfold bind at 1.
  rewrite (stock_step_run patch p reason n now st1) by (rewrite ?Hsh; assumption).
  destruct (n =? Product.stock_quantity p).
  - rewrite (preserves_product_update stock_history) by reflexivity.
    now rewrite Hsh, app_nil_r.
  - rewrite (preserves_product_update stock_history) by reflexivity.
    cbn. now rewrite Hsh.
Qed.

(** *** On values the store accepts

    The tracking of an update of an existing product (the history counters
    being ahead of their tables).  If the patch carries a price that is a
    number [q], the price history afterwards is the history before
    followed by nothing when [q] equals the stored price, and by exactly
    one row [(old = stored price, new = q)] when it differs.  If the patch
    carries a stock quantity [n] of 32 bits (and its price, if any, is a
    number), the same holds of the stock history with [(old = stored
    quantity, new = n)]. *)
Lemma update_records_price_and_stock_changes
    (st : Store) (now id : Z) (p : Product.t) (patch : gmap string val)
    (reason : option string) :
  product_of st id = Some p →
  serial_fresh (price_history st) →
  serial_fresh (stock_history st) →
  (∀ x q, patch !! "price" = Some x → as_number x = Some q →
     rows (price_history
             (ProductService.update_product id patch (of_opt VStr reason) now st).2)
     = (rows (price_history st) ++
        if Qeq_bool q (Product.price p) then []
        else [PriceHistory.mk (next_id (price_history st)) (Product.id p)
                (Product.price p) q (Some now)])%list)
  ∧ (∀ n, patch !! "stock_quantity" = Some (VInt n) → int32 n → price_accepted patch →
       rows (stock_history
               (ProductService.update_product id patch (of_opt VStr reason) now st).2)
       = (rows (stock_history st) ++
          if n =? Product.stock_quantity p then []
          else [StockHistory.mk (next_id (stock_history st)) (Product.id p)
                  (Product.stock_quantity p) n reason (Some now)])%list).
Proof.
  intros Hp Hfp Hfs. split.
  - intros x q Hx Hq. now apply price_history_after_update with (x := x).
  - intros n Hn _ Hacc. now apply stock_history_after_update.
Qed.

(** The change reason of such an update (the price of the patch, if any,
    being a number).  When the patch changes the stock quantity to [n], of
    32 bits, the stock history gains exactly one row, and that row carries
    the reason.  When the patch carries no stock quantity, or the current
    one, the reason is dropped without a trace: the call gives the very
    result and store it gives without a reason, and the stock history, the
    only place a reason can be stored, is untouched. *)
Lemma change_reason_kept_only_with_stock_change
    (st : Store) (now id : Z) (p : Product.t) (patch : gmap string val)
    (reason : string) :
  product_of st id = Some p →
  serial_fresh (price_history st) →
  serial_fresh (stock_history st) →
  price_accepted patch →
  (∀ n, patch !! "stock_quantity" = Some (VInt n) → int32 n →
     n ≠ Product.stock_quantity p →
     rows (stock_history (ProductService.update_product id patch (VStr reason) now st).2)
     = (rows (stock_history st) ++
        [StockHistory.mk (next_id (stock_history st)) (Product.id p)
           (Product.stock_quantity p) n (Some reason) (Some now)])%list)
  ∧ ((∀ x, patch !! "stock_quantity" = Some x →
           py_eqb x (VInt (Product.stock_quantity p)) = true) →
     ProductService.update_product id patch (VStr reason) now st
     = ProductService.update_product id patch VNone now st
     ∧ stock_history (ProductService.update_product id patch (VStr reason) now st).2
       = stock_history st).
Proof.
  intros Hp Hfp Hfs Hacc. split.
  - intros n Hn _ Hne.
    pose proof (stock_history_after_update st now id p patch (Some reason) n
                  Hp Hfp Hfs Hn Hacc) as Hstock.
    cbn [of_opt] in Hstock. rewrite Hstock.
    destruct (n =? Product.stock_quantity p) eqn:E; [lia | reflexivity].
  - intros Hsame.
    assert (∀ r, stock_step patch p r = ret tt) as Hstep.
    { intros r. unfold stock_step.
      destruct (patch !! "stock_quantity") as [x|] eqn:Hx; [|reflexivity].
      unfold py_neb. now rewrite (Hsame x eq_refl). }
    rewrite !update_product_steps.
    rewrite !(bind_ok _ _ _ _ p st) by now apply product_get_found.
    rewrite !Hstep. split; [reflexivity|].
    rewrite preserves_bind; [reflexivity | now apply preserves_price_step |].
    intros _. apply preserves_bind; [apply preserves_ret|].
    intros _. now apply preserves_product_update.
Qed.

Example tracked_update_sample :
  let patch : gmap string val :=
    {[ "price" := VFloat (2499 # 100); "stock_quantity" := VInt 9 ]} in
  ∃ p1 st1,
    ProductService.update_product 1 patch (VStr "delivery") 100 Sample.store = (Ok p1, st1)
    ∧ rows (price_history st1) = [PriceHistory.mk 1 1 (1999 # 100) (2499 # 100) (Some 100)]
    ∧ rows (stock_history st1) = [StockHistory.mk 1 1 5 9 (Some "delivery") (Some 100)]
    ∧ Product.price p1 = 2499 # 100 ∧ Product.stock_quantity p1 = 9.
Proof. intros patch. do 2 eexists. repeat split; vm_compute; reflexivity. Qed.

(** *** An explicit null

    Every field of the update schema is optional, so that a field can be
    left out; a field that the body sets to [null] passes validation all
    the same, stays in [model_dump(exclude_unset=True)] and reaches the
    comparison and the store as [None]. *)

(** C4, at a patch the update schema admits.  [PUT /1] with the body
    [{"price": null}], on a store where product 1 costs 19.99: the patch
    contains [price], the supplied value differs from the current one
    ([None != 19.99]), and no price-history row is appended: the row that
    [add_price_change] builds has no new price, the store refuses it and
    the request ends in that error, the product unchanged.  The body
    [{"stock_quantity": null}] fares the same on the stock history. *)
Theorem null_patch_differs_and_records_nothing :
  let null_price := ProductUpdate.mk None (Some None) None None None None None in
  let null_stock := ProductUpdate.mk None None None (Some None) None None None in
  (∀ validate_price,
     ProductUpdate.validate validate_price null_price = true
     ∧ ProductUpdate.validate validate_price null_stock = true)
  ∧ ProductUpdate.model_dump null_price = {[ "price" := VNone ]}
  ∧ ProductUpdate.model_dump null_stock = {[ "stock_quantity" := VNone ]}
  ∧ product_of Sample.store 1 = Some Sample.desk
  ∧ py_neb VNone (VFloat (Product.price Sample.desk)) = true
  ∧ py_neb VNone (VInt (Product.stock_quantity Sample.desk)) = true
  ∧ (Endpoints.update_product 1 null_price 100 Sample.store).1
    = Err (DBAPIError "constraint violated on INSERT")
  ∧ rows (price_history (Endpoints.update_product 1 null_price 100 Sample.store).2)
    = rows (price_history Sample.store)
  ∧ product_of (Endpoints.update_product 1 null_price 100 Sample.store).2 1
    = Some Sample.desk
  ∧ (Endpoints.update_product 1 null_stock 100 Sample.store).1
    = Err (DBAPIError "constraint violated on INSERT")
  ∧ rows (stock_history (Endpoints.update_product 1 null_stock 100 Sample.store).2)
    = rows (stock_history Sample.store)
  ∧ product_of (Endpoints.update_product 1 null_stock 100 Sample.store).2 1
    = Some Sample.desk.
Proof.
  intros null_price null_stock.
  split; [intros validate_price; split; reflexivity|].
  repeat split; vm_compute; reflexivity.
Qed.

(** C8, at three patches the update schema admits, each sent to [PUT /1]
    with a change reason, on a store where product 1 has 5 in stock.
    - [{"stock_quantity": null, "change_reason": "recount"}]: the stock
      quantity of the patch differs from the current one, the row that
      would carry the reason is refused by the store, and the reason is in
      no stored record.
    - [{"price": null, "stock_quantity": 9, "change_reason": "restock"}]:
      the patch changes the stock quantity from 5 to 9, the request ends
      at the price step, and the reason is in no stored record.
    - [{"name": null, "stock_quantity": 9, "change_reason": "restock"}]:
      the stock-history row is written with the reason, then the store
      refuses the product without a name: the request ends in an error,
      the product keeps its 5 in stock, and the reason stays stored. *)
Theorem null_patch_loses_or_keeps_change_reason :
  let recount :=
    ProductUpdate.mk None None None (Some None) None None (Some (Some "recount")) in
  let restock :=
    ProductUpdate.mk None (Some None) None (Some (Some 9)) None None
      (Some (Some "restock")) in
  let unnamed :=
    ProductUpdate.mk (Some None) None None (Some (Some 9)) None None
      (Some (Some "restock")) in
  (∀ validate_price,
     ProductUpdate.validate validate_price recount = true
     ∧ ProductUpdate.validate validate_price restock = true
     ∧ ProductUpdate.validate validate_price unnamed = true)
  ∧ product_of Sample.store 1 = Some Sample.desk
  ∧ Product.stock_quantity Sample.desk = 5
  ∧ rows (stock_history Sample.store) = []
  ∧ py_neb VNone (VInt (Product.stock_quantity Sample.desk)) = true
  ∧ (Endpoints.update_product 1 recount 100 Sample.store).1
    = Err (DBAPIError "constraint violated on INSERT")
  ∧ rows (stock_history (Endpoints.update_product 1 recount 100 Sample.store).2) = []
  ∧ (Endpoints.update_product 1 restock 100 Sample.store).1
    = Err (DBAPIError "constraint violated on INSERT")
  ∧ rows (stock_history (Endpoints.update_product 1 restock 100 Sample.store).2) = []
  ∧ (Endpoints.update_product 1 unnamed 100 Sample.store).1
    = Err (DBAPIError "constraint violated on UPDATE")
  ∧ rows (stock_history (Endpoints.update_product 1 unnamed 100 Sample.store).2)
    = [StockHistory.mk 1 1 5 9 (Some "restock") (Some 100)]
  ∧ product_of (Endpoints.update_product 1 unnamed 100 Sample.store).2 1
    = Some Sample.desk.
Proof.
  intros recount restock unnamed.
  split; [intros validate_price; repeat split; reflexivity|].
  repeat split; vm_compute; reflexivity.
Qed.

(** ** Price bound at the validation boundary (C10) *)

Lemma Qltb_0_pos (v : Q) : Qltb 0 v = true ↔ (0 < v)%Q.
Proof.
  unfold Qltb. rewrite negb_true_iff, <- not_true_iff_false, Qle_bool_iff.
  split; [apply Qnot_le_lt | apply Qlt_not_le].
Qed.

Lemma create_validate_price (vp : Q → bool) (p : ProductCreate.t) :
  ProductCreate.validate vp p = true → (0 < ProductCreate.price p)%Q.
Proof.
  unfold ProductCreate.validate, ProductCreate.price_constraint.
  rewrite !andb_true_iff. intros ((((_ & Hgt) & _) & _) & _).
  now apply Qltb_0_pos.
Qed.

Lemma update_validate_price (vp : Q → bool) (u : ProductUpdate.t) (v : Q) :
  ProductUpdate.validate vp u = true →
  attr (ProductUpdate.price u) = Some v → (0 < v)%Q.
Proof.
  unfold ProductUpdate.validate, ProductUpdate.price_constraint, field_ok.
  rewrite !andb_true_iff. intros (((_ & Hprice) & _) & _) Hv.
  rewrite Hv, andb_true_iff in Hprice. now apply Qltb_0_pos.
Qed.

Lemma setattr_price (p p' : Product.t) (f : string) (v : val) :
  Product.setattr p f v = Some p' →
  if String.eqb f "price" then as_number v = Some (Product.price p')
  else Product.price p' = Product.price p.
Proof.
  destruct p as [i n pr d s c di ca ua]. unfold Product.setattr.
  destruct (String.eqb f "price") eqn:Hprice.
  - apply String.eqb_eq in Hprice. subst f. cbn. unfold to_float.
    destruct (as_number v); cbn; [|discriminate]. now intros [= <-].
  - repeat match goal with
           | |- context [if String.eqb f ?s then _ else _] =>
               destruct (String.eqb f s)
           end;
      try (intros [= <-]; reflexivity);
      match goal with
      | |- _ <$> ?o = _ → _ => destruct o; cbn; [now intros [= <-] | discriminate]
      end.
Qed.

Lemma foldl_assign_none (patch : gmap string val) (fields : list string) :
  foldl (λ (acc : option Product.t) field,
           o ← acc;
           match patch !! field with
           | Some v => Product.setattr o field v
           | None => Some o
           end) None fields = None.
Proof. induction fields as [|f fields IH]; [reflexivity | exact IH]. Qed.

Lemma assign_fields_price (patch : gmap string val) (fields : list string) :
  ∀ (p new : Product.t),
    assign (T:=Product.t) p fields patch = Some new →
    match patch !! "price" with
    | Some x => if bool_decide ("price" ∈ fields)
                then as_number x = Some (Product.price new)
                else Product.price new = Product.price p
    | None => Product.price new = Product.price p
    end.
Proof.
  unfold assign.
  induction fields as [|f fields IH]; intros p new Hrun; cbn in Hrun.
  - injection Hrun as <-. now destruct (patch !! "price").
  - destruct (patch !! f) as [v|] eqn:Hf.
    + destruct (Product.setattr p f v) as [p1|] eqn:Hset;
        [|now rewrite foldl_assign_none in Hrun].
      apply setattr_price in Hset. specialize (IH p1 new Hrun).
      destruct (String.eqb f "price") eqn:Hprice.
      * apply String.eqb_eq in Hprice. subst f. rewrite Hf in *.
        rewrite bool_decide_eq_true_2 by apply list_elem_of_here.
        destruct (bool_decide ("price" ∈ fields)); congruence.
      * apply String.eqb_neq in Hprice.
        destruct (patch !! "price") as [x|]; [|congruence].
        rewrite (bool_decide_ext ("price" ∈ f :: fields) ("price" ∈ fields))
          by (rewrite elem_of_cons; intuition congruence).
        destruct (bool_decide ("price" ∈ fields)); congruence.
    + specialize (IH p new Hrun).
      destruct (patch !! "price") as [x|] eqn:Hx; [|assumption].
      assert (f ≠ "price") as Hne by congruence.
      rewrite (bool_decide_ext ("price" ∈ f :: fields) ("price" ∈ fields))
        by (rewrite elem_of_cons; intuition congruence).
      assumption.
Qed.

(** The price an update leaves in the product: the one of the patch, or
    the stored one. *)
Lemma assign_price (patch : gmap string val) (p new : Product.t) :
  assign (T:=Product.t) p Product.columns patch = Some new →
  match patch !! "price" with
  | Some x => as_number x = Some (Product.price new)
  | None => Product.price new = Product.price p
  end.
Proof. intros Hrun. apply assign_fields_price in Hrun. exact Hrun. Qed.

Lemma onupdate_price (now : Z) (old new : Product.t) :
  Product.price (Product.onupdate now old new) = Product.price new.
Proof. destruct new. unfold Product.onupdate. now destruct (py_eqb _ _). Qed.

Lemma product_of_positive (st : Store) (id : Z) (p : Product.t) :
  prices_positive st → product_of st id = Some p → (0 < Product.price p)%Q.
Proof.
  unfold prices_positive, product_of. rewrite Forall_forall.
  intros Hall Hf. apply List.find_some in Hf as [Hin _].
  apply Hall. now apply list_elem_of_In.
Qed.

Lemma product_update_prices (p : Product.t) (patch : gmap string val) now st :
  prices_positive st →
  (0 < Product.price p)%Q →
  (∀ x q, patch !! "price" = Some x → as_number x = Some q → (0 < q)%Q) →
  prices_positive (ProductRepository.update p patch now st).2.
Proof.
  intros Hall Hp Hpatch.
  unfold ProductRepository.update, BaseRepository.update, db_update, bind, get_store,
    utcnow, put_store, throw, ret.
  destruct (assign p model_columns patch) as [new|] eqn:Hassign; [|exact Hall].
  destruct (negb (modified p new)); [exact Hall|].
  destruct (_ && _); [exact Hall|]. cbn.
  unfold prices_positive in *. cbn. rewrite Forall_forall in *.
  intros r Hr. apply list_elem_of_fmap in Hr as (r0 & -> & Hr0).
  destruct (Product.id r0 =? Product.id p); [|now apply Hall].
  rewrite onupdate_price. apply assign_price in Hassign.
  destruct (patch !! "price") as [x|] eqn:Hx.
  - exact (Hpatch x _ eq_refl Hassign).
  - now rewrite Hassign.
Qed.

Lemma update_product_prices (id : Z) (patch : gmap string val) (reason : val) now st :
  prices_positive st →
  (∀ x q, patch !! "price" = Some x → as_number x = Some q → (0 < q)%Q) →
  prices_positive (ProductService.update_product id patch reason now st).2.
Proof.
  intros Hall Hpatch. rewrite update_product_steps.
  destruct (product_of st id) as [p|] eqn:Hp.
  - rewrite (bind_ok _ _ _ _ p st) by now apply product_get_found.
    pose proof (product_of_positive st id p Hall Hp) as Hpos.
    unfold bind at 1.
    pose proof (preserves_price_step products patch p (λ _ _, eq_refl) now st) as H1.
    destruct (price_step patch p now st) as [[[]|e] st1]; cbn [snd] in H1;
      [|unfold prices_positive; cbn [snd]; now rewrite H1].
    unfold bind at 1.
    pose proof (preserves_stock_step products patch p reason (λ _ _, eq_refl) now st1)
      as H2.
    destruct (stock_step patch p reason now st1) as [[[]|e] st2]; cbn [snd] in H2;
      [|unfold prices_positive; cbn [snd]; now rewrite H2, H1].
    apply product_update_prices; try assumption.
    unfold prices_positive. now rewrite H2, H1.
  - rewrite (bind_err _ _ _ _ _ _ (product_get_missing st id now Hp)). exact Hall.
Qed.

Lemma update_dump_price (u : ProductUpdate.t) :
  delete "change_reason" (ProductUpdate.model_dump u) !! "price"
  = of_opt VFloat <$> ProductUpdate.price u.
Proof.
  destruct u as [n pr d s c di r].
  destruct n, pr, d, s, c, di, r; reflexivity.
Qed.

Lemma create_dump_construct (p : ProductCreate.t) (serial now : Z) (obj : Product.t) :
  Product.construct serial now (ProductCreate.model_dump p) = Some obj →
  Product.price obj = ProductCreate.price p.
Proof.
  unfold Product.construct.
  change (kw _ "id") with VNone.
  change (kw _ "name") with (VStr (ProductCreate.name p)).
  change (kw _ "price") with (VFloat (ProductCreate.price p)).
  change (kw _ "description") with (of_opt VStr (ProductCreate.description p)).
  change (kw _ "stock_quantity") with (VInt (ProductCreate.stock_quantity p)).
  change (kw _ "category") with (of_opt VStr (ProductCreate.category p)).
  change (kw _ "discount") with (of_opt VFloat (ProductCreate.discount p)).
  change (kw _ "created_at") with VNone.
  change (kw _ "updated_at") with VNone.
  destruct (ProductCreate.description p), (ProductCreate.category p),
    (ProductCreate.discount p); cbn; now intros [= <-].
Qed.

Lemma check_keywords_store `{Model T} (data : gmap string val) now st :
  (BaseRepository.check_keywords (T:=T) data now st).2 = st.
Proof. unfold BaseRepository.check_keywords. now destruct (forallb _ _). Qed.

Lemma get_with_suppliers_store (id : Z) now st :
  (ProductRepository.get_with_suppliers id now st).2 = st.
Proof.
  unfold ProductRepository.get_with_suppliers, bind. rewrite db_execute_run.
  now destruct (select_rows _ _).
Qed.

Lemma repository_create_prices (p : ProductCreate.t) now st :
  (0 < ProductCreate.price p)%Q →
  prices_positive st →
  prices_positive (ProductRepository.create (ProductCreate.model_dump p) now st).2.
Proof.
  intros Hv Hall.
  unfold ProductRepository.create, BaseRepository.create.
  unfold bind at 1.
  pose proof (check_keywords_store (T:=Product.t) (ProductCreate.model_dump p) now st)
    as Hck.
  destruct (BaseRepository.check_keywords _ now st) as [[[]|e] st0];
    cbn [snd] in Hck; subst st0; [|exact Hall].
  unfold db_insert, bind, get_store, utcnow, put_store, throw, ret.
  change (construct (T:=Product.t) ?a ?b ?d) with (Product.construct a b d).
  destruct (Product.construct _ _ _) as [obj|] eqn:Hobj; [|exact Hall].
  destruct (existsb _ _); [exact Hall|].
  apply Forall_app. split; [exact Hall|]. constructor; [|constructor].
  now rewrite (create_dump_construct _ _ _ _ Hobj).
Qed.

Lemma create_product_prices (vp : Q → bool) (p : ProductCreate.t) now st :
  ProductCreate.validate vp p = true →
  prices_positive st →
  prices_positive (ProductService.create_product p now st).2.
Proof.
  intros Hv Hall. apply create_validate_price in Hv.
  pose proof (repository_create_prices p now st Hv Hall) as Hcreate.
  unfold ProductService.create_product, bind.
  destruct (ProductRepository.create _ now st) as [[product|e] st1];
    cbn [snd] in *; [|exact Hcreate].
  now rewrite get_with_suppliers_store.
Qed.

Lemma construct_all_prices (ps : list ProductCreate.t) (now : Z) :
  Forall (λ p, (0 < ProductCreate.price p)%Q) ps →
  ∀ (tb tb' : Table Product.t) (objs : list Product.t),
    construct_all now tb (map ProductCreate.model_dump ps) = Some (objs, tb') →
    Forall (λ p, (0 < Product.price p)%Q) (rows tb) →
    Forall (λ p, (0 < Product.price p)%Q) (rows tb').
Proof.
  induction 1 as [|p ps Hp _ IH]; intros tb tb' objs Hrun Hall.
  - cbn in Hrun. now injection Hrun as <- <-.
  - cbn [map construct_all] in Hrun.
    change (construct (T:=Product.t) ?a ?b ?d) with (Product.construct a b d) in Hrun.
    destruct (Product.construct _ _ _) as [obj|] eqn:Hobj; [|discriminate].
    cbn [mbind option_bind] in Hrun.
    destruct (existsb _ _); [discriminate|].
    destruct (construct_all _ _ _) as [[objs1 tb1]|] eqn:Hrest; [|discriminate].
    cbn in Hrun. injection Hrun as <- <-.
    apply (IH _ _ _ Hrest). cbn [rows].
    apply Forall_app. split; [exact Hall|]. constructor; [|constructor].
    now rewrite (create_dump_construct _ _ _ _ Hobj).
Qed.

Lemma check_all_keywords_store `{Model T} (datas : list (gmap string val)) now st :
  (for_each datas (BaseRepository.check_keywords (T:=T)) now st).2 = st.
Proof.
  induction datas as [|data datas IH]; [reflexivity|].
  cbn [for_each]. unfold bind.
  pose proof (check_keywords_store (T:=T) data now st) as Hck.
  destruct (BaseRepository.check_keywords data now st) as [[[]|e] st0];
    cbn [snd] in Hck; subst st0; [exact IH | reflexivity].
Qed.

Lemma batch_create_products_prices (vp : Q → bool) (ps : list ProductCreate.t) now st :
  Forall (λ p, ProductCreate.validate vp p = true) ps →
  prices_positive st →
  prices_positive (ProductService.batch_create_products ps now st).2.
Proof.
  intros Hv Hall.
  unfold ProductService.batch_create_products, ProductRepository.batch_create.
  unfold bind at 1.
  pose proof (check_all_keywords_store (T:=Product.t)
                (map ProductCreate.model_dump ps) now st) as Hck.
  destruct (for_each _ _ now st) as [[[]|e] st0]; cbn [snd] in Hck; subst st0;
    [|exact Hall].
  unfold db_insert_all, bind, get_store, utcnow, put_store, throw, ret.
  destruct (construct_all _ _ _) as [[objs tb']|] eqn:Hrun; [|exact Hall].
  unfold prices_positive. cbn.
  eapply construct_all_prices; [|exact Hrun|exact Hall].
  eapply Forall_impl; [exact Hv|]. intros p. apply create_validate_price.
Qed.

(** Within the two schemas of creation and single update the bound holds.
    Both refuse every price that is zero or negative, whatever their
    validators say, and so a store whose products all have a positive
    price still has that property after a product creation, a batch
    creation or a single product update fed with validated input, whether
    the operation succeeds or fails. *)
Lemma price_strictly_positive_at_validation (validate_price : Q → bool) :
  (∀ p : ProductCreate.t,
     (ProductCreate.price p <= 0)%Q → ProductCreate.validate validate_price p = false)
  ∧ (∀ (u : ProductUpdate.t) (v : Q),
       attr (ProductUpdate.price u) = Some v → (v <= 0)%Q →
       ProductUpdate.validate validate_price u = false)
  ∧ (∀ (p : ProductCreate.t) now st,
       ProductCreate.validate validate_price p = true → prices_positive st →
       prices_positive (ProductService.create_product p now st).2)
  ∧ (∀ (ps : list ProductCreate.t) now st,
       Forall (λ p, ProductCreate.validate validate_price p = true) ps →
       prices_positive st →
       prices_positive (ProductService.batch_create_products ps now st).2)
  ∧ (∀ (id : Z) (u : ProductUpdate.t) now st,
       ProductUpdate.validate validate_price u = true → prices_positive st →
       prices_positive (Endpoints.update_product id u now st).2).
Proof.
  repeat split.
  - intros p Hle. apply not_true_is_false. intros Hv.
    apply create_validate_price in Hv. now apply Qlt_not_le in Hv.
  - intros u v Hattr Hle. apply not_true_is_false. intros Hv.
    apply (update_validate_price _ u v) in Hv; [|assumption]. now apply Qlt_not_le in Hv.
  - intros p now st. apply create_product_prices.
  - intros ps now st. apply batch_create_products_prices.
  - intros id u now st Hv Hall. unfold Endpoints.update_product.
    apply update_product_prices; [assumption|].
    intros x q Hx Hq. rewrite update_dump_price in Hx.
    destruct (ProductUpdate.price u) as [[v|]|] eqn:Hprice; cbn in Hx; try discriminate.
    + injection Hx as <-. cbn in Hq. injection Hq as <-.
      apply (update_validate_price _ u v Hv). now rewrite Hprice.
    + injection Hx as <-. discriminate.
Qed.



Example validated_creation_persists :
  ∃ chair st',
    ProductService.create_product
      (ProductCreate.mk "Chair" (4950 # 100) None 4 None None) 100 Sample.store
    = (Ok (Some chair), st')
    ∧ Product.price chair = 4950 # 100
    ∧ rows (products st') = [Sample.lamp; Sample.desk; chair].
Proof. do 2 eexists. repeat split; vm_compute; reflexivity. Qed.

(** ** The filters and the window of the list endpoint *)

Lemma make_filters_bindable (p : Endpoints.ListParams) :
  forallb bindable (ProductRepository.list_conditions (Endpoints.make_filters p)) = true
  ∧ forallb bindable (ProductRepository.count_conditions (Endpoints.make_filters p)) = true
  ∧ forallb bindable (ProductRepository.search_conditions (Endpoints.make_filters p)) = true.
Proof.
  destruct p as [sk li pg sz nm cat lo hi slo shi so od].
  unfold Endpoints.make_filters. cbn [Endpoints.p_category Endpoints.p_min_price
    Endpoints.p_max_price Endpoints.p_min_stock Endpoints.p_max_stock].
  destruct cat as [[|c cat]|], lo, hi, slo, shi; repeat split; reflexivity.
Qed.

Lemma reconcile_window (p : Endpoints.ListParams) :
  Endpoints.query_ok p = true →
  let '(skip, limit, _, _) :=
    Endpoints.reconcile (Endpoints.p_skip p) (Endpoints.p_limit p)
      (Endpoints.p_page p) (Endpoints.p_size p) in
  0 ≤ skip ∧ 0 ≤ limit.
Proof.
  unfold Endpoints.query_ok, Endpoints.reconcile.
  destruct (Endpoints.p_page p) as [pg|], (Endpoints.p_size p) as [sz|];
    rewrite !andb_true_iff; intros Hq; nia.
Qed.

(** ** The helpers on small inputs *)

Example parse_ids_sample :
  Endpoints.parse_ids "1, 2,999," = Some [1; 2; 999]
  ∧ Endpoints.parse_ids "1,x" = None
  ∧ Endpoints.parse_ids " , " = Some [].
Proof. repeat split; vm_compute; reflexivity. Qed.

Example of_list_Z_sample : PyStr.of_list_Z [1; 2; 999] = "[1, 2, 999]".
Proof. vm_compute. reflexivity. Qed.

Example ilike_sample :
  ilike (VStr "Premium Wireless Headphones") "%ear%" = false
  ∧ ilike (VStr "Basic Wired Earbuds") "%ear%" = true
  ∧ ilike (VStr "Noise-cancelling bluetooth headphones") "%BLUE%" = true
  ∧ ilike VNone "%ear%" = false.
Proof. repeat split; vm_compute; reflexivity. Qed.

Example pages_sample :
  (15 + 10 - 1) / 10 = 2 ∧ ceil_div 15 10 = 2 ∧ ceil_div 20 10 = 2 ∧ ceil_div 0 10 = 0.
Proof. repeat split; vm_compute; reflexivity. Qed.

Example update_sample :
  let patch : gmap string val := {[ "price" := VFloat (2499 # 100) ]} in
  ∃ st1 p1,
    ProductService.update_product 1 patch VNone 100 Sample.store = (Ok p1, st1)
    ∧ rows (price_history st1) = [PriceHistory.mk 1 1 (1999 # 100) (2499 # 100) (Some 100)]
    ∧ ∃ st2 p2,
        ProductService.update_product 1 patch VNone 101 st1 = (Ok p2, st2)
        ∧ rows (price_history st2) = rows (price_history st1).
Proof.
  do 2 eexists. split; [vm_compute; reflexivity|]. split; [reflexivity|].
  do 2 eexists. split; vm_compute; reflexivity.
Qed.

(** * Further properties

    Properties of the code beyond those the specification states: reads,
    deletions, counts, invariants of the store and the way the operations
    compose. *)


(** ** The history service *)

Lemma history_after_get {A} (m : M A) (product_id now : Z) (st : Store) :
  (ProductRepository.get product_id >> m) now st
  = match product_of st product_id with
    | Some _ => m now st
    | None =>
        (Err (NotFoundException
                ("Product with id " ++ PyStr.of_Z product_id ++ " not found")), st)
    end.
Proof.
  destruct (product_of st product_id) as [p|] eqn:Hp.
  - unfold bind. by rewrite (product_get_found _ _ _ _ Hp).
  - unfold bind. by rewrite (product_get_missing _ _ _ Hp).
Qed.

(** X1.  The date-range reads of the history service.  For a product id of
    32 bits that is not in the store both reads raise the not-found error
    of the repository and leave the store as it was.  For a product that is
    there, and non-negative [skip] and [limit] of 64 bits, each read
    succeeds without changing the
    store; every returned row is a stored history row of that product whose
    timestamp lies within the requested bounds (both inclusive, an absent
    bound being no bound); at most [limit] rows are returned; and with
    [skip = 0] and a [limit] that covers the table no such row is left out. *)
Theorem history_service_reads_rows_of_product
    (product_id : Z) (start_date end_date : option Z) (skip limit : Z) now st :
  (int32 product_id → product_of st product_id = None →
   HistoryService.get_price_history_by_date_range product_id start_date end_date
     skip limit now st
   = (Err (NotFoundException
             ("Product with id " ++ PyStr.of_Z product_id ++ " not found")), st)
   ∧ HistoryService.get_stock_history_by_date_range product_id start_date end_date
       skip limit now st
     = (Err (NotFoundException
               ("Product with id " ++ PyStr.of_Z product_id ++ " not found")), st))
  ∧ (is_Some (product_of st product_id) → 0 ≤ skip < 2 ^ 63 → 0 ≤ limit < 2 ^ 63 →
     (∃ l, HistoryService.get_price_history_by_date_range product_id start_date
             end_date skip limit now st = (Ok l, st)
           ∧ Forall (λ h, h ∈ rows (price_history st)
                          ∧ PriceHistory.product_id h = product_id
                          ∧ within start_date end_date (PriceHistory.timestamp h)) l
           ∧ Z.of_nat (length l) ≤ limit
           ∧ (skip = 0 → Z.of_nat (length (rows (price_history st))) ≤ limit →
              ∀ h, h ∈ rows (price_history st) →
                   PriceHistory.product_id h = product_id →
                   within start_date end_date (PriceHistory.timestamp h) → h ∈ l))
     ∧ (∃ l, HistoryService.get_stock_history_by_date_range product_id start_date
               end_date skip limit now st = (Ok l, st)
             ∧ Forall (λ h, h ∈ rows (stock_history st)
                            ∧ StockHistory.product_id h = product_id
                            ∧ within start_date end_date (StockHistory.timestamp h)) l
             ∧ Z.of_nat (length l) ≤ limit
             ∧ (skip = 0 → Z.of_nat (length (rows (stock_history st))) ≤ limit →
                ∀ h, h ∈ rows (stock_history st) →
                     StockHistory.product_id h = product_id →
                     within start_date end_date (StockHistory.timestamp h) → h ∈ l))).
Proof.
  unfold HistoryService.get_price_history_by_date_range,
    HistoryService.get_stock_history_by_date_range.
  rewrite !history_after_get.
  split.
  - intros _ ->. done.
  - intros [p ->] [Hs _] [Hl _]. split.
    + exact (date_range_read (T:=PriceHistory.t) PriceHistory.product_id
               PriceHistory.timestamp price_row_product price_row_timestamp
               product_id start_date end_date skip limit now st Hs Hl).
    + exact (date_range_read (T:=StockHistory.t) StockHistory.product_id
               StockHistory.timestamp stock_row_product stock_row_timestamp
               product_id start_date end_date skip limit now st Hs Hl).
Qed.

Lemma history_service_reads_rows_of_product_witness :
  HistoryService.get_price_history_by_date_range 999 (Some 25) None 0 100 50
    Sample.store_with_history
  = (Err (NotFoundException ("Product with id " ++ PyStr.of_Z 999 ++ " not found")),
     Sample.store_with_history)
  ∧ ∃ l, HistoryService.get_price_history_by_date_range 1 (Some 25) None 0 100 50
           Sample.store_with_history = (Ok l, Sample.store_with_history)
         ∧ Forall (λ h, h ∈ rows (price_history Sample.store_with_history)
                        ∧ PriceHistory.product_id h = 1
                        ∧ within (Some 25) None (PriceHistory.timestamp h)) l
         ∧ Z.of_nat (length l) ≤ 100.
Proof.
  split.
  - apply (history_service_reads_rows_of_product 999 (Some 25) None 0 100 50
             Sample.store_with_history); [unfold int32; lia | reflexivity].
  - destruct (history_service_reads_rows_of_product 1 (Some 25) None 0 100 50
                Sample.store_with_history) as [_ Hread].
    destruct Hread as [(l & Hl & Hall & Hlen & _) _].
    + by eexists.
    + lia.
    + lia.
    + exists l. done.
Defined.

(** ** Lenient batch delete of suppliers *)

Lemma List_filter_stdpp {A} (f : A → bool) (P : A → Prop) `{∀ x, Decision (P x)}
    (l : list A) :
  (∀ x, f x = true ↔ P x) → List.filter f l = filter P l.
Proof.
  intros Hf. induction l as [|a l IH]; [done|].
  simpl. rewrite filter_cons, IH.
  destruct (f a) eqn:Hfa; case_decide as HP; try done.
  - apply Hf in Hfa. done.
  - apply Hf in HP. congruence.
Qed.

Lemma filter_all {A} (P : A → Prop) `{∀ x, Decision (P x)} (l : list A) :
  Forall P l → filter P l = l.
Proof.
  induction 1 as [|a l Ha _ IH]; [done|].
  by rewrite filter_cons_True, IH.
Qed.

Lemma holds_supplier_id_in (s : Supplier.t) (ids : list Z) :
  forallb (holds s) [CIn "id" (map VInt ids)] = true ↔ Supplier.id s ∈ ids.
Proof.
  cbn [forallb holds]. rewrite andb_true_r, existsb_exists.
  change (getattr s "id") with (VInt (Supplier.id s)).
  split.
  - intros (v & Hv & Hc). apply in_map_iff in Hv as (x & <- & Hx).
    rewrite sql_compare_ints in Hc.
    destruct (Z.compare_spec (Supplier.id s) x); try done.
    subst. by apply list_elem_of_In.
  - intros Hin. exists (VInt (Supplier.id s)). split.
    + apply in_map. by apply list_elem_of_In.
    + by rewrite sql_compare_ints, Z.compare_refl.
Qed.

Lemma filter_not_in_cons {A} (f : A → Z) (a : Z) (ids : list Z) (l : list A) :
  filter (λ x, f x ∉ ids) (filter (λ x, f x ≠ a) l) = filter (λ x, f x ∉ a :: ids) l.
Proof.
  rewrite list_filter_filter. apply list_filter_iff.
  intros x. rewrite not_elem_of_cons. tauto.
Qed.

Lemma delete_suppliers_run (objs : list Supplier.t) now :
  ∀ st, for_each objs (db_delete (T:=Supplier.t)) now st
        = (Ok tt, remove_suppliers st (map Supplier.id objs)).
Proof.
  induction objs as [|s objs IH]; intros st.
  - unfold remove_suppliers. simpl.
    rewrite !filter_all; [by destruct st as [? [??] ? ? ?]| |];
      apply Forall_forall; intros ??; apply not_elem_of_nil.
  - cbn [for_each]. unfold bind at 1.
    change (db_delete s now st)
      with (Ok tt,
            mkStore (products st)
              (mkTable (filter (λ r, Supplier.id r ≠ Supplier.id s) (rows (suppliers st)))
                 (next_id (suppliers st)))
              (filter (λ a, a.2 ≠ Supplier.id s) (product_suppliers st))
              (price_history st) (stock_history st)).
    cbv beta iota. rewrite IH. f_equal.
    unfold remove_suppliers. cbn [products suppliers product_suppliers price_history
      stock_history rows next_id map].
    by rewrite !filter_not_in_cons.
Qed.

Lemma filter_ext_elem {A} (P Q : A → Prop) `{∀ x, Decision (P x)} `{∀ x, Decision (Q x)}
    (l : list A) :
  (∀ x, x ∈ l → P x ↔ Q x) → filter P l = filter Q l.
Proof.
  induction l as [|a l IH]; intros HPQ; [done|].
  rewrite !filter_cons, IH by (intros x Hx; apply HPQ; by right).
  pose proof (HPQ a (list_elem_of_here _ _)).
  repeat case_decide; tauto.
Qed.

Lemma deleted_supplier_ids (ids : list Z) (l : list Supplier.t) :
  filter (λ s, Supplier.id s ∉ map Supplier.id (filter (λ s, Supplier.id s ∈ ids) l)) l
  = filter (λ s, Supplier.id s ∉ ids) l.
Proof.
  apply filter_ext_elem. intros s Hs.
  split; intros Hn Hin; apply Hn.
  - apply list_elem_of_In, in_map, list_elem_of_In, list_elem_of_filter. done.
  - apply list_elem_of_In, in_map_iff in Hin as (s' & Heq & Hs').
    apply list_elem_of_In, list_elem_of_filter in Hs' as [Hs' _]. by rewrite <- Heq.
Qed.

(** X2.  The batch delete of suppliers never fails on an unknown id.  For every
    list of at most 32767 ids of 32 bits (one query takes no more
    parameters) it succeeds and returns exactly the stored suppliers whose
    id is listed, in storage order; the table keeps exactly the others; the
    associations of the deleted suppliers go with them; products and both
    histories are untouched. *)
Theorem supplier_batch_delete_skips_missing_ids (ids : list Z) now st :
  Forall int32 ids → Z.of_nat (length ids) ≤ 32767 →
  let deleted := filter (λ s, Supplier.id s ∈ ids) (rows (suppliers st)) in
  SupplierService.batch_delete_suppliers ids now st
  = (Ok deleted, remove_suppliers st (map Supplier.id deleted))
  ∧ rows (suppliers (remove_suppliers st (map Supplier.id deleted)))
    = filter (λ s, Supplier.id s ∉ ids) (rows (suppliers st))
  ∧ products (remove_suppliers st (map Supplier.id deleted)) = products st
  ∧ price_history (remove_suppliers st (map Supplier.id deleted)) = price_history st
  ∧ stock_history (remove_suppliers st (map Supplier.id deleted)) = stock_history st.
Proof.
  intros _ _ deleted. split; [|split; [apply deleted_supplier_ids | done]].
  assert (Hnone : (Ok (A:=list Supplier.t) [], st) = (Ok [], remove_suppliers st [])).
  { f_equal. unfold remove_suppliers.
    rewrite !filter_all; [by destruct st as [? [??] ? ? ?]| |];
      apply Forall_forall; intros ??; apply not_elem_of_nil. }
  unfold SupplierService.batch_delete_suppliers, SupplierRepository.batch_delete,
    BaseRepository.batch_delete.
  destruct ids as [|i ids].
  { subst deleted.
    assert (filter (λ s, Supplier.id s ∈ []) (rows (suppliers st)) = []) as ->; [|done].
    induction (rows (suppliers st)) as [|a l IH]; [done|].
    rewrite filter_cons_False; [done | apply not_elem_of_nil]. }
  set (ids' := i :: ids) in *.
  unfold bind. rewrite db_execute_run.
  rewrite select_rows_ok by done.
  cbn [q_where q_offset q_limit q_order_by window ordered].
  rewrite (List_filter_stdpp _ (λ s, Supplier.id s ∈ ids'))
    by (intros s; apply holds_supplier_id_in).
  cbn [table Supplier_model].
  change (filter (λ s, Supplier.id s ∈ ids') (rows (suppliers st))) with deleted.
  clearbody deleted. destruct deleted as [|d deleted']; [done|].
  by rewrite delete_suppliers_run.
Qed.

Lemma supplier_batch_delete_skips_missing_ids_witness :
  SupplierService.batch_delete_suppliers [2; 999] 100 Sample.store_with_links
  = (Ok (filter (λ s, Supplier.id s ∈ [2; 999]) (rows (suppliers Sample.store_with_links))),
     remove_suppliers Sample.store_with_links
       (map Supplier.id
          (filter (λ s, Supplier.id s ∈ [2; 999])
             (rows (suppliers Sample.store_with_links))))).
Proof.
  destruct (supplier_batch_delete_skips_missing_ids [2; 999] 100 Sample.store_with_links)
    as [Hrun _]; [|cbn; lia|exact Hrun].
  repeat (apply Forall_cons; split; [unfold int32; lia|]). apply Forall_nil_2.
Defined.

Example supplier_batch_delete_sample :
  SupplierService.batch_delete_suppliers [2; 999] 100 Sample.store_with_links
  = (Ok [Sample.bolt],
     mkStore (mkTable [Sample.lamp; Sample.desk] 3) (mkTable [Sample.acme] 3) [(1, 1)]
       (mkTable [Sample.change1; Sample.change2] 3) (mkTable [] 1)).
Proof. reflexivity. Qed.

(** ** Fetching and deleting one product *)

Lemma holds_product_pk (r : Product.t) (id : Z) :
  forallb (holds r) [CCompare "id" OpEq (PScalar (VInt id))] = true ↔ Product.id r = id.
Proof.
  cbn [forallb holds]. rewrite andb_true_r.
  change (getattr r "id") with (VInt (Product.id r)).
  rewrite sql_compare_ints. apply test_op_eq.
Qed.

Lemma head_filter_find {A} (f : A → bool) (l : list A) :
  head (List.filter f l) = List.find f l.
Proof.
  induction l as [|a l IH]; [done|]. simpl. by destruct (f a).
Qed.

Lemma find_by_pk (id : Z) (l : list Product.t) :
  List.find (λ r, forallb (holds r) [CCompare "id" OpEq (PScalar (VInt id))]) l
  = List.find (λ r, Product.id r =? id) l.
Proof.
  induction l as [|a l IH]; [done|].
  cbn [List.find]. rewrite IH.
  destruct (forallb (holds a) _) eqn:Hh.
  - apply holds_product_pk in Hh. by rewrite (proj2 (Z.eqb_eq _ _) Hh).
  - destruct (Product.id a =? id) eqn:Heq; [|done].
    apply Z.eqb_eq, holds_product_pk in Heq. congruence.
Qed.

Lemma get_with_suppliers_run (id now : Z) (st : Store) :
  ProductRepository.get_with_suppliers id now st = (Ok (product_of st id), st).
Proof.
  unfold ProductRepository.get_with_suppliers, bind.
  rewrite db_execute_run, select_rows_ok by done.
  cbn [q_where q_offset q_limit q_order_by window ordered ret].
  by rewrite head_filter_find, find_by_pk.
Qed.

Lemma get_product_run (id now : Z) (st : Store) :
  ProductService.get_product id now st
  = match product_of st id with
    | Some p => (Ok p, st)
    | None =>
        (Err (HTTPException 404 ("Product with ID " ++ PyStr.of_Z id ++ " not found")), st)
    end.
Proof.
  unfold ProductService.get_product, bind. rewrite get_with_suppliers_run.
  by destruct (product_of st id).
Qed.

Lemma delete_product_run (id now : Z) (st : Store) :
  ProductService.delete_product id now st
  = match product_of st id with
    | Some p => (Ok p, remove_product st id)
    | None =>
        (Err (NotFoundException ("Product with id " ++ PyStr.of_Z id ++ " not found")), st)
    end.
Proof.
  unfold ProductService.delete_product. rewrite history_after_get.
  destruct (product_of st id) as [p|] eqn:Hp; [|done].
  by apply product_delete_found.
Qed.

(** X3.  Deleting a product that is in the store returns it and removes it.
    Afterwards fetching the id through the service answers 404, deleting it
    again raises the repository's not-found error, and no price-history
    row, stock-history row or supplier association of the product is left.
    Suppliers are untouched, and every other product keeps its row and its
    history rows. *)
Theorem delete_product_then_absent (id now now' : Z) (st : Store) (p : Product.t) :
  product_of st id = Some p →
  ProductService.delete_product id now st = (Ok p, remove_product st id)
  ∧ ProductService.get_product id now' (remove_product st id)
    = (Err (HTTPException 404 ("Product with ID " ++ PyStr.of_Z id ++ " not found")),
       remove_product st id)
  ∧ ProductService.delete_product id now' (remove_product st id)
    = (Err (NotFoundException ("Product with id " ++ PyStr.of_Z id ++ " not found")),
       remove_product st id)
  ∧ Forall (λ h, PriceHistory.product_id h ≠ id)
      (rows (price_history (remove_product st id)))
  ∧ Forall (λ h, StockHistory.product_id h ≠ id)
      (rows (stock_history (remove_product st id)))
  ∧ Forall (λ a, a.1 ≠ id) (product_suppliers (remove_product st id))
  ∧ suppliers (remove_product st id) = suppliers st
  ∧ (∀ id', id' ≠ id →
       product_of (remove_product st id) id' = product_of st id'
       ∧ filter (λ h, PriceHistory.product_id h = id')
           (rows (price_history (remove_product st id)))
         = filter (λ h, PriceHistory.product_id h = id') (rows (price_history st))
       ∧ filter (λ h, StockHistory.product_id h = id')
           (rows (stock_history (remove_product st id)))
         = filter (λ h, StockHistory.product_id h = id') (rows (stock_history st))).
Proof.
  intros Hp.
  assert (Hgone : product_of (remove_product st id) id = None).
  { by rewrite product_of_remove, Z.eqb_refl. }
  split; [by rewrite delete_product_run, Hp|].
  split; [by rewrite get_product_run, Hgone|].
  split; [by rewrite delete_product_run, Hgone|].
  split; [|split; [|split; [|split]]].
  - apply Forall_forall. intros h Hh.
    by apply list_elem_of_filter in Hh as [? _].
  - apply Forall_forall. intros h Hh.
    by apply list_elem_of_filter in Hh as [? _].
  - apply Forall_forall. intros h Hh.
    by apply list_elem_of_filter in Hh as [? _].
  - done.
  - intros id' Hne. split; [|split].
    + rewrite product_of_remove.
      by destruct (Z.eqb_spec id' id).
    + cbn [remove_product cascade Product_model price_history drop_history_of rows].
      rewrite list_filter_filter. apply list_filter_iff. intros h. split; [tauto|].
      intros ->. done.
    + cbn [remove_product cascade Product_model stock_history drop_history_of rows].
      rewrite list_filter_filter. apply list_filter_iff. intros h. split; [tauto|].
      intros ->. done.
Qed.

Lemma delete_product_then_absent_witness :
  ProductService.delete_product 1 100 Sample.store_with_links
  = (Ok Sample.desk, remove_product Sample.store_with_links 1)
  ∧ ProductService.get_product 1 101 (remove_product Sample.store_with_links 1)
    = (Err (HTTPException 404 ("Product with ID " ++ PyStr.of_Z 1 ++ " not found")),
       remove_product Sample.store_with_links 1)
  ∧ rows (price_history (remove_product Sample.store_with_links 1)) = [].
Proof.
  destruct (delete_product_then_absent 1 100 101 Sample.store_with_links Sample.desk)
    as (Hd & Hg & _); [reflexivity|].
  split; [exact Hd|]. split; [exact Hg|]. reflexivity.
Defined.
Lemma check_keywords_dump (p : ProductCreate.t) :
  BaseRepository.check_keywords (T:=Product.t) (ProductCreate.model_dump p) = ret tt.
Proof.
  unfold BaseRepository.check_keywords.
  assert (forallb (λ kv : string * val, hasattr (T:=Product.t) kv.1)
            (map_to_list (ProductCreate.model_dump p)) = true) as ->; [|done].
  destruct p. vm_compute. reflexivity.
Qed.

Lemma construct_dump (p : ProductCreate.t) (serial now : Z) :
  Product.construct serial now (ProductCreate.model_dump p)
  = Some (Product.mk serial (ProductCreate.name p) (ProductCreate.price p)
            (ProductCreate.description p) (ProductCreate.stock_quantity p)
            (ProductCreate.category p)
            (default (inject_Z 0) (ProductCreate.discount p)) (Some now) (Some now)).
Proof.
  destruct p as [n pr d s c di]. unfold Product.construct, ProductCreate.model_dump.
  cbn [ProductCreate.name ProductCreate.price ProductCreate.description
       ProductCreate.stock_quantity ProductCreate.category ProductCreate.discount].
  destruct d, c, di; reflexivity.
Qed.

Lemma db_insert_fresh `{Model T} (data : gmap string val) (obj : T) now st :
  construct (next_id (table st)) now data = Some obj →
  pk obj = next_id (table st) →
  serial_fresh (table st) →
  is_none (kw data "id") = true →
  db_insert data now st
  = (Ok obj,
     with_table (mkTable (rows (table st) ++ [obj]) (next_id (table st) + 1)) st).
Proof.
  intros Hc Hpk Hfresh Hid.
  unfold db_insert, bind, get_store, utcnow. rewrite Hc, Hpk.
  rewrite (serial_fresh_no_duplicate _ Hfresh), Hid. done.
Qed.

Lemma find_fresh (l : list Product.t) (q : Product.t) :
  Forall (λ r, Product.id r < Product.id q) l →
  List.find (λ r, Product.id r =? Product.id q) (l ++ [q]) = Some q.
Proof.
  induction 1 as [|a l Ha _ IH]; simpl.
  - by rewrite Z.eqb_refl.
  - destruct (Z.eqb_spec (Product.id a) (Product.id q)); [lia | done].
Qed.

(** X4.  Creating a product and fetching it.  When the serial counter of the
    product table is ahead of the stored ids and within 32 bits, and the
    input fits the columns (a name of at most 100 characters, a category of
    at most 50, no character of code 0, a stock quantity of 32 bits),
    [create_product] appends one
    row carrying the next serial as id, the fields of the input, a discount
    of 0 when none is given and two time stamps, and returns it; nothing
    else in the store changes; fetching that id afterwards returns the
    same product; the counter is still ahead. *)
Theorem create_product_then_get (p : ProductCreate.t) (now now' : Z) (st : Store) :
  serial_fresh (products st) → int32 (next_id (products st)) → product_fits p →
  ∃ created updated,
    let q := Product.mk (next_id (products st)) (ProductCreate.name p)
               (ProductCreate.price p) (ProductCreate.description p)
               (ProductCreate.stock_quantity p) (ProductCreate.category p)
               (default (inject_Z 0) (ProductCreate.discount p))
               (Some created) (Some updated) in
    let st' := mkStore (mkTable (rows (products st) ++ [q]) (next_id (products st) + 1))
                 (suppliers st) (product_suppliers st) (price_history st)
                 (stock_history st) in
    ProductService.create_product p now st = (Ok (Some q), st')
    ∧ ProductService.get_product (next_id (products st)) now' st' = (Ok q, st')
    ∧ serial_fresh (products st').
Proof.
  intros Hfresh _ _. exists now, now. intros q st'.
  assert (Hq : product_of st' (next_id (products st)) = Some q).
  { unfold product_of. subst st'. cbn [products rows].
    apply (find_fresh _ q). exact Hfresh. }
  split; [|split].
  - unfold ProductService.create_product, ProductRepository.create,
      BaseRepository.create.
    rewrite check_keywords_dump. unfold bind at 1 2. cbn [ret].
    rewrite (db_insert_fresh _ q); [| apply construct_dump | done | exact Hfresh
                                    | by destruct p as [? ? [] ? [] []] ].
    change (with_table _ st) with st'.
    cbn [Product.id q]. by rewrite get_with_suppliers_run, Hq.
  - by rewrite get_product_run, Hq.
  - unfold serial_fresh. subst st'. cbn [products rows next_id].
    apply Forall_app. split.
    + eapply Forall_impl; [exact Hfresh|]. intros r Hr. simpl in *. lia.
    + apply Forall_singleton. simpl. lia.
Qed.

Ltac text_fits_holds :=
  split;
  [ cbn [list_ascii_of_string];
    repeat (apply Forall_cons; split; [discriminate|]); apply Forall_nil_2
  | let w := fresh in let Hw := fresh in
    intros w Hw; try discriminate Hw; injection Hw as <-; cbn; lia ].

Lemma create_product_then_get_witness :
  ∃ q st',
    ProductService.create_product
      (ProductCreate.mk "Chair" (4950 # 100) None 4 (Some "Home") None) 100 Sample.store
    = (Ok (Some q), st')
    ∧ ProductService.get_product 3 101 st' = (Ok q, st')
    ∧ Product.id q = 3 ∧ Product.discount q = inject_Z 0.
Proof.
  destruct (create_product_then_get
              (ProductCreate.mk "Chair" (4950 # 100) None 4 (Some "Home") None)
              100 101 Sample.store) as (created & updated & Hc & Hg & _).
  { unfold serial_fresh.
    repeat (apply Forall_cons; split; [by vm_compute|]). apply Forall_nil_2. }
  { unfold int32. simpl. lia. }
  { split; [text_fits_holds|]. split; [discriminate|].
    split; [|unfold int32; simpl; lia].
    intros c Hc. injection Hc as <-. text_fits_holds. }
  eexists _, _. split; [exact Hc|]. split; [exact Hg|]. split; reflexivity.
Defined.

(** ** Counting products against listing them *)

Lemma product_conditions_agree (kwargs : list (string * pyval)) :
  Forall (λ kv, kv.1 ≠ "search_term") kwargs →
  ProductRepository.count_conditions kwargs = ProductRepository.list_conditions kwargs.
Proof.
  induction 1 as [|[key value] kwargs Hk _ IH]; [done|].
  unfold ProductRepository.count_conditions, ProductRepository.list_conditions in *.
  cbn [flat_map]. rewrite IH. f_equal.
  simpl in Hk. apply String.eqb_neq in Hk. rewrite Hk. done.
Qed.

Lemma window_length_le {T} (off lim : option Z) (l : list T) :
  (length (window off lim l) ≤ length l)%nat.
Proof. apply sublist_length, window_sublist. Qed.

(** X5.  The product count against the product listing.  For filters without a
    [search_term] key, whenever the listing succeeds the count under the
    same filters succeeds too, leaves the store unchanged and is at least
    the length of the listed page; it equals that length when the page is
    the whole result ([skip = 0] and a [limit] that covers the table). *)
Theorem product_count_mirrors_list
    (kwargs : list (string * pyval)) (skip limit : Z)
    (sort_by sort_order : option string) now st (l : list Product.t) :
  Forall (λ kv, kv.1 ≠ "search_term") kwargs →
  ProductRepository.get_multi_with_suppliers skip limit sort_by sort_order kwargs now st
  = (Ok l, st) →
  ∃ n, ProductRepository.count kwargs now st = (Ok n, st)
       ∧ Z.of_nat (length l) ≤ n
       ∧ (skip = 0 → Z.of_nat (length (rows (products st))) ≤ limit →
          n = Z.of_nat (length l)).
Proof.
  intros Hkeys Hlist.
  unfold ProductRepository.get_multi_with_suppliers in Hlist.
  rewrite db_execute_run in Hlist. injection Hlist as Hsel.
  apply select_rows_inv in Hsel as (Hb & _ & _ & ->).
  cbn [q_where q_offset q_limit q_order_by] in *.
  unfold ProductRepository.count. rewrite db_count_run.
  rewrite product_conditions_agree by done.
  rewrite select_rows_ok by done.
  cbn [q_where q_offset q_limit q_order_by table Product_model].
  eexists. split; [reflexivity|].
  set (matching := List.filter _ (rows (products st))).
  change (window None None (ordered None matching)) with matching.
  match goal with |- context [ordered (Some ?ob) _] => set (ob' := Some ob) end.
  pose proof (Permutation_length (ordered_Permutation ob' matching)) as Hperm.
  split.
  - pose proof (window_length_le (Some skip) (Some limit) (ordered ob' matching)). lia.
  - intros -> Hlen. rewrite window_all; [lia|].
    pose proof (List.filter_length_le
      (λ r, forallb (holds r) (ProductRepository.list_conditions kwargs))
      (rows (products st))). subst matching. lia.
Qed.

Lemma product_count_mirrors_list_witness :
  ∃ n, ProductRepository.count
         [("price_range", PDict {[ "min" := VFloat (10 # 1); "max" := VNone ]})]
         100 Sample.store = (Ok n, Sample.store)
       ∧ n = 1.
Proof.
  destruct (product_count_mirrors_list
              [("price_range", PDict {[ "min" := VFloat (10 # 1); "max" := VNone ]})]
              0 100 None (Some "asc") 100 Sample.store [Sample.desk])
    as (n & Hc & _ & Heq).
  - apply Forall_cons; split; [by vm_compute | apply Forall_nil_2].
  - reflexivity.
  - exists n. split; [exact Hc|]. apply Heq; [reflexivity | by vm_compute].
Defined.

(** ** The list endpoint: a page against the total *)

Lemma make_filters_keys (p : Endpoints.ListParams) :
  Forall (λ kv, kv.1 ≠ "search_term") (Endpoints.make_filters p).
Proof.
  unfold Endpoints.make_filters.
  repeat apply Forall_app_2;
    repeat match goal with
           | |- context [if ?b then _ else _] => destruct b
           | |- context [match ?o with Some _ => _ | None => _ end] => destruct o
           end;
    repeat (apply Forall_cons; split; [by vm_compute|]); apply Forall_nil_2.
Qed.

Lemma reconcile_limit (skip limit : Z) (page size : option Z) :
  let '(_, li, _, asz) := Endpoints.reconcile skip limit page size in
  li = match page with Some _ => asz | None => limit end
  ∧ asz = default limit size.
Proof. unfold Endpoints.reconcile. by destruct page, size. Qed.

(** X6.  The list endpoint, for parameters its declared bounds accept, no
    name filter, and a sort field and stock bounds that the store can
    take.  Whenever the handler answers, it has left the store unchanged;
    every item is a stored product; the number of items is at most the
    reported total, which is at most the number of stored products; and it
    is at most the reported page size when a page is requested, at most
    [limit] otherwise. *)
Theorem get_products_page_within_total
    (p : Endpoints.ListParams) now st (resp : Endpoints.ProductListResponse) st' :
  Endpoints.query_ok p = true →
  list_query_fits p →
  str_truthy (Endpoints.p_name p) = false →
  Endpoints.get_products p now st = (Ok resp, st') →
  st' = st
  ∧ Forall (λ r, r ∈ rows (products st)) (Endpoints.items resp)
  ∧ Z.of_nat (length (Endpoints.items resp)) ≤ Endpoints.total resp
  ∧ Endpoints.total resp ≤ Z.of_nat (length (rows (products st)))
  ∧ Z.of_nat (length (Endpoints.items resp))
    ≤ match Endpoints.p_page p with
      | Some _ => Endpoints.size resp
      | None => Endpoints.p_limit p
      end.
Proof.
  intros Hq _ Hname. pose proof (reconcile_window p Hq) as Hw.
  pose proof (reconcile_limit (Endpoints.p_skip p) (Endpoints.p_limit p)
                (Endpoints.p_page p) (Endpoints.p_size p)) as Hli.
  destruct (make_filters_bindable p) as (Hl & Hc & _).
  unfold Endpoints.get_products. rewrite Hname.
  destruct (Endpoints.reconcile _ _ _ _) as [[[skip limit] actual_skip] actual_size].
  destruct Hw as [Hskip Hlimit]. destruct Hli as [Hli _].
  assert (negative (Some skip) = false) as Hn1 by (cbn; lia).
  assert (negative (Some limit) = false) as Hn2 by (cbn; lia).
  unfold bind at 1.
  unfold ProductService.get_products, ProductRepository.get_multi_with_suppliers.
  rewrite db_execute_run, select_rows_ok by auto.
  unfold bind at 1. unfold ProductRepository.count.
  rewrite db_count_run, select_rows_ok by auto.
  rewrite product_conditions_agree by apply make_filters_keys.
  cbn [q_where q_offset q_limit q_order_by table Product_model ret].
  set (matching := List.filter _ (rows (products st))).
  change (window None None (ordered None matching)) with matching.
  match goal with |- context [ordered (Some ?ob) _] => set (ob' := Some ob) end.
  pose proof (Permutation_length (ordered_Permutation ob' matching)) as Hperm.
  pose proof (window_length_le (Some skip) (Some limit) (ordered ob' matching)) as Hwl.
  pose proof (List.filter_length_le
    (λ r, forallb (holds r) (ProductRepository.list_conditions (Endpoints.make_filters p)))
    (rows (products st))) as Hfl. fold matching in Hfl.
  intros Hrun. unfold ret in Hrun.
  match type of Hrun with
  | (Ok ?x, _) = _ => assert (resp = x) as -> by congruence
  end.
  assert (st' = st) as -> by congruence. clear Hrun.
  split; [reflexivity|].
  cbn [Endpoints.items Endpoints.total Endpoints.size].
  split; [|split; [lia | split; [lia|]]].
  - apply Forall_forall. intros r Hr.
    apply (λ H, elem_of_sublist _ _ _ H (window_sublist _ _ _)) in Hr.
    rewrite ordered_Permutation in Hr.
    by apply list_elem_of_In, filter_In in Hr as [Hin%list_elem_of_In _].
  - pose proof (window_length (Some skip) limit (ordered ob' matching) Hlimit).
    destruct (Endpoints.p_page p); lia.
Qed.

Lemma get_products_page_within_total_witness :
  ∃ resp,
    Endpoints.get_products Sample.both_modes 100 Sample.store = (Ok resp, Sample.store)
    ∧ Z.of_nat (length (Endpoints.items resp)) ≤ Endpoints.total resp
    ∧ Z.of_nat (length (Endpoints.items resp)) ≤ Endpoints.size resp.
Proof.
  eexists. split; [vm_compute; reflexivity|].
  assert (Hfits : list_query_fits Sample.both_modes).
  { unfold list_query_fits. cbn. repeat split; (discriminate || lia). }
  destruct (get_products_page_within_total Sample.both_modes 100 Sample.store _
              Sample.store eq_refl Hfits eq_refl eq_refl) as (_ & _ & Ht & _ & Hs).
  split; [exact Ht | exact Hs].
Defined.

(** ** Searching products *)

Lemma search_conditions_without_ranges (kwargs : list (string * pyval)) :
  ProductRepository.search_conditions kwargs
  = ProductRepository.search_conditions
      (filter (λ kv, kv.1 ∉ ["price_range"; "stock_range"]) kwargs).
Proof.
  unfold ProductRepository.search_conditions.
  induction kwargs as [|[key value] kwargs IH]; [reflexivity|].
  rewrite filter_cons. cbn [fst].
  destruct (decide (key ∉ ["price_range"; "stock_range"])) as [Hk|Hk].
  - cbn [flat_map]. now rewrite IH.
  - cbn [flat_map]. rewrite <- IH.
    assert (hasattr (T:=Product.t) key = false) as ->; [|reflexivity].
    apply dec_stable in Hk.
    apply elem_of_cons in Hk as [->|Hk]; [reflexivity|].
    apply elem_of_cons in Hk as [->|Hk]; [reflexivity|].
    now apply elem_of_nil in Hk.
Qed.

(** X7.  The product search does not apply price and stock bounds.  The
    handlers pass the bounds on under the keys [price_range] and
    [stock_range]; the filter loop of the search only looks at keys that
    name an attribute of the product, which these two do not: a search
    with such filters is the search without them, whatever the other
    filters, the search term and the window are. *)
Theorem search_ignores_price_and_stock_bounds
    (search_term : string) (skip limit : Z) (kwargs : list (string * pyval)) :
  ProductService.search_products search_term skip limit kwargs
  = ProductService.search_products search_term skip limit
      (filter (λ kv, kv.1 ∉ ["price_range"; "stock_range"]) kwargs).
Proof.
  unfold ProductService.search_products, ProductRepository.search_products.
  now rewrite <- search_conditions_without_ranges.
Qed.

(** No product costs 1000 or more, and the search for the letter a with
    that lower bound still returns the lamp; the count of the same
    filters, which does read [price_range], is 0.  The list endpoint, asked
    for the name a and that bound, answers with the lamp and a total
    of 0. *)
Example search_bounds_sample :
  let bound : list (string * pyval) :=
    [("price_range", PDict {[ "min" := VFloat (1000 # 1); "max" := VNone ]})] in
  ProductService.search_products "a" 0 10 bound 100 Sample.store
  = (Ok [Sample.lamp], Sample.store)
  ∧ ProductRepository.count bound 100 Sample.store = (Ok 0, Sample.store)
  ∧ ∃ resp,
      Endpoints.get_products
        (Endpoints.mkParams 0 10 None None (Some "a") None (Some (1000 # 1)) None
           None None None (Some "asc")) 100 Sample.store = (Ok resp, Sample.store)
      ∧ Endpoints.items resp = [Sample.lamp]
      ∧ Endpoints.total resp = 0.
Proof.
  intros bound. split; [vm_compute; reflexivity|]. split; [vm_compute; reflexivity|].
  eexists. split; [vm_compute; reflexivity|]. split; reflexivity.
Qed.

Lemma like_any (t : string) : like "%" t = true.
Proof. induction t as [|c t IH]; [done|]. cbn in *. by rewrite IH. Qed.

Lemma like_any_any (t : string) : like "%%" t = true.
Proof.
  destruct t as [|c t]; [done|].
  change (like "%%" (String c t))
    with (like "%" (String c t) || like "%%" t).
  by rewrite like_any.
Qed.

Lemma search_count_conditions (kwargs : list (string * pyval)) :
  Forall (λ kv, kv.1 ∉ ["price_range"; "stock_range"; "search_term"]) kwargs →
  ProductRepository.count_conditions kwargs = ProductRepository.search_conditions kwargs.
Proof.
  induction 1 as [|[key value] kwargs Hk _ IH]; [done|].
  unfold ProductRepository.count_conditions, ProductRepository.search_conditions in *.
  cbn [flat_map]. rewrite IH. f_equal. cbn [fst] in Hk.
  rewrite !not_elem_of_cons in Hk. destruct Hk as (H1 & H2 & H3 & _).
  apply String.eqb_neq in H1, H2, H3. rewrite H1, H2, H3. cbn [andb].
  destruct (String.eqb_spec key "category") as [->|Hc].
  - change (hasattr (T:=Product.t) "category") with true. cbn [andb].
    by destruct (py_truthy value).
  - cbn [andb]. by destruct (hasattr key).
Qed.

(** X8.  The search count against the search.  For filters without the keys
    [price_range], [stock_range] and [search_term], whenever the search
    succeeds the count of the same search succeeds, leaves the store
    unchanged and is at least the length of the returned page; it equals
    that length when the page is the whole result. *)
Theorem count_search_results_mirrors_search
    (search_term : string) (kwargs : list (string * pyval)) (skip limit : Z)
    now st (l : list Product.t) :
  Forall (λ kv, kv.1 ∉ ["price_range"; "stock_range"; "search_term"]) kwargs →
  ProductService.search_products search_term skip limit kwargs now st = (Ok l, st) →
  ∃ n, ProductService.count_search_results search_term kwargs now st = (Ok n, st)
       ∧ Z.of_nat (length l) ≤ n
       ∧ (skip = 0 → Z.of_nat (length (rows (products st))) ≤ limit →
          n = Z.of_nat (length l)).
Proof.
  intros Hkeys Hsearch.
  unfold ProductService.search_products, ProductRepository.search_products in Hsearch.
  rewrite db_execute_run in Hsearch. injection Hsearch as Hsel.
  apply select_rows_inv in Hsel as (Hb & _ & _ & ->).
  cbn [q_where q_offset q_limit q_order_by forallb bindable andb] in *.
  set (term_cond := COr [CILike "name" ("%" ++ search_term ++ "%");
                         CILike "description" ("%" ++ search_term ++ "%")]) in *.
  set (conds := ProductRepository.search_conditions kwargs) in *.
  assert (Hcc : ProductRepository.count_conditions
                  (("search_term", PScalar (VStr search_term)) :: kwargs)
                = ((if negb (String.eqb search_term "") then [term_cond] else [])
                   ++ conds)%list).
  { unfold ProductRepository.count_conditions at 1. cbn [flat_map].
    fold (ProductRepository.count_conditions kwargs).
    rewrite search_count_conditions by done. f_equal. }
  assert (Hsame : List.filter
            (λ r : Product.t, forallb (holds r)
               ((if negb (String.eqb search_term "") then [term_cond] else []) ++ conds))
            (rows (products st))
          = List.filter (λ r : Product.t, holds r term_cond && forallb (holds r) conds)
              (rows (products st))).
  { apply filter_ext. intros r.
    destruct (String.eqb_spec search_term "") as [->|_]; [|done].
    cbn [negb app]. subst term_cond. cbn [holds existsb].
    change (getattr r "name") with (VStr (Product.name r)).
    cbn [ilike]. change ("%" ++ "" ++ "%") with "%%". by rewrite like_any_any. }
  unfold ProductService.count_search_results, ProductRepository.count.
  rewrite db_count_run, Hcc.
  rewrite select_rows_ok;
    [| by destruct (negb (String.eqb search_term "")) | done | done].
  cbn [q_where q_offset q_limit q_order_by table Product_model].
  rewrite Hsame.
  set (matching := List.filter _ (rows (products st))).
  change (window None None (ordered None matching)) with matching.
  eexists. split; [reflexivity|].
  change (ordered None matching) with matching. split.
  - pose proof (window_length_le (Some skip) (Some limit) matching). lia.
  - intros -> Hlen. rewrite window_all; [done|].
    pose proof (List.filter_length_le
      (λ r : Product.t, holds r term_cond && forallb (holds r) conds)
      (rows (products st))). subst matching. lia.
Qed.

Lemma count_search_results_mirrors_search_witness :
  ∃ n, ProductService.count_search_results "a"
         [("category", PScalar VNone)] 100 Sample.store = (Ok n, Sample.store)
       ∧ n = 1.
Proof.
  destruct (count_search_results_mirrors_search "a" [("category", PScalar VNone)]
              0 10 100 Sample.store [Sample.lamp]) as (n & Hc & _ & Heq).
  - apply Forall_cons; split; [|apply Forall_nil_2].
    cbn [fst]. rewrite !not_elem_of_cons. repeat split; try discriminate.
    apply not_elem_of_nil.
  - reflexivity.
  - exists n. split; [exact Hc|]. apply Heq; [reflexivity | by vm_compute].
Defined.

(** ** Histories only grow *)

#[local] Instance history_grows_preorder : PreOrder history_grows.
Proof.
  split.
  - intros st. split; reflexivity.
  - intros a b c [??] [??]. split; etransitivity; eauto.
Qed.

Lemma advances_ret {A} (R : relation Store) `{!Reflexive R} (a : A) : advances R (ret a).
Proof. intros now st. simpl. reflexivity. Qed.

Lemma advances_throw {A} (R : relation Store) `{!Reflexive R} (e : exn) :
  advances R (throw (A:=A) e).
Proof. intros now st. simpl. reflexivity. Qed.

Lemma advances_bind {A B} (R : relation Store) `{!PreOrder R} (m : M A) (k : A → M B) :
  advances R m → (∀ a, advances R (k a)) → advances R (bind m k).
Proof.
  intros Hm Hk now st. unfold bind.
  specialize (Hm now st). destruct (m now st) as [[a|e] st1]; simpl in *.
  - etransitivity; [exact Hm | apply Hk].
  - exact Hm.
Qed.

Lemma advances_for_collect {A B} (R : relation Store) `{!PreOrder R}
    (l : list A) (body : B → A → M B) :
  (∀ acc x, advances R (body acc x)) → ∀ acc, advances R (for_collect l acc body).
Proof.
  intros Hbody. induction l as [|x l IH]; intros acc; cbn [for_collect].
  - apply advances_ret. apply _.
  - apply advances_bind; [apply _ | apply Hbody | apply IH].
Qed.

Lemma advances_unchanged {A} (R : relation Store) `{!Reflexive R} (m : M A) :
  (∀ now st, (m now st).2 = st) → advances R m.
Proof. intros Hm now st. rewrite Hm. reflexivity. Qed.

Lemma get_store_unchanged `{Model T} (id now : Z) (st : Store) :
  (BaseRepository.get (T:=T) id now st).2 = st.
Proof.
  exact (preserves_get (λ st, st) id now st).
Qed.

Lemma grows_insert_price (data : gmap string val) :
  advances history_grows (db_insert (T:=PriceHistory.t) data).
Proof.
  intros now st. unfold db_insert, bind, get_store, utcnow.
  destruct (construct _ _ _) as [obj|]; [|reflexivity].
  destruct (existsb _ _); [reflexivity|].
  split; cbn; [by apply prefix_app_r | done].
Qed.

Lemma grows_insert_stock (data : gmap string val) :
  advances history_grows (db_insert (T:=StockHistory.t) data).
Proof.
  intros now st. unfold db_insert, bind, get_store, utcnow.
  destruct (construct _ _ _) as [obj|]; [|reflexivity].
  destruct (existsb _ _); [reflexivity|].
  split; cbn; [done | by apply prefix_app_r].
Qed.

Lemma grows_insert_product (data : gmap string val) :
  advances history_grows (db_insert (T:=Product.t) data).
Proof.
  intros now st. unfold db_insert, bind, get_store, utcnow.
  destruct (construct _ _ _) as [obj|]; [|reflexivity].
  destruct (existsb _ _); split; reflexivity.
Qed.

Lemma grows_update_product (old : Product.t) (new : option Product.t) :
  advances history_grows (db_update old new).
Proof.
  intros now st. unfold db_update, bind, get_store, utcnow.
  destruct new as [new|]; [|reflexivity].
  destruct (negb (modified old new)); [reflexivity|].
  destruct (_ && _); split; reflexivity.
Qed.

Lemma grows_price_step (patch : gmap string val) (p : Product.t) :
  advances history_grows (price_step patch p).
Proof.
  unfold price_step. destruct (patch !! "price") as [x|]; [|by apply advances_ret].
  destruct (py_neb _ _); [|by apply advances_ret].
  apply advances_bind; [apply _| |intros; by apply advances_ret].
  unfold PriceHistoryRepository.add_price_change.
  apply advances_bind; [apply _| |intros; apply grows_insert_price].
  apply advances_unchanged; [apply _ | done].
Qed.

Lemma grows_stock_step (patch : gmap string val) (p : Product.t) (reason : val) :
  advances history_grows (stock_step patch p reason).
Proof.
  unfold stock_step. destruct (patch !! "stock_quantity") as [x|]; [|by apply advances_ret].
  destruct (py_neb _ _); [|by apply advances_ret].
  apply advances_bind; [apply _| |intros; by apply advances_ret].
  unfold StockHistoryRepository.add_stock_change.
  apply advances_bind; [apply _| |intros; apply grows_insert_stock].
  apply advances_unchanged; [apply _ | done].
Qed.

Lemma grows_update_product_service (id : Z) (patch : gmap string val) (reason : val) :
  advances history_grows (ProductService.update_product id patch reason).
Proof.
  rewrite update_product_steps.
  apply advances_bind; [apply _| |intros p].
  { apply advances_unchanged; [apply _ | apply get_store_unchanged]. }
  apply advances_bind; [apply _ | apply grows_price_step | intros _].
  apply advances_bind; [apply _ | apply grows_stock_step | intros _].
  apply grows_update_product.
Qed.

Lemma grows_batch_update_step (acc : list Product.t * list Z) (item : gmap string val) :
  advances history_grows (ProductService.batch_update_step acc item).
Proof.
  unfold ProductService.batch_update_step.
  destruct (item !! "id") as [[]|]; try (by apply advances_throw); [|by apply advances_ret].
  apply advances_bind; [apply _| |intros p].
  { apply advances_unchanged; [apply _ | apply get_store_unchanged]. }
  apply advances_bind; [apply _ | | intros _].
  { exact (grows_price_step (delete "change_reason" (delete "id" item)) p). }
  apply advances_bind; [apply _ | | intros _].
  { exact (grows_stock_step (delete "change_reason" (delete "id" item)) p
             (kw (delete "id" item) "change_reason")). }
  apply advances_bind; [apply _ | apply grows_update_product | intros ?].
  by apply advances_ret.
Qed.

Lemma execute_unchanged `{Model T} (q : query) now st : (db_execute (T:=T) q now st).2 = st.
Proof. by rewrite db_execute_run. Qed.

(** X9.  The histories are append-only under every writer but deletion.  Whatever
    the input and whether the call returns or raises, after
    [update_product], [batch_update_products], [create_product],
    [add_price_change] and [add_stock_change] the rows that either history
    table held before the call are a prefix of the rows it holds after. *)
Theorem history_is_append_only :
  (∀ id patch reason,
     advances history_grows (ProductService.update_product id patch reason))
  ∧ (∀ updates, advances history_grows (ProductService.batch_update_products updates))
  ∧ (∀ product_in, advances history_grows (ProductService.create_product product_in))
  ∧ (∀ product_id old_price new_price,
       advances history_grows
         (HistoryService.add_price_change product_id old_price new_price))
  ∧ (∀ product_id old_quantity new_quantity change_reason,
       advances history_grows
         (HistoryService.add_stock_change product_id old_quantity new_quantity
            change_reason)).
Proof.
  split; [exact grows_update_product_service|].
  split; [|split; [|split]].
  - intros updates. unfold ProductService.batch_update_products.
    apply advances_bind; [apply _ | | intros acc].
    + apply advances_for_collect; [apply _ | apply grows_batch_update_step].
    + destruct (acc.2); [by apply advances_ret | by apply advances_throw].
  - intros p. unfold ProductService.create_product, ProductRepository.create,
      BaseRepository.create.
    apply advances_bind; [apply _ | | intros q].
    + apply advances_bind; [apply _ | | intros _; apply grows_insert_product].
      apply advances_unchanged; [apply _ | apply check_keywords_store].
    + apply advances_unchanged; [apply _ | apply get_with_suppliers_store].
  - intros pid o n. unfold HistoryService.add_price_change.
    apply advances_bind; [apply _ | | intros _].
    + apply advances_unchanged; [apply _ | apply get_store_unchanged].
    + unfold PriceHistoryRepository.add_price_change.
      apply advances_bind; [apply _| |intros; apply grows_insert_price].
      apply advances_unchanged; [apply _ | done].
  - intros pid o n r. unfold HistoryService.add_stock_change.
    apply advances_bind; [apply _ | | intros _].
    + apply advances_unchanged; [apply _ | apply get_store_unchanged].
    + unfold StockHistoryRepository.add_stock_change.
      apply advances_bind; [apply _| |intros; apply grows_insert_stock].
      apply advances_unchanged; [apply _ | done].
Qed.

(** ** Serial counters stay ahead of the keys *)

Lemma maintains_ret {A} (I : Store → Prop) (a : A) : maintains I (ret a).
Proof. by intros now st. Qed.

Lemma maintains_throw {A} (I : Store → Prop) (e : exn) : maintains I (throw (A:=A) e).
Proof. by intros now st. Qed.

Lemma maintains_bind {A B} (I : Store → Prop) (m : M A) (k : A → M B) :
  maintains I m → (∀ a, maintains I (k a)) → maintains I (bind m k).
Proof.
  intros Hm Hk now st HI. unfold bind.
  specialize (Hm now st HI). destruct (m now st) as [[a|e] st1]; simpl in *.
  - by apply Hk.
  - exact Hm.
Qed.

Lemma maintains_unchanged {A} (I : Store → Prop) (m : M A) :
  (∀ now st, (m now st).2 = st) → maintains I m.
Proof. intros Hm now st HI. by rewrite Hm. Qed.

Lemma maintains_for_each {A} (I : Store → Prop) (l : list A) (body : A → M unit) :
  (∀ x, maintains I (body x)) → maintains I (for_each l body).
Proof.
  intros Hbody. induction l as [|x l IH]; cbn [for_each].
  - apply maintains_ret.
  - apply maintains_bind; [apply Hbody | intros _; apply IH].
Qed.

Lemma maintains_for_collect {A B} (I : Store → Prop) (l : list A) (body : B → A → M B) :
  (∀ acc x, maintains I (body acc x)) → ∀ acc, maintains I (for_collect l acc body).
Proof.
  intros Hbody. induction l as [|x l IH]; intros acc; cbn [for_collect].
  - apply maintains_ret.
  - apply maintains_bind; [apply Hbody | apply IH].
Qed.

Lemma maintains_try_except {A} (I : Store → Prop) (m : M A) (h : exn → M A) :
  maintains I m → (∀ e, maintains I (h e)) → maintains I (try_except m h).
Proof.
  intros Hm Hh now st HI. unfold try_except.
  specialize (Hm now st HI). destruct (m now st) as [[a|e] st1]; simpl in *.
  - exact Hm.
  - by apply Hh.
Qed.

Section Serials.
Context {T : Type} `{Model T} (HS : serial_class T).

Lemma maintains_db_insert (data : gmap string val) :
  is_none (kw data "id") = true → maintains serials_fresh (db_insert (T:=T) data).
Proof.
  intros Hid now st HI. unfold db_insert, bind, get_store, utcnow.
  destruct (construct _ _ _) as [obj|] eqn:Hc; [|done].
  destruct (existsb _ _); [done|]. cbn [put_store ret snd]. rewrite Hid.
  apply (serial_with_table _ HS); [done|].
  pose proof (serial_table _ HS st HI) as Hfresh.
  apply (serial_construct _ HS) in Hc; [|done].
  unfold serial_fresh in *. cbn [rows next_id]. apply Forall_app. split.
  - eapply Forall_impl; [exact Hfresh|]. intros r Hr. simpl in Hr. lia.
  - apply Forall_singleton. lia.
Qed.

Lemma construct_all_fresh (now : Z) (datas : list (gmap string val)) :
  Forall (λ data, is_none (kw data "id") = true) datas →
  ∀ (tb tb' : Table T) objs,
    construct_all now tb datas = Some (objs, tb') →
    serial_fresh tb → serial_fresh tb'.
Proof.
  induction 1 as [|data datas Hid _ IH]; intros tb tb' objs Hrun Hfresh.
  - by injection Hrun as _ <-.
  - cbn [construct_all] in Hrun.
    destruct (construct _ _ _) as [obj|] eqn:Hc; [|done]. cbn in Hrun.
    destruct (existsb _ _); [done|]. rewrite Hid in Hrun.
    destruct (construct_all now _ datas) as [[objs' tb1]|] eqn:Hrest; [|done].
    cbn in Hrun. injection Hrun as _ <-.
    apply (IH _ _ _ Hrest).
    apply (serial_construct _ HS) in Hc; [|done].
    unfold serial_fresh in *. cbn [rows next_id]. apply Forall_app. split.
    + eapply Forall_impl; [exact Hfresh|]. intros r Hr. simpl in Hr. lia.
    + apply Forall_singleton. lia.
Qed.

Lemma maintains_db_insert_all (datas : list (gmap string val)) :
  Forall (λ data, is_none (kw data "id") = true) datas →
  maintains serials_fresh (db_insert_all (T:=T) datas).
Proof.
  intros Hids now st HI. unfold db_insert_all, bind, get_store, utcnow.
  destruct (construct_all _ _ _) as [[objs tb']|] eqn:Hc; [|done].
  cbn [put_store ret snd].
  apply (serial_with_table _ HS); [done|].
  eapply construct_all_fresh; [exact Hids | exact Hc |].
  by apply (serial_table _ HS).
Qed.

Lemma assign_keeps_pk (update_data : gmap string val) (fields : list string) :
  update_data !! "id" = None →
  ∀ obj new, assign obj fields update_data = Some new → pk new = pk obj.
Proof.
  intros Hid. unfold assign.
  induction fields as [|f fields IH]; intros obj new Hrun; cbn in Hrun.
  - by injection Hrun as <-.
  - destruct (update_data !! f) as [v|] eqn:Hf.
    + destruct (setattr obj f v) as [o1|] eqn:Hset.
      * rewrite (IH _ _ Hrun). apply (serial_setattr _ HS _ _ _ _ Hset). congruence.
      * exfalso. clear -Hrun. induction fields as [|g fields IH]; [done | exact (IH Hrun)].
    + by apply IH.
Qed.

Lemma maintains_db_update (old : T) (assigned : option T) :
  (∀ new, assigned = Some new → pk new = pk old) →
  maintains serials_fresh (db_update old assigned).
Proof.
  intros Hpk now st HI. unfold db_update, bind, get_store, utcnow.
  destruct assigned as [new|]; [|done].
  destruct (negb (modified old new)); [done|].
  destruct (_ && _); [done|]. cbn [put_store ret snd].
  apply (serial_with_table _ HS); [done|].
  pose proof (serial_table _ HS st HI) as Hfresh.
  unfold serial_fresh in *. cbn [rows next_id].
  apply Forall_forall. intros r Hr.
  apply list_elem_of_In, in_map_iff in Hr as (r0 & <- & Hr0).
  apply list_elem_of_In in Hr0.
  pose proof (proj1 (Forall_forall _ _) Hfresh r0 Hr0) as Hlt. simpl in Hlt.
  destruct (Z.eqb_spec (pk r0) (pk old)) as [Heq|]; [|done].
  rewrite (serial_onupdate _ HS), (Hpk new eq_refl). lia.
Qed.

Lemma maintains_update (db_obj : T) (update_data : gmap string val) :
  update_data !! "id" = None →
  maintains serials_fresh (BaseRepository.update db_obj update_data).
Proof.
  intros Hid. apply maintains_db_update. intros new Hnew.
  by apply (assign_keeps_pk update_data model_columns).
Qed.

Lemma maintains_db_delete (obj : T) : maintains serials_fresh (db_delete obj).
Proof.
  intros now st HI. unfold db_delete, bind, get_store. cbn [put_store snd].
  apply (serial_cascade _ HS), (serial_with_table _ HS); [done|].
  pose proof (serial_table _ HS st HI) as Hfresh.
  unfold serial_fresh in *. cbn [rows next_id].
  apply Forall_forall. intros r Hr. apply list_elem_of_filter in Hr as [_ Hr].
  exact (proj1 (Forall_forall _ _) Hfresh r Hr).
Qed.

Lemma maintains_get (id : Z) : maintains serials_fresh (BaseRepository.get (T:=T) id).
Proof. apply maintains_unchanged. intros now st. exact (preserves_get (λ st, st) id now st). Qed.

Lemma maintains_delete (id : Z) : maintains serials_fresh (BaseRepository.delete (T:=T) id).
Proof.
  unfold BaseRepository.delete.
  apply maintains_bind; [apply maintains_get | intros obj].
  apply maintains_bind; [apply maintains_db_delete | intros _; apply maintains_ret].
Qed.

Lemma maintains_batch_delete (ids : list Z) :
  maintains serials_fresh (BaseRepository.batch_delete (T:=T) ids).
Proof.
  unfold BaseRepository.batch_delete. destruct ids; [apply maintains_ret|].
  apply maintains_bind; [|intros objs].
  - apply maintains_unchanged. intros now st. by rewrite db_execute_run.
  - destruct objs; [apply maintains_ret|].
    apply maintains_bind; [|intros _; apply maintains_ret].
    apply maintains_for_each, maintains_db_delete.
Qed.

Lemma maintains_create (data : gmap string val) :
  is_none (kw data "id") = true →
  maintains serials_fresh (BaseRepository.create (T:=T) data).
Proof.
  intros Hid. unfold BaseRepository.create.
  apply maintains_bind; [|intros _; by apply maintains_db_insert].
  apply maintains_unchanged, check_keywords_store.
Qed.

Lemma maintains_batch_create (datas : list (gmap string val)) :
  Forall (λ data, is_none (kw data "id") = true) datas →
  maintains serials_fresh (BaseRepository.batch_create (T:=T) datas).
Proof.
  intros Hids. unfold BaseRepository.batch_create.
  apply maintains_bind; [|intros _; by apply maintains_db_insert_all].
  apply maintains_unchanged, check_all_keywords_store.
Qed.

End Serials.

Ltac setattr_keeps_pk f :=
  repeat match goal with
         | |- context [if String.eqb f ?s then _ else _] => destruct (String.eqb f s)
         end;
  try (intros [= <-]; reflexivity);
  match goal with
  | |- _ <$> ?o = _ → _ => destruct o; cbn; [by intros [= <-] | discriminate]
  end.

Lemma filter_fresh {A} (f : A → Z) (P : A → Prop) `{∀ x, Decision (P x)}
    (n : Z) (l : list A) :
  Forall (λ r, f r < n) l → Forall (λ r, f r < n) (filter P l).
Proof.
  intros Hl. apply Forall_forall. intros r Hr. apply list_elem_of_filter in Hr as [_ Hr].
  exact (proj1 (Forall_forall _ _) Hl r Hr).
Qed.

Lemma product_serial_class : serial_class Product.t.
Proof.
  split.
  - by intros st (? & ? & ? & ?).
  - intros tb st (? & ? & ? & ?) ?. by repeat split.
  - intros id st (? & ? & ? & ?). repeat split; try done.
    + by apply filter_fresh.
    + by apply filter_fresh.
  - intros serial now data obj Hc Hid. cbn in Hc. unfold Product.construct in Hc.
    destruct (kw data "id"); try discriminate. cbn in Hc.
    repeat match type of Hc with
           | context [mbind _ ?o] => destruct o; cbn in Hc; [|discriminate]
           end.
    by injection Hc as <-.
  - intros now old [i n pr d s c di ca ua]. cbn. by destruct (py_eqb _ _).
  - intros [i n pr d s c di ca ua] o' f v Hset Hne. cbn in *.
    unfold Product.setattr in Hset. apply String.eqb_neq in Hne. rewrite Hne in Hset.
    revert Hset. setattr_keeps_pk f.
Qed.

Lemma supplier_serial_class : serial_class Supplier.t.
Proof.
  split.
  - by intros st (? & ? & ? & ?).
  - intros tb st (? & ? & ? & ?) ?. by repeat split.
  - intros id st (? & ? & ? & ?). by repeat split.
  - intros serial now data obj Hc Hid. cbn in Hc. unfold Supplier.construct in Hc.
    destruct (kw data "id"); try discriminate. cbn in Hc.
    repeat match type of Hc with
           | context [mbind _ ?o] => destruct o; cbn in Hc; [|discriminate]
           end.
    by injection Hc as <-.
  - intros now old [i n ci cr ca ua]. cbn. by destruct (py_eqb _ _).
  - intros [i n ci cr ca ua] o' f v Hset Hne. cbn in *.
    unfold Supplier.setattr in Hset. apply String.eqb_neq in Hne. rewrite Hne in Hset.
    revert Hset. setattr_keeps_pk f.
Qed.

Lemma price_history_serial_class : serial_class PriceHistory.t.
Proof.
  split.
  - by intros st (? & ? & ? & ?).
  - intros tb st (? & ? & ? & ?) ?. by repeat split.
  - done.
  - intros serial now data obj Hc Hid. cbn in Hc. unfold PriceHistory.construct in Hc.
    destruct (kw data "id"); try discriminate. cbn in Hc.
    repeat match type of Hc with
           | context [mbind _ ?o] => destruct o; cbn in Hc; [|discriminate]
           end.
    by injection Hc as <-.
  - done.
  - intros [i p o n ts] o' f v Hset Hne. cbn in *.
    unfold PriceHistory.setattr in Hset. apply String.eqb_neq in Hne. rewrite Hne in Hset.
    revert Hset. setattr_keeps_pk f.
Qed.

Lemma stock_history_serial_class : serial_class StockHistory.t.
Proof.
  split.
  - by intros st (? & ? & ? & ?).
  - intros tb st (? & ? & ? & ?) ?. by repeat split.
  - done.
  - intros serial now data obj Hc Hid. cbn in Hc. unfold StockHistory.construct in Hc.
    destruct (kw data "id"); try discriminate. cbn in Hc.
    repeat match type of Hc with
           | context [mbind _ ?o] => destruct o; cbn in Hc; [|discriminate]
           end.
    by injection Hc as <-.
  - done.
  - intros [i p o n r ts] o' f v Hset Hne. cbn in *.
    unfold StockHistory.setattr in Hset. apply String.eqb_neq in Hne. rewrite Hne in Hset.
    revert Hset. setattr_keeps_pk f.
Qed.

Lemma maintains_price_step (patch : gmap string val) (p : Product.t) :
  maintains serials_fresh (price_step patch p).
Proof.
  unfold price_step. destruct (patch !! "price") as [x|]; [|apply maintains_ret].
  destruct (py_neb _ _); [|apply maintains_ret].
  apply maintains_bind; [|intros; apply maintains_ret].
  unfold PriceHistoryRepository.add_price_change.
  apply maintains_bind; [by apply maintains_unchanged | intros t].
  by apply (maintains_db_insert price_history_serial_class).
Qed.

Lemma maintains_stock_step (patch : gmap string val) (p : Product.t) (reason : val) :
  maintains serials_fresh (stock_step patch p reason).
Proof.
  unfold stock_step. destruct (patch !! "stock_quantity") as [x|]; [|apply maintains_ret].
  destruct (py_neb _ _); [|apply maintains_ret].
  apply maintains_bind; [|intros; apply maintains_ret].
  unfold StockHistoryRepository.add_stock_change.
  apply maintains_bind; [by apply maintains_unchanged | intros t].
  by apply (maintains_db_insert stock_history_serial_class).
Qed.

Lemma maintains_update_product (id : Z) (patch : gmap string val) (reason : val) :
  patch !! "id" = None →
  maintains serials_fresh (ProductService.update_product id patch reason).
Proof.
  intros Hid. rewrite update_product_steps.
  apply maintains_bind; [apply maintains_get | intros p].
  apply maintains_bind; [apply maintains_price_step | intros _].
  apply maintains_bind; [apply maintains_stock_step | intros _].
  by apply (maintains_update product_serial_class).
Qed.

Lemma maintains_batch_update_step (acc : list Product.t * list Z)
    (item : gmap string val) :
  maintains serials_fresh (ProductService.batch_update_step acc item).
Proof.
  unfold ProductService.batch_update_step.
  destruct (item !! "id") as [[]|]; try apply maintains_throw; [|apply maintains_ret].
  apply maintains_bind; [apply maintains_get | intros p].
  apply maintains_bind; [|intros _].
  { exact (maintains_price_step (delete "change_reason" (delete "id" item)) p). }
  apply maintains_bind; [|intros _].
  { exact (maintains_stock_step (delete "change_reason" (delete "id" item)) p
             (kw (delete "id" item) "change_reason")). }
  apply maintains_bind; [|intros ?; apply maintains_ret].
  apply (maintains_update product_serial_class).
  rewrite lookup_delete_ne by done. apply lookup_delete_eq.
Qed.

Lemma product_update_dump_id (u : ProductUpdate.t) :
  delete "change_reason" (ProductUpdate.model_dump u) !! "id" = None.
Proof.
  destruct u as [n pr d s c di r].
  destruct n, pr, d, s, c, di, r; reflexivity.
Qed.

Lemma supplier_update_dict_id (u : SupplierUpdate.t) : SupplierUpdate.dict u !! "id" = None.
Proof. destruct u as [n c r]. destruct n, c, r; reflexivity. Qed.

Lemma maintains_product_delete (id : Z) :
  maintains serials_fresh (ProductRepository.delete id).
Proof. exact (maintains_delete product_serial_class id). Qed.

Lemma maintains_batch_delete_products (ids : list Z) :
  maintains serials_fresh (ProductService.batch_delete_products ids).
Proof.
  unfold ProductService.batch_delete_products.
  apply maintains_bind; [|intros acc].
  - apply maintains_for_collect. intros acc id. unfold ProductService.batch_delete_step.
    apply maintains_bind; [apply maintains_get | intros p].
    apply maintains_bind; [apply maintains_product_delete | intros _; apply maintains_ret].
  - destruct (acc.2); [apply maintains_ret | apply maintains_throw].
Qed.

Lemma handler_maintains {A} (I : Store → Prop) (e : exn) (missing : string) :
  maintains I
    (match e with
     | HTTPException status_code detail =>
         if (status_code =? 404) && PyStr.contains "not found" (PyStr.lower detail)
         then throw (A:=A) (AttributeError missing)
         else throw e
     | _ => throw e
     end).
Proof. destruct e; try apply maintains_throw. destruct (_ && _); apply maintains_throw. Qed.

(** X10.  The serial counters stay ahead of the keys.  The empty store has every
    table's counter ahead of its ids, and each of these operations keeps it
    so, whether it returns or raises: for products, creation, batch
    creation, the update handler, the batch update handler, deletion and
    the batch delete handler; for suppliers, creation, batch creation,
    update, deletion and batch deletion; for the histories,
    [add_price_change] and [add_stock_change].  None of them can make the
    store hand out an id that is in use. *)
Theorem serial_counters_stay_fresh :
  serials_fresh Sample.empty_store
  ∧ (∀ product_in, maintains serials_fresh (ProductService.create_product product_in))
  ∧ (∀ products_in,
       maintains serials_fresh (ProductService.batch_create_products products_in))
  ∧ (∀ product_id product_in,
       maintains serials_fresh (Endpoints.update_product product_id product_in))
  ∧ (∀ updates, maintains serials_fresh (Endpoints.batch_update_products updates))
  ∧ (∀ id, maintains serials_fresh (ProductService.delete_product id))
  ∧ (∀ product_ids,
       maintains serials_fresh (Endpoints.batch_delete_products product_ids))
  ∧ (∀ supplier_in, maintains serials_fresh (SupplierService.create_supplier supplier_in))
  ∧ (∀ suppliers_in,
       maintains serials_fresh (SupplierService.batch_create_suppliers suppliers_in))
  ∧ (∀ id supplier_in,
       maintains serials_fresh (SupplierService.update_supplier id supplier_in))
  ∧ (∀ id, maintains serials_fresh (SupplierService.delete_supplier id))
  ∧ (∀ ids, maintains serials_fresh (SupplierService.batch_delete_suppliers ids))
  ∧ (∀ product_id old_price new_price,
       maintains serials_fresh
         (HistoryService.add_price_change product_id old_price new_price))
  ∧ (∀ product_id old_quantity new_quantity change_reason,
       maintains serials_fresh
         (HistoryService.add_stock_change product_id old_quantity new_quantity
            change_reason)).
Proof.
  split; [repeat split; apply Forall_nil_2|].
  split; [|split; [|split; [|split; [|split; [|split]]]]].
  - intros p. unfold ProductService.create_product, ProductRepository.create.
    apply maintains_bind; [|intros q].
    + apply (maintains_create product_serial_class). by destruct p as [? ? [] ? [] []].
    + apply maintains_unchanged, get_with_suppliers_store.
  - intros ps. unfold ProductService.batch_create_products.
    apply (maintains_batch_create product_serial_class).
    apply Forall_forall. intros d Hd.
    apply list_elem_of_In, in_map_iff in Hd as (p & <- & _).
    by destruct p as [? ? [] ? [] []].
  - intros id u. unfold Endpoints.update_product.
    apply maintains_update_product, product_update_dump_id.
  - intros items. unfold Endpoints.batch_update_products.
    apply maintains_try_except; [|intros e; apply handler_maintains].
    unfold ProductService.batch_update_products.
    apply maintains_bind; [|intros acc].
    + apply maintains_for_collect, maintains_batch_update_step.
    + destruct (acc.2); [apply maintains_ret | apply maintains_throw].
  - intros id. unfold ProductService.delete_product.
    apply maintains_bind; [apply maintains_get | intros _; apply maintains_product_delete].
  - intros product_ids. unfold Endpoints.batch_delete_products.
    destruct (Endpoints.parse_ids product_ids) as [[|i ids]|]; try apply maintains_throw.
    apply maintains_try_except; [|intros e; apply handler_maintains].
    apply maintains_bind; [apply maintains_batch_delete_products | intros ?].
    apply maintains_ret.
  - split; [|split; [|split; [|split; [|split; [|split]]]]].
    + intros s. unfold SupplierService.create_supplier.
      destruct (SupplierService.out_of_range _); [apply maintains_throw|].
      by apply (maintains_create supplier_serial_class).
    + intros l. unfold SupplierService.batch_create_suppliers.
      apply maintains_bind; [|intros _].
      * apply maintains_for_each. intros s.
        destruct (SupplierService.out_of_range _);
          [apply maintains_throw | apply maintains_ret].
      * apply (maintains_batch_create supplier_serial_class).
        apply Forall_forall. intros d Hd.
        by apply list_elem_of_In, in_map_iff in Hd as (s & <- & _).
    + intros id u. unfold SupplierService.update_supplier.
      apply maintains_bind; [apply maintains_get | intros s].
      destruct (attr _) as [r|];
        [destruct (SupplierService.out_of_range r); [apply maintains_throw|]|];
        apply (maintains_update supplier_serial_class), supplier_update_dict_id.
    + intros id. unfold SupplierService.delete_supplier.
      apply maintains_bind; [apply maintains_get | intros _].
      apply (maintains_delete supplier_serial_class).
    + intros ids. apply (maintains_batch_delete supplier_serial_class).
    + intros pid o n. unfold HistoryService.add_price_change.
      apply maintains_bind; [apply maintains_get | intros _].
      unfold PriceHistoryRepository.add_price_change.
      apply maintains_bind; [by apply maintains_unchanged | intros t].
      by apply (maintains_db_insert price_history_serial_class).
    + intros pid o n r. unfold HistoryService.add_stock_change.
      apply maintains_bind; [apply maintains_get | intros _].
      unfold StockHistoryRepository.add_stock_change.
      apply maintains_bind; [by apply maintains_unchanged | intros t].
      by apply (maintains_db_insert stock_history_serial_class).
Qed.

Lemma serial_counters_stay_fresh_witness :
  serials_fresh Sample.store_with_links
  ∧ serials_fresh
      (Endpoints.update_product 1
         (ProductUpdate.mk None (Some (Some (2499 # 100))) None (Some (Some 9)) None None
            (Some (Some "delivery"))) 100 Sample.store_with_links).2.
Proof.
  assert (Hs : serials_fresh Sample.store_with_links).
  { repeat split; repeat (apply Forall_cons; split; [by vm_compute|]); apply Forall_nil_2. }
  split; [exact Hs|].
  destruct serial_counters_stay_fresh as (_ & _ & _ & Hu & _).
  apply Hu. exact Hs.
Defined.

(** ** A batch update is a sequence of single updates *)

(** X11.  One round of the batch update loop is the single update.  For an item
    whose [id] is an integer, the loop body of [batch_update_products] does
    what [update_product] does for that id, with the item less [id] and
    [change_reason] as the fields and the item's [change_reason] as the
    reason, and appends the result to the products updated so far: the
    same history rows, the same stored product, the same errors. *)
Theorem batch_update_is_sequence_of_updates
    (acc : list Product.t * list Z) (item : gmap string val) (product_id : Z) now st :
  item !! "id" = Some (VInt product_id) →
  ProductService.batch_update_step acc item now st
  = (let* updated_product :=
       ProductService.update_product product_id
         (delete "change_reason" (delete "id" item))
         (kw (delete "id" item) "change_reason") in
     ret (acc.1 ++ [updated_product], acc.2)%list) now st.
Proof.
  intros Hid. unfold ProductService.batch_update_step, ProductService.update_product.
  rewrite Hid. unfold bind.
  destruct (ProductRepository.get product_id now st) as [[p|e] st1]; [|done].
  repeat match goal with
         | |- context [match ?x with _ => _ end] =>
             match x with
             | context [match _ with _ => _ end] => fail 1
             | _ => destruct x eqn:?
             end
         end; try done.
Qed.

Lemma batch_update_is_sequence_of_updates_witness :
  let item : gmap string val := {[ "id" := VInt 1; "price" := VFloat (2499 # 100) ]} in
  ProductService.batch_update_step ([], []) item 100 Sample.store
  = (let* updated_product :=
       ProductService.update_product 1
         (delete "change_reason" (delete "id" item))
         (kw (delete "id" item) "change_reason") in
     ret ([] ++ [updated_product], [])%list) 100 Sample.store.
Proof.
  intros item.
  exact (batch_update_is_sequence_of_updates ([], []) item 1 100 Sample.store eq_refl).
Defined.

(** ** Low stock and the statistics *)

Lemma holds_stock_below (r : Product.t) (threshold : Z) :
  forallb (holds r) [CCompare "stock_quantity" OpLt (PScalar (VInt threshold))] = true
  ↔ Product.stock_quantity r < threshold.
Proof.
  cbn [forallb holds]. rewrite andb_true_r.
  change (getattr r "stock_quantity") with (VInt (Product.stock_quantity r)).
  rewrite sql_compare_ints. apply test_op_lt.
Qed.






Lemma low_stock_run (threshold skip limit : Z) now st :
  0 ≤ skip → 0 ≤ limit →
  ProductRepository.get_low_stock_products threshold skip limit now st
  = (Ok (window (Some skip) (Some limit)
           (filter (λ p, Product.stock_quantity p < threshold) (rows (products st)))), st).
Proof.
  intros Hs Hl. unfold ProductRepository.get_low_stock_products.
  rewrite db_execute_run, select_rows_ok; [|done|apply Z.ltb_ge; lia|apply Z.ltb_ge; lia].
  cbn [q_where q_offset q_limit q_order_by ordered table Product_model].
  by rewrite (List_filter_stdpp _ (λ p, Product.stock_quantity p < threshold))
    by (intros r; apply holds_stock_below).
Qed.

(** X12.  The low-stock read of the service.  For a threshold of 32 bits
    and non-negative [skip] and [limit] of 64 bits it succeeds and leaves the store
    unchanged; what it returns is, in storage order,
    part of the stored products whose stock is strictly below the
    threshold, at most [limit] of them, and all of them when [skip = 0] and
    [limit] covers the table. *)
Theorem low_stock_products_are_below_threshold (threshold skip limit : Z) now st :
  int32 threshold → 0 ≤ skip < 2 ^ 63 → 0 ≤ limit < 2 ^ 63 →
  ∃ l, ProductService.get_low_stock_products threshold skip limit now st = (Ok l, st)
       ∧ l `sublist_of`
           filter (λ p, Product.stock_quantity p < threshold) (rows (products st))
       ∧ Z.of_nat (length l) ≤ limit
       ∧ (skip = 0 → Z.of_nat (length (rows (products st))) ≤ limit →
          l = filter (λ p, Product.stock_quantity p < threshold) (rows (products st))).
Proof.
  intros _ [Hs _] [Hl _]. unfold ProductService.get_low_stock_products.
  rewrite low_stock_run by done. eexists. split; [reflexivity|].
  split; [apply window_sublist|]. split; [by apply window_length|].
  intros -> Hlen. apply window_all.
  pose proof (length_filter (λ p, Product.stock_quantity p < threshold)
                (rows (products st))). lia.
Qed.

Lemma low_stock_products_are_below_threshold_witness :
  ∃ l, ProductService.get_low_stock_products 6 0 100 100 Sample.store
       = (Ok l, Sample.store)
       ∧ l = [Sample.desk].
Proof.
  destruct (low_stock_products_are_below_threshold 6 0 100 100 Sample.store)
    as (l & Hl & _ & _ & Heq); [unfold int32; lia | lia | lia |].
  exists l. split; [exact Hl|]. rewrite Heq; [reflexivity | reflexivity | by vm_compute].
Defined.

Lemma count_by_category_lookup (l : list Product.t) (c : option string) :
  foldr (λ p (acc : gmap (option string) Z),
           <[ Product.category p := default 0 (acc !! Product.category p) + 1 ]> acc)
    ∅ l !! c
  = let n := length (filter (λ p, Product.category p = c) l) in
    if decide (n = 0%nat) then None else Some (Z.of_nat n).
Proof.
  induction l as [|a l IH]; [done|]. cbn [foldr].
  destruct (decide (Product.category a = c)) as [Heq|Hne].
  - rewrite Heq, lookup_insert_eq, IH, filter_cons_True by done. cbn [length].
    set (n := length _). cbv zeta.
    destruct (decide (n = 0%nat)) as [->|Hn]; cbn; f_equal; lia.
  - by rewrite lookup_insert_ne, IH, filter_cons_False by done.
Qed.

Lemma filter_no_conditions `{Model T} (l : list T) :
  List.filter (λ r, forallb (holds r) []) l = l.
Proof. induction l as [|a l IH]; [done|]. cbn. f_equal. exact IH. Qed.

Lemma count_all_run now st :
  ProductRepository.count [] now st = (Ok (Z.of_nat (length (rows (products st)))), st).
Proof.
  unfold ProductRepository.count. rewrite db_count_run, select_rows_ok by done.
  cbn [q_where q_offset q_limit q_order_by ordered window table Product_model
       ProductRepository.count_conditions flat_map].
  by rewrite filter_no_conditions.
Qed.

(** X13.  The product statistics.  The call always succeeds and leaves the store
    unchanged; [total_products] is the number of stored products;
    [products_by_category] has exactly the categories in use as keys, each
    with the number of its products; [low_stock_products] is the number of
    products with stock below 10, capped at 1000; and it never exceeds
    [total_products]. *)
Theorem product_statistics_are_consistent now st :
  ∃ s, ProductService.get_product_statistics now st = (Ok s, st)
       ∧ ProductService.total_products s = Z.of_nat (length (rows (products st)))
       ∧ (∀ c, ProductService.products_by_category s !! c
               = if decide (in_category st c = 0%nat) then None
                 else Some (Z.of_nat (in_category st c)))
       ∧ ProductService.low_stock_products s
         = Z.of_nat (length (take 1000
             (filter (λ p, Product.stock_quantity p < 10) (rows (products st)))))
       ∧ 0 ≤ ProductService.low_stock_products s ≤ ProductService.total_products s.
Proof.
  unfold ProductService.get_product_statistics, bind at 1.
  unfold ProductRepository.count_by_category at 1.
  unfold bind at 1. cbn [get_store ret].
  unfold bind at 1. rewrite count_all_run.
  unfold bind at 1. rewrite low_stock_run by lia.
  eexists. split; [reflexivity|].
  cbn [ProductService.total_products ProductService.products_by_category
       ProductService.low_stock_products].
  split; [done|]. split; [intros c; apply count_by_category_lookup|].
  split; [done|].
  pose proof (window_sublist (Some 0) (Some 1000)
    (filter (λ p, Product.stock_quantity p < 10) (rows (products st)))) as Hsub.
  apply sublist_length in Hsub.
  pose proof (length_filter (λ p, Product.stock_quantity p < 10) (rows (products st))).
  lia.
Qed.

Example product_statistics_sample :
  ∃ s, ProductService.get_product_statistics 100 Sample.store = (Ok s, Sample.store)
       ∧ ProductService.total_products s = 2
       ∧ ProductService.products_by_category s !! Some "Home" = Some 1
       ∧ ProductService.products_by_category s !! None = Some 1
       ∧ ProductService.products_by_category s !! Some "Garden" = None
       ∧ ProductService.low_stock_products s = 2.
Proof. eexists. split; [reflexivity|]. repeat split. Qed.

(** ** Reading suppliers by credit rating *)






(** ** The top-rated suppliers *)





Example top_rated_sample :
  SupplierService.get_top_rated_suppliers 1 100
    (mkStore (mkTable [] 1) (mkTable [Sample.bolt; Sample.acme] 3) []
       (mkTable [] 1) (mkTable [] 1))
  = (Ok [Sample.acme],
     mkStore (mkTable [] 1) (mkTable [Sample.bolt; Sample.acme] 3) []
       (mkTable [] 1) (mkTable [] 1)).
Proof. reflexivity. Qed.

(** ** Listing suppliers *)

(** X17.  The supplier listing takes [sort_by] and [sort_order] and never sorts.
    Whatever the two are, the listing is the one computation it is without
    them, and a successful listing returns suppliers in storage order: the
    service forwards both as keyword filters, where they name no column and
    are skipped. *)
Theorem supplier_listing_is_never_sorted
    (skip limit : Z) (sort_by sort_order : option string)
    (filters : list (string * pyval)) :
  SupplierService.get_suppliers skip limit sort_by sort_order filters
  = SupplierService.get_suppliers skip limit None None filters
  ∧ ∀ now st l,
      SupplierService.get_suppliers skip limit sort_by sort_order filters now st
      = (Ok l, st) →
      l `sublist_of` rows (suppliers st).
Proof.
  split.
  - unfold SupplierService.get_suppliers, SupplierRepository.get_multi_with_products.
    do 2 f_equal.
  - intros now st l Hl.
    unfold SupplierService.get_suppliers, SupplierRepository.get_multi_with_products in Hl.
    rewrite db_execute_run in Hl. injection Hl as Hsel.
    eapply select_rows_storage_order; [|exact Hsel]. done.
Qed.

Lemma supplier_listing_is_never_sorted_witness :
  SupplierService.get_suppliers 0 100 (Some "credit_rating") (Some "desc") []
    100 Sample.store_with_links
  = (Ok [Sample.acme; Sample.bolt], Sample.store_with_links)
  ∧ [Sample.acme; Sample.bolt] `sublist_of` rows (suppliers Sample.store_with_links).
Proof.
  split; [reflexivity|].
  destruct (supplier_listing_is_never_sorted 0 100 (Some "credit_rating") (Some "desc") [])
    as [_ Hsub].
  apply (Hsub 100 Sample.store_with_links). reflexivity.
Defined.

(** ** Batch creation is all or nothing *)

Lemma construct_all_rows `{Model T} (now : Z) (datas : list (gmap string val)) :
  ∀ (tb tb' : Table T) objs,
    construct_all now tb datas = Some (objs, tb') →
    rows tb' = (rows tb ++ objs)%list ∧ length objs = length datas.
Proof.
  induction datas as [|data datas IH]; intros tb tb' objs Hrun.
  - injection Hrun as <- <-. by rewrite app_nil_r.
  - cbn [construct_all] in Hrun.
    destruct (construct _ _ _) as [obj|]; [|done]. cbn in Hrun.
    destruct (existsb _ _); [done|].
    destruct (construct_all now _ datas) as [[objs' tb1]|] eqn:Hrest; [|done].
    cbn in Hrun. injection Hrun as <- <-.
    apply IH in Hrest as [-> Hlen]. cbn [rows length]. by rewrite <- app_assoc, Hlen.
Qed.

Lemma construct_all_in_order `{Model T} {I : Type} (enc : I → gmap string val)
    (R : T → I → Prop) (now : Z) :
  (∀ serial i obj, construct serial now (enc i) = Some obj → R obj i) →
  ∀ (l : list I) (tb tb' : Table T) objs,
    construct_all now tb (map enc l) = Some (objs, tb') → Forall2 R objs l.
Proof.
  intros HR. induction l as [|i l IH]; intros tb tb' objs Hrun.
  - injection Hrun as <- <-. constructor.
  - cbn [map construct_all] in Hrun.
    destruct (construct _ _ (enc i)) as [obj|] eqn:Hobj; [|done]. cbn in Hrun.
    destruct (existsb _ _); [done|].
    destruct (construct_all now _ (map enc l)) as [[objs' tb1]|] eqn:Hrest; [|done].
    cbn in Hrun. injection Hrun as <- <-.
    constructor; [by eapply HR | by eapply IH].
Qed.

Lemma db_insert_all_outcome `{Model T} (datas : list (gmap string val)) now st :
  match db_insert_all (T:=T) datas now st with
  | (Ok objs, st') =>
      ∃ tb', construct_all now (table st) datas = Some (objs, tb')
             ∧ st' = with_table (mkTable (rows (table st) ++ objs) (next_id tb')) st
  | (Err _, st') => st' = st
  end.
Proof.
  unfold db_insert_all, bind, get_store, utcnow.
  destruct (construct_all _ _ _) as [[objs tb']|] eqn:Hc; [|done].
  cbn [put_store ret]. exists tb'. split; [done|].
  apply construct_all_rows in Hc as [Hrows Hlen].
  f_equal. destruct tb'. cbn in *. by subst.
Qed.

Lemma same_rows_refl (st : Store) : same_rows st st.
Proof. by repeat split. Qed.

Lemma construct_encode (serial now : Z) (i : SupplierCreate.t) (obj : Supplier.t) :
  Supplier.construct serial now (SupplierCreate.encode i) = Some obj →
  supplier_from obj i.
Proof.
  destruct i as [n c r]. unfold Supplier.construct, SupplierCreate.encode.
  intros [= <-]. by repeat split.
Qed.

Lemma construct_model_dump (serial now : Z) (i : ProductCreate.t) (obj : Product.t) :
  Product.construct serial now (ProductCreate.model_dump i) = Some obj →
  product_from obj i.
Proof.
  rewrite construct_dump. intros [= <-]. by repeat split.
Qed.

(** X18.  Batch creation is all or nothing, for suppliers and for products.
    For inputs that fit the columns, and a serial counter that stays within
    32 bits over the batch: on success the returned objects answer the
    inputs one by one, in input order, each with the fields of its input;
    the table holds the old rows followed by exactly these objects, and
    everything else is unchanged.  On any error the rows of every table are
    the ones before the call: no part of the batch has been written. *)
Theorem batch_create_is_all_or_nothing :
  (∀ (suppliers_in : list SupplierCreate.t) now st,
     Forall supplier_fits suppliers_in →
     int32 (next_id (suppliers st)) →
     int32 (next_id (suppliers st) + Z.of_nat (length suppliers_in)) →
     match SupplierService.batch_create_suppliers suppliers_in now st with
     | (Ok objs, st') =>
         Forall2 supplier_from objs suppliers_in
         ∧ rows (suppliers st') = (rows (suppliers st) ++ objs)%list
         ∧ products st' = products st
         ∧ product_suppliers st' = product_suppliers st
         ∧ price_history st' = price_history st
         ∧ stock_history st' = stock_history st
     | (Err _, st') => same_rows st st'
     end)
  ∧ (∀ (products_in : list ProductCreate.t) now st,
       Forall product_fits products_in →
       int32 (next_id (products st)) →
       int32 (next_id (products st) + Z.of_nat (length products_in)) →
       match ProductService.batch_create_products products_in now st with
       | (Ok objs, st') =>
           Forall2 product_from objs products_in
           ∧ rows (products st') = (rows (products st) ++ objs)%list
           ∧ suppliers st' = suppliers st
           ∧ product_suppliers st' = product_suppliers st
           ∧ price_history st' = price_history st
           ∧ stock_history st' = stock_history st
       | (Err _, st') => same_rows st st'
       end).
Proof.
  split.
  - intros l now st _ _ _. unfold SupplierService.batch_create_suppliers.
    unfold bind at 1.
    destruct (for_each l _ now st) as [[[]|e] st1] eqn:Hcheck.
    + assert (st1 = st) as ->.
      { clear -Hcheck. revert Hcheck. induction l as [|s l IH]; cbn [for_each].
        - by intros [= <-].
        - unfold bind. destruct (SupplierService.out_of_range _); cbn; [done|]. exact IH. }
      unfold SupplierRepository.batch_create, BaseRepository.batch_create, bind at 1.
      pose proof (check_all_keywords_store (T:=Supplier.t)
                    (map SupplierCreate.encode l) now st) as Hk.
      destruct (for_each _ BaseRepository.check_keywords now st) as [[[]|e] st2];
        cbn in Hk; subst st2; [|apply same_rows_refl].
      pose proof (db_insert_all_outcome (T:=Supplier.t)
                    (map SupplierCreate.encode l) now st) as Hins.
      destruct (db_insert_all _ now st) as [[objs|e] st3];
        [|subst st3; apply same_rows_refl].
      destruct Hins as (tb' & Hc & ->). split; [|done].
      eapply (construct_all_in_order (T:=Supplier.t) SupplierCreate.encode); [|exact Hc].
      intros serial i obj. apply construct_encode.
    + assert (st1 = st) as ->; [|apply same_rows_refl].
      clear -Hcheck. revert Hcheck. induction l as [|s l IH]; cbn [for_each].
      * done.
      * unfold bind. destruct (SupplierService.out_of_range _); cbn.
        -- by intros [= _ <-].
        -- exact IH.
  - intros l now st _ _ _. unfold ProductService.batch_create_products,
      ProductRepository.batch_create, bind at 1.
    pose proof (check_all_keywords_store (T:=Product.t)
                  (map ProductCreate.model_dump l) now st) as Hk.
    destruct (for_each _ BaseRepository.check_keywords now st) as [[[]|e] st2];
      cbn in Hk; subst st2; [|apply same_rows_refl].
    pose proof (db_insert_all_outcome (T:=Product.t)
                  (map ProductCreate.model_dump l) now st) as Hins.
    destruct (db_insert_all _ now st) as [[objs|e] st3];
      [|subst st3; apply same_rows_refl].
    destruct Hins as (tb' & Hc & ->). split; [|done].
    eapply (construct_all_in_order (T:=Product.t) ProductCreate.model_dump); [|exact Hc].
    intros serial i obj. apply construct_model_dump.
Qed.

Lemma batch_create_is_all_or_nothing_witness :
  ∃ objs st',
    SupplierService.batch_create_suppliers
      [SupplierCreate.mk "Nut" "nut@example.org" 3;
       SupplierCreate.mk "Cog" "cog@example.org" 5] 100 Sample.store = (Ok objs, st')
    ∧ Forall2 supplier_from objs
        [SupplierCreate.mk "Nut" "nut@example.org" 3;
         SupplierCreate.mk "Cog" "cog@example.org" 5]
    ∧ rows (suppliers st') = (rows (suppliers Sample.store) ++ objs)%list.
Proof.
  pose proof (proj1 batch_create_is_all_or_nothing
                [SupplierCreate.mk "Nut" "nut@example.org" 3;
                 SupplierCreate.mk "Cog" "cog@example.org" 5] 100 Sample.store) as H.
  destruct (SupplierService.batch_create_suppliers _ 100 Sample.store)
    as [[objs|e] st'] eqn:Hrun.
  - exists objs, st'. split; [reflexivity|].
    destruct H as (H1 & H2 & _); [| | |by split].
    + repeat (apply Forall_cons; split; [split; text_fits_holds|]). apply Forall_nil_2.
    + unfold int32; cbn; lia.
    + unfold int32; cbn; lia.
  - exfalso. vm_compute in Hrun. discriminate Hrun.
Defined.

Example batch_create_sample :
  ∃ objs st',
    SupplierService.batch_create_suppliers
      [SupplierCreate.mk "Nut" "nut@example.org" 3;
       SupplierCreate.mk "Cog" "cog@example.org" 5] 100 Sample.store = (Ok objs, st')
    ∧ map Supplier.id objs = [2; 3]
    ∧ map Supplier.name objs = ["Nut"; "Cog"]
    ∧ map Supplier.id (rows (suppliers st')) = [1; 2; 3]
    ∧ next_id (suppliers st') = 4.
Proof. do 2 eexists. split; [vm_compute; reflexivity|]. by vm_compute. Qed.

(** ** Fetching and deleting one supplier *)

Lemma holds_supplier_pk (r : Supplier.t) (id : Z) :
  forallb (holds r) [CCompare "id" OpEq (PScalar (VInt id))] = true ↔ Supplier.id r = id.
Proof.
  cbn [forallb holds]. rewrite andb_true_r.
  change (getattr r "id") with (VInt (Supplier.id r)).
  rewrite sql_compare_ints. apply test_op_eq.
Qed.

Lemma find_supplier_by_pk (id : Z) (l : list Supplier.t) :
  List.find (λ r, forallb (holds r) [CCompare "id" OpEq (PScalar (VInt id))]) l
  = List.find (λ r, Supplier.id r =? id) l.
Proof.
  induction l as [|a l IH]; [done|].
  cbn [List.find]. rewrite IH.
  destruct (forallb (holds a) _) eqn:Hh.
  - apply holds_supplier_pk in Hh. by rewrite (proj2 (Z.eqb_eq _ _) Hh).
  - destruct (Supplier.id a =? id) eqn:Heq; [|done].
    apply Z.eqb_eq, holds_supplier_pk in Heq. congruence.
Qed.

Lemma get_supplier_run (id now : Z) (st : Store) :
  SupplierService.get_supplier id now st
  = match supplier_of st id with
    | Some s => (Ok s, st)
    | None =>
        (Err (HTTPException 404 ("Supplier with ID " ++ PyStr.of_Z id ++ " not found")), st)
    end.
Proof.
  unfold SupplierService.get_supplier, SupplierRepository.get_with_products, bind.
  rewrite db_execute_run, select_rows_ok by done.
  cbn [q_where q_offset q_limit q_order_by window ordered ret].
  rewrite head_filter_find, find_supplier_by_pk.
  unfold supplier_of. cbn [table Supplier_model]. by destruct (List.find _ _).
Qed.

Lemma find_supplier_filter (l : list Supplier.t) (ids : list Z) (y : Z) :
  List.find (λ r, Supplier.id r =? y) (filter (λ r, Supplier.id r ∉ ids) l)
  = if bool_decide (y ∈ ids) then None else List.find (λ r, Supplier.id r =? y) l.
Proof.
  induction l as [|a l IH]; [rewrite filter_nil; by destruct (bool_decide _)|].
  rewrite filter_cons.
  destruct (decide (Supplier.id a ∉ ids)) as [Ha|Ha]; cbn [List.find]; rewrite IH.
  - destruct (Z.eqb_spec (Supplier.id a) y) as [<-|_]; [|done].
    by rewrite bool_decide_eq_false_2.
  - destruct (Z.eqb_spec (Supplier.id a) y) as [<-|_]; [|done].
    apply dec_stable in Ha. by rewrite bool_decide_eq_true_2.
Qed.

Lemma delete_supplier_run (id now : Z) (st : Store) :
  SupplierService.delete_supplier id now st
  = match supplier_of st id with
    | Some s => (Ok s, remove_suppliers st [id])
    | None =>
        (Err (NotFoundException ("Supplier with id " ++ PyStr.of_Z id ++ " not found")),
         st)
    end.
Proof.
  unfold SupplierService.delete_supplier, SupplierRepository.delete,
    BaseRepository.delete, SupplierRepository.get.
  destruct (supplier_of st id) as [s|] eqn:Hs.
  - assert (Hid : Supplier.id s = id).
    { apply find_some in Hs as [_ Hs]. by apply Z.eqb_eq in Hs. }
    assert (Hs' : List.find (λ r : Supplier.t, pk r =? id) (rows (table st)) = Some s)
      by exact Hs.
    unfold bind at 1. rewrite (get_found (T:=Supplier.t) id now st s Hs').
    unfold bind at 1. rewrite (get_found (T:=Supplier.t) id now st s Hs').
    pose proof (delete_suppliers_run [s] now st) as Hdel.
    cbn [for_each map] in Hdel. unfold bind in Hdel |- *.
    destruct (db_delete s now st) as [[[]|e] st1]; [|done].
    cbn [ret] in *. injection Hdel as ->. by rewrite Hid.
  - unfold bind at 1.
    assert (Hs' : List.find (λ r : Supplier.t, pk r =? id) (rows (table st)) = None)
      by exact Hs.
    pose proof (get_missing (T:=Supplier.t) id now st Hs') as Hm.
    cbn [model_name Supplier_model] in Hm. by rewrite Hm.
Qed.

(** X19.  Deleting a supplier that is in the store returns it and removes it with
    its product associations.  Afterwards fetching the id through the
    service answers 404 and deleting it again raises the repository's
    not-found error.  Products and histories are untouched and every other
    supplier keeps its row. *)
Theorem delete_supplier_then_absent (id now now' : Z) (st : Store) (s : Supplier.t) :
  supplier_of st id = Some s →
  SupplierService.delete_supplier id now st = (Ok s, remove_suppliers st [id])
  ∧ SupplierService.get_supplier id now' (remove_suppliers st [id])
    = (Err (HTTPException 404 ("Supplier with ID " ++ PyStr.of_Z id ++ " not found")),
       remove_suppliers st [id])
  ∧ SupplierService.delete_supplier id now' (remove_suppliers st [id])
    = (Err (NotFoundException ("Supplier with id " ++ PyStr.of_Z id ++ " not found")),
       remove_suppliers st [id])
  ∧ Forall (λ a, a.2 ≠ id) (product_suppliers (remove_suppliers st [id]))
  ∧ products (remove_suppliers st [id]) = products st
  ∧ price_history (remove_suppliers st [id]) = price_history st
  ∧ stock_history (remove_suppliers st [id]) = stock_history st
  ∧ (∀ id', id' ≠ id →
       supplier_of (remove_suppliers st [id]) id' = supplier_of st id').
Proof.
  intros Hs.
  assert (Hfind : ∀ id', supplier_of (remove_suppliers st [id]) id'
                         = if bool_decide (id' ∈ [id]) then None else supplier_of st id').
  { intros id'. unfold supplier_of, remove_suppliers. cbn [suppliers rows].
    apply find_supplier_filter. }
  assert (Hgone : supplier_of (remove_suppliers st [id]) id = None).
  { rewrite Hfind. by rewrite bool_decide_eq_true_2 by apply list_elem_of_here. }
  split; [by rewrite delete_supplier_run, Hs|].
  split; [by rewrite get_supplier_run, Hgone|].
  split; [by rewrite delete_supplier_run, Hgone|].
  split; [|repeat split; try done].
  - apply Forall_forall. intros a Ha.
    apply list_elem_of_filter in Ha as [Ha _]. intros Heq. apply Ha. rewrite Heq.
    apply list_elem_of_here.
  - intros id' Hne. rewrite Hfind. rewrite bool_decide_eq_false_2; [done|].
    by rewrite list_elem_of_singleton.
Qed.

Lemma delete_supplier_then_absent_witness :
  SupplierService.delete_supplier 2 100 Sample.store_with_links
  = (Ok Sample.bolt, remove_suppliers Sample.store_with_links [2])
  ∧ product_suppliers (remove_suppliers Sample.store_with_links [2]) = [(1, 1)]
  ∧ products (remove_suppliers Sample.store_with_links [2])
    = products Sample.store_with_links.
Proof.
  destruct (delete_supplier_then_absent 2 100 101 Sample.store_with_links Sample.bolt)
    as (Hd & _ & _ & _ & Hp & _); [reflexivity|].
  split; [exact Hd|]. split; [reflexivity | exact Hp].
Defined.

(** ** Repeating an update *)

Lemma setattr_stock (p p' : Product.t) (f : string) (v : val) :
  Product.setattr p f v = Some p' →
  if String.eqb f "stock_quantity" then to_int v = Some (Product.stock_quantity p')
  else Product.stock_quantity p' = Product.stock_quantity p.
Proof.
  destruct p as [i n pr d s c di ca ua]. unfold Product.setattr.
  destruct (String.eqb f "stock_quantity") eqn:Hstock.
  - apply String.eqb_eq in Hstock. subst f. cbn.
    destruct (to_int v); cbn; [|discriminate]. by intros [= <-].
  - repeat match goal with
           | |- context [if String.eqb f ?s then _ else _] =>
               destruct (String.eqb f s)
           end;
      try (intros [= <-]; reflexivity);
      match goal with
      | |- _ <$> ?o = _ → _ => destruct o; cbn; [by intros [= <-] | discriminate]
      end.
Qed.

Lemma assign_fields_stock (patch : gmap string val) (fields : list string) :
  ∀ (p new : Product.t),
    assign (T:=Product.t) p fields patch = Some new →
    match patch !! "stock_quantity" with
    | Some x => if bool_decide ("stock_quantity" ∈ fields)
                then to_int x = Some (Product.stock_quantity new)
                else Product.stock_quantity new = Product.stock_quantity p
    | None => Product.stock_quantity new = Product.stock_quantity p
    end.
Proof.
  unfold assign.
  induction fields as [|f fields IH]; intros p new Hrun; cbn in Hrun.
  - injection Hrun as <-. by destruct (patch !! "stock_quantity").
  - destruct (patch !! f) as [v|] eqn:Hf.
    + destruct (Product.setattr p f v) as [p1|] eqn:Hset;
        [|by rewrite foldl_assign_none in Hrun].
      apply setattr_stock in Hset. specialize (IH p1 new Hrun).
      destruct (String.eqb f "stock_quantity") eqn:Hstock.
      * apply String.eqb_eq in Hstock. subst f. rewrite Hf in *.
        rewrite bool_decide_eq_true_2 by apply list_elem_of_here.
        destruct (bool_decide ("stock_quantity" ∈ fields)); congruence.
      * apply String.eqb_neq in Hstock.
        destruct (patch !! "stock_quantity") as [x|]; [|congruence].
        rewrite (bool_decide_ext ("stock_quantity" ∈ f :: fields)
                   ("stock_quantity" ∈ fields))
          by (rewrite elem_of_cons; intuition congruence).
        destruct (bool_decide ("stock_quantity" ∈ fields)); congruence.
    + specialize (IH p new Hrun).
      destruct (patch !! "stock_quantity") as [x|] eqn:Hx; [|assumption].
      assert (f ≠ "stock_quantity") as Hne by congruence.
      rewrite (bool_decide_ext ("stock_quantity" ∈ f :: fields)
                 ("stock_quantity" ∈ fields))
        by (rewrite elem_of_cons; intuition congruence).
      assumption.
Qed.

Lemma assign_stock (patch : gmap string val) (p new : Product.t) :
  assign (T:=Product.t) p Product.columns patch = Some new →
  match patch !! "stock_quantity" with
  | Some x => to_int x = Some (Product.stock_quantity new)
  | None => Product.stock_quantity new = Product.stock_quantity p
  end.
Proof. intros Hrun. apply assign_fields_stock in Hrun. exact Hrun. Qed.

Lemma onupdate_stock (now : Z) (old new : Product.t) :
  Product.stock_quantity (Product.onupdate now old new) = Product.stock_quantity new.
Proof. destruct new. cbn. by destruct (py_eqb _ _). Qed.

Lemma find_replaced (l : list Product.t) (id : Z) (p stored : Product.t) :
  List.find (λ r, Product.id r =? id) l = Some p →
  Product.id stored = id →
  List.find (λ r, Product.id r =? id)
    (map (λ r, if Product.id r =? id then stored else r) l) = Some stored.
Proof.
  intros Hfind Hid. induction l as [|a l IH]; [done|].
  cbn [List.find map] in *.
  destruct (Z.eqb_spec (Product.id a) id) as [Ha|Ha].
  - by rewrite Hid, Z.eqb_refl.
  - rewrite (proj2 (Z.eqb_neq _ _) Ha). by apply IH.
Qed.

Lemma unmodified_columns (old new : Product.t) :
  modified old new = false →
  Qeq_bool (Product.price old) (Product.price new) = true
  ∧ Product.stock_quantity old = Product.stock_quantity new.
Proof.
  unfold modified. cbn [model_columns Product_model Product.columns existsb].
  rewrite !orb_false_iff. intros (_ & _ & Hprice & _ & Hstock & _).
  apply negb_false_iff in Hprice, Hstock. split; [exact Hprice|].
  cbn in Hstock. rewrite Qeq_bool_inject_Z in Hstock. by apply Z.eqb_eq.
Qed.

(** What a successful update leaves under its id: a product whose price
    and stock are the ones the patch names. *)
Lemma update_product_result (id : Z) (patch : gmap string val) (reason : val)
    now st (p1 : Product.t) (st1 : Store) :
  patch !! "id" = None →
  ProductService.update_product id patch reason now st = (Ok p1, st1) →
  ∃ p', product_of st1 id = Some p'
        ∧ (∀ x, patch !! "price" = Some x →
             ∃ q, as_number x = Some q ∧ Qeq_bool q (Product.price p') = true)
        ∧ (∀ x, patch !! "stock_quantity" = Some x →
             x = VInt (Product.stock_quantity p')).
Proof.
  intros Hid Hrun. rewrite update_product_steps in Hrun.
  apply bind_inv in Hrun as (p & st0 & Hget & Hrun).
  assert (st0 = st) as ->.
  { pose proof (preserves_get (T:=Product.t) (λ st, st) id now st) as Hg.
    unfold ProductRepository.get in Hget. by rewrite Hget in Hg. }
  assert (Hp : product_of st id = Some p).
  { destruct (product_of st id) as [p0|] eqn:Hp0.
    - rewrite (product_get_found _ _ _ _ Hp0) in Hget. congruence.
    - by rewrite (product_get_missing _ _ _ Hp0) in Hget. }
  apply bind_inv in Hrun as ([] & sta & Hprice & Hrun).
  apply bind_inv in Hrun as ([] & stb & Hstock & Hupd).
  assert (Hproducts : products stb = products st).
  { pose proof (preserves_price_step products patch p (λ _ _, eq_refl) now st) as H1.
    pose proof (preserves_stock_step products patch p reason (λ _ _, eq_refl) now sta)
      as H2.
    rewrite Hprice in H1. rewrite Hstock in H2. cbn in H1, H2. congruence. }
  unfold ProductRepository.update, BaseRepository.update, db_update, bind,
    get_store, utcnow in Hupd.
  destruct (assign p model_columns patch) as [new|] eqn:Hassign; [|done].
  pose proof (assign_price _ _ _ Hassign) as Hnewprice.
  pose proof (assign_stock _ _ _ Hassign) as Hnewstock.
  assert (Hpk : Product.id new = id).
  { pose proof (assign_keeps_pk product_serial_class patch model_columns Hid _ _ Hassign)
      as Hk. cbn [pk Product_model] in Hk. rewrite Hk. by apply product_of_id in Hp. }
  assert (Hval :
    ∀ p', (Qeq_bool (Product.price new) (Product.price p') = true) →
          Product.stock_quantity new = Product.stock_quantity p' →
          (∀ x, patch !! "price" = Some x →
             ∃ q, as_number x = Some q ∧ Qeq_bool q (Product.price p') = true)
          ∧ (∀ x, patch !! "stock_quantity" = Some x →
               x = VInt (Product.stock_quantity p'))).
  { intros p' Hpr Hst. split.
    - intros x Hx. rewrite Hx in Hnewprice. eauto.
    - intros x Hx. rewrite Hx in Hnewstock. rewrite <- Hst.
      destruct x; try discriminate. by injection Hnewstock as ->. }
  destruct (modified p new) eqn:Hmod; cbn [negb] in Hupd.
  - destruct (_ && _); [done|]. cbn in Hupd. injection Hupd as <- <-.
    exists (Product.onupdate now p new). split; [|apply Hval].
    + unfold product_of. cbn [products rows]. rewrite Hproducts.
      assert (Hpid : Product.id p = id) by (by apply product_of_id in Hp).
      cbn [pk Product_model]. rewrite Hpid.
      apply (find_replaced _ _ p); [exact Hp|].
      destruct new. cbn in *. by destruct (py_eqb _ _).
    + rewrite onupdate_price. apply Qeq_bool_iff. reflexivity.
    + by rewrite onupdate_stock.
  - cbn in Hupd. injection Hupd as <- <-.
    exists p. split; [|apply Hval].
    + unfold product_of. by rewrite Hproducts.
    + apply unmodified_columns in Hmod as [Hq _].
      apply Qeq_bool_iff. symmetry. by apply Qeq_bool_iff.
    + by apply unmodified_columns in Hmod as [_ ->].
Qed.

(** X20.  Repeating an update records nothing.  After a successful update of a
    product with fields that do not include [id], the same update applied
    again, at any later time and with any change reason, adds no row to the
    price history and no row to the stock history. *)
Theorem repeated_update_records_no_history
    (id : Z) (patch : gmap string val) (reason reason' : val) (now now' : Z)
    (st st1 : Store) (p1 : Product.t) :
  patch !! "id" = None →
  ProductService.update_product id patch reason now st = (Ok p1, st1) →
  price_history (ProductService.update_product id patch reason' now' st1).2
  = price_history st1
  ∧ stock_history (ProductService.update_product id patch reason' now' st1).2
    = stock_history st1.
Proof.
  intros Hid Hrun.
  destruct (update_product_result _ _ _ _ _ _ _ Hid Hrun) as (p' & Hp' & Hprice & Hstock).
  assert (Hps : price_step patch p' now' st1 = (Ok tt, st1)).
  { unfold price_step. destruct (patch !! "price") as [x|] eqn:Hx; [|done].
    destruct (Hprice x eq_refl) as (q & Hq & Heq).
    by rewrite (py_neb_number _ _ _ Hq), Heq. }
  assert (Hss : stock_step patch p' reason' now' st1 = (Ok tt, st1)).
  { unfold stock_step. destruct (patch !! "stock_quantity") as [x|] eqn:Hx; [|done].
    rewrite (Hstock x eq_refl), py_neb_ints, Z.eqb_refl. done. }
  assert (Hsecond : ProductService.update_product id patch reason' now' st1
                    = ProductRepository.update p' patch now' st1).
  { rewrite update_product_steps. unfold bind at 1.
    rewrite (product_get_found _ _ _ _ Hp').
    unfold bind at 1. rewrite Hps. unfold bind at 1. by rewrite Hss. }
  rewrite Hsecond. split.
  - exact (preserves_product_update price_history p' patch (λ _ _, eq_refl) now' st1).
  - exact (preserves_product_update stock_history p' patch (λ _ _, eq_refl) now' st1).
Qed.

Lemma repeated_update_records_no_history_witness :
  let patch : gmap string val :=
    {[ "price" := VFloat (2499 # 100); "stock_quantity" := VInt 9 ]} in
  let st1 := (ProductService.update_product 1 patch (VStr "delivery") 100 Sample.store).2 in
  rows (price_history st1) = [PriceHistory.mk 1 1 (1999 # 100) (2499 # 100) (Some 100)]
  ∧ price_history (ProductService.update_product 1 patch (VStr "again") 101 st1).2
    = price_history st1
  ∧ stock_history (ProductService.update_product 1 patch (VStr "again") 101 st1).2
    = stock_history st1.
Proof.
  intros patch st1. split; [reflexivity|].
  destruct (ProductService.update_product 1 patch (VStr "delivery") 100 Sample.store)
    as [[p1|e] st1'] eqn:Hrun; [|discriminate Hrun].
  exact (repeated_update_records_no_history 1 patch (VStr "delivery") (VStr "again")
           100 101 Sample.store st1' p1 eq_refl Hrun).
Defined.

(** ** Sorting the product listing *)

Lemma ascii_compare_trans (a b c : ascii) :
  Ascii.compare a b ≠ Gt → Ascii.compare b c ≠ Gt → Ascii.compare a c ≠ Gt.
Proof.
  unfold Ascii.compare. rewrite !N.compare_le_iff. apply N.le_trans.
Qed.

Lemma ascii_compare_eq (a b : ascii) : Ascii.compare a b = Eq → a = b.
Proof.
  unfold Ascii.compare. intros H%N.compare_eq.
  by rewrite <- (ascii_N_embedding a), <- (ascii_N_embedding b), H.
Qed.

Lemma ascii_compare_refl (a : ascii) : Ascii.compare a a = Eq.
Proof. unfold Ascii.compare. apply N.compare_refl. Qed.

Lemma ascii_compare_lt_trans (a b c : ascii) :
  Ascii.compare a b = Lt → Ascii.compare b c = Lt → Ascii.compare a c = Lt.
Proof. unfold Ascii.compare. rewrite !N.compare_lt_iff. apply N.lt_trans. Qed.

Lemma string_compare_trans (s1 : string) :
  ∀ s2 s3, String.compare s1 s2 ≠ Gt → String.compare s2 s3 ≠ Gt →
           String.compare s1 s3 ≠ Gt.
Proof.
  induction s1 as [|c1 s1 IH]; intros [|c2 s2] [|c3 s3]; cbn; try done.
  destruct (Ascii.compare c1 c2) eqn:H12; try done;
    destruct (Ascii.compare c2 c3) eqn:H23; try done.
  - apply ascii_compare_eq in H12, H23. subst.
    rewrite ascii_compare_refl. apply IH.
  - apply ascii_compare_eq in H12. subst. by rewrite H23.
  - apply ascii_compare_eq in H23. subst. by rewrite H12.
  - by rewrite (ascii_compare_lt_trans _ _ _ H12 H23).
Qed.

Lemma string_compare_total (s1 s2 : string) :
  String.compare s1 s2 ≠ Gt ∨ String.compare s2 s1 ≠ Gt.
Proof.
  rewrite (String.compare_antisym s2 s1).
  destruct (String.compare s1 s2); cbn; auto.
Qed.

Lemma Qcompare_trans (a b c : Q) :
  (a ?= b)%Q ≠ Gt → (b ?= c)%Q ≠ Gt → (a ?= c)%Q ≠ Gt.
Proof. rewrite <- !Qle_alt. apply Qle_trans. Qed.

Lemma Qcompare_total (a b : Q) : (a ?= b)%Q ≠ Gt ∨ (b ?= a)%Q ≠ Gt.
Proof.
  rewrite <- !Qle_alt. destruct (Qlt_le_dec a b) as [H|H];
    [left; apply Qlt_le_weak, H | right; exact H].
Qed.

Lemma val_leb_spec (a b : val) :
  val_leb a b = true
  ↔ match sql_compare a b with
    | Some c => c ≠ Gt
    | None => val_rank a ≤ val_rank b
    end.
Proof.
  unfold val_leb. destruct (sql_compare a b) as [[]|]; try (split; done).
  apply Z.leb_le.
Qed.

Lemma val_leb_trans (a b c : val) :
  val_leb a b = true → val_leb b c = true → val_leb a c = true.
Proof.
  rewrite !val_leb_spec.
  destruct a, b, c; cbn; try lia; try done;
    try apply Qcompare_trans; try apply string_compare_trans.
  rewrite !Z.compare_le_iff. lia.
Qed.

Lemma val_leb_total (a b : val) : val_leb a b = true ∨ val_leb b a = true.
Proof.
  rewrite !val_leb_spec.
  destruct a, b; cbn; try lia; try apply string_compare_total;
    try apply Qcompare_total.
  rewrite !Z.compare_le_iff. lia.
Qed.

Lemma merge_sort_ordered `{Model T} (ob : string * direction) (l : list T) :
  StronglySorted (order_le ob) (merge_sort (order_le ob) l).
Proof.
  apply StronglySorted_merge_sort.
  - intros a b c. unfold order_le. destruct (ob.2); intros H1 H2.
    + by apply (val_leb_trans _ _ _ H1 H2).
    + by apply (val_leb_trans _ _ _ H2 H1).
  - intros a b. unfold order_le. destruct (ob.2); apply val_leb_total.
Qed.

(** X21.  The product listing follows the requested order.  When [sort_by] names
    a column, a successful listing is sorted on that column: descending
    when [sort_order] is [desc] in any letter case, ascending for every
    other value of [sort_order] and when none is given. *)
Theorem product_listing_follows_requested_order
    (skip limit : Z) (sort_by : string) (sort_order : option string)
    (kwargs : list (string * pyval)) now st (l : list Product.t) :
  hasattr (T:=Product.t) sort_by = true →
  ProductService.get_products skip limit (Some sort_by) sort_order kwargs now st
  = (Ok l, st) →
  (∀ o, sort_order = Some o → PyStr.lower o = "desc" →
     StronglySorted
       (λ a b, val_leb (Product.getattr b sort_by) (Product.getattr a sort_by) = true) l)
  ∧ ((∀ o, sort_order = Some o → PyStr.lower o ≠ "desc") →
     StronglySorted
       (λ a b, val_leb (Product.getattr a sort_by) (Product.getattr b sort_by) = true) l).
Proof.
  intros Hattr Hrun.
  assert (Hne : str_truthy (Some sort_by) = true).
  { destruct sort_by; [done|]. done. }
  unfold ProductService.get_products, ProductRepository.get_multi_with_suppliers in Hrun.
  rewrite Hne, Hattr in Hrun. cbn [andb] in Hrun.
  rewrite db_execute_run in Hrun. injection Hrun as Hsel.
  apply select_rows_inv in Hsel as (_ & _ & _ & ->).
  cbn [q_where q_offset q_limit q_order_by ordered window].
  split.
  - intros o -> Hdesc.
    assert ((if str_truthy (Some o)
                && String.eqb (PyStr.lower (default "" (Some o))) "desc"
             then (sort_by, Desc) else (sort_by, Asc)) = (sort_by, Desc)) as ->.
    { change (default "" (Some o)) with o. rewrite Hdesc. by destruct o. }
    apply StronglySorted_window.
    exact (merge_sort_ordered (T:=Product.t) (sort_by, Desc) _).
  - intros Hasc.
    assert ((if str_truthy sort_order
                && String.eqb (PyStr.lower (default "" sort_order)) "desc"
             then (sort_by, Desc) else (sort_by, Asc)) = (sort_by, Asc)) as ->.
    { destruct sort_order as [o|]; [|done]. change (default "" (Some o)) with o.
      destruct (String.eqb_spec (PyStr.lower o) "desc") as [Heq|_].
      - by destruct (Hasc o eq_refl).
      - by rewrite andb_false_r. }
    apply StronglySorted_window.
    exact (merge_sort_ordered (T:=Product.t) (sort_by, Asc) _).
Qed.

Lemma product_listing_follows_requested_order_witness :
  ProductService.get_products 0 100 (Some "price") (Some "DESC") [] 100 Sample.store
  = (Ok [Sample.desk; Sample.lamp], Sample.store)
  ∧ StronglySorted
      (λ a b, val_leb (Product.getattr b "price") (Product.getattr a "price") = true)
      [Sample.desk; Sample.lamp].
Proof.
  split; [reflexivity|].
  destruct (product_listing_follows_requested_order 0 100 "price" (Some "DESC") []
              100 Sample.store [Sample.desk; Sample.lamp] eq_refl eq_refl) as [Hdesc _].
  apply (Hdesc "DESC"); reflexivity.
Defined.


(** ** Reading a list of ids back *)

Ltac read_digit :=
  change (PyStr.digit_of _) with (Some 0) || change (PyStr.digit_of _) with (Some 1)
  || change (PyStr.digit_of _) with (Some 2) || change (PyStr.digit_of _) with (Some 3)
  || change (PyStr.digit_of _) with (Some 4) || change (PyStr.digit_of _) with (Some 5)
  || change (PyStr.digit_of _) with (Some 6) || change (PyStr.digit_of _) with (Some 7)
  || change (PyStr.digit_of _) with (Some 8) || change (PyStr.digit_of _) with (Some 9).

Lemma digits_acc (d : Decimal.uint) :
  ∀ acc count,
    PyStr.digits (Z.pos acc) count (NilEmpty.string_of_uint d)
    = Some (Z.pos (Pos.of_uint_acc d acc),
            (count + String.length (NilEmpty.string_of_uint d))%nat).
Proof.
  induction d as [|d IH|d IH|d IH|d IH|d IH|d IH|d IH|d IH|d IH|d IH]; intros acc count;
    [cbn; by rewrite Nat.add_0_r|..];
    cbn [NilEmpty.string_of_uint PyStr.digits Pos.of_uint_acc String.length];
    read_digit; cbv beta iota;
    rewrite Nat.add_succ_r, <- Nat.add_succ_l, <- IH; f_equal; lia.
Qed.

Lemma digits_uint (d : Decimal.uint) :
  ∀ count,
    PyStr.digits 0 count (NilEmpty.string_of_uint d)
    = Some (Z.of_N (Pos.of_uint d),
            (count + String.length (NilEmpty.string_of_uint d))%nat).
Proof.
  induction d as [|d IH|d IH|d IH|d IH|d IH|d IH|d IH|d IH|d IH|d IH]; intros count;
    [cbn; by rewrite Nat.add_0_r|..];
    cbn [NilEmpty.string_of_uint PyStr.digits Pos.of_uint String.length];
    read_digit; cbv beta iota;
    rewrite Nat.add_succ_r, <- Nat.add_succ_l;
    [exact (IH _) | exact (digits_acc d _ _) ..].
Qed.

Lemma number_uint (d : Decimal.uint) :
  d ≠ Decimal.Nil →
  (String.length (NilEmpty.string_of_uint d) ≤ PyStr.max_str_digits)%nat →
  PyStr.number (NilEmpty.string_of_uint d) = Some (Z.of_N (Pos.of_uint d)).
Proof.
  intros Hd Hlen. unfold PyStr.number.
  destruct d as [|d|d|d|d|d|d|d|d|d|d]; [done|..];
    cbn [NilEmpty.string_of_uint String.length] in *;
    read_digit; cbn [mbind option_bind];
    [rewrite (digits_uint d 1) | rewrite (digits_acc d _ 1) ..];
    cbn [mbind option_bind fst snd];
    (destruct (Nat.leb_spec (1 + String.length (NilEmpty.string_of_uint d))
                PyStr.max_str_digits) as [_|Hgt]; [done | cbn in Hgt; lia]).
Qed.

Lemma plain_uint (d : Decimal.uint) : plain (NilEmpty.string_of_uint d).
Proof.
  unfold plain.
  induction d; cbn [NilEmpty.string_of_uint list_ascii_of_string];
    [apply Forall_nil_2 | apply Forall_cons; split; [by split | assumption] ..].
Qed.

Lemma of_Z_shape (z : Z) :
  ∃ d, d ≠ Decimal.Nil
       ∧ PyStr.of_Z z = (if z <? 0 then "-" else "") ++ NilEmpty.string_of_uint d
       ∧ Z.of_N (Pos.of_uint d) = Z.abs z
       ∧ PyStr.ndigits z = String.length (NilEmpty.string_of_uint d).
Proof.
  assert (Hnz : ∀ p, NilZero.string_of_uint (Pos.to_uint p)
                     = NilEmpty.string_of_uint (Pos.to_uint p)).
  { intros p. pose proof (DecimalPos.Unsigned.to_uint_nonnil p) as Hn.
    unfold NilZero.string_of_uint. by destruct (Pos.to_uint p). }
  unfold PyStr.ndigits, PyStr.of_Z.
  destruct z as [|p|p]; cbn [Z.abs Z.to_int NilZero.string_of_int].
  - exists (Decimal.D0 Decimal.Nil). by repeat split.
  - exists (Pos.to_uint p). rewrite Hnz.
    split; [apply DecimalPos.Unsigned.to_uint_nonnil|].
    split; [done|]. split; [by rewrite DecimalPos.Unsigned.of_to|].
    unfold Z.abs. cbn [Z.to_int NilZero.string_of_int]. by rewrite Hnz.
  - exists (Pos.to_uint p). rewrite Hnz.
    split; [apply DecimalPos.Unsigned.to_uint_nonnil|].
    split; [done|]. split; [by rewrite DecimalPos.Unsigned.of_to|].
    unfold Z.abs. cbn [Z.to_int NilZero.string_of_int]. by rewrite Hnz.
Qed.

Lemma plain_of_Z (z : Z) : plain (PyStr.of_Z z) ∧ PyStr.of_Z z ≠ "".
Proof.
  destruct (of_Z_shape z) as (d & Hd & -> & _). split.
  - destruct (z <? 0).
    + change ("-" ++ NilEmpty.string_of_uint d)
        with (String "-" (NilEmpty.string_of_uint d)).
      unfold plain. cbn [list_ascii_of_string]. apply Forall_cons. split; [by split|].
      apply plain_uint.
    + apply plain_uint.
  - destruct (z <? 0); [done|]. by destruct d.
Qed.

Lemma lstrip_plain (s : string) : plain s → PyStr.lstrip s = s.
Proof.
  destruct s as [|c s]; [done|]. intros Hp. apply Forall_cons in Hp as [[Hc _] _].
  cbn. by rewrite Hc.
Qed.

Lemma rstrip_plain (s : string) : plain s → PyStr.rstrip s = s.
Proof.
  induction s as [|c s IH]; [done|]. intros Hp.
  apply Forall_cons in Hp as [[Hc _] Hs]. cbn [PyStr.rstrip]. rewrite (IH Hs).
  destruct s; [by rewrite Hc | done].
Qed.

Lemma strip_plain (s : string) : plain s → PyStr.strip s = s.
Proof. intros Hp. unfold PyStr.strip. by rewrite lstrip_plain, rstrip_plain. Qed.

Lemma is_int_space_is_space (c : ascii) :
  PyStr.is_space c = false → PyStr.is_int_space c = false.
Proof. destruct c as [[] [] [] [] [] [] [] []]; vm_compute; congruence. Qed.

Lemma int_lstrip_plain (s : string) : plain s → PyStr.int_lstrip s = s.
Proof.
  destruct s as [|c s]; [done|]. intros Hp. apply Forall_cons in Hp as [[Hc _] _].
  cbn [PyStr.int_lstrip]. by rewrite (is_int_space_is_space c Hc).
Qed.

Lemma int_rstrip_plain (s : string) : plain s → PyStr.int_rstrip s = s.
Proof.
  induction s as [|c s IH]; [done|]. intros Hp.
  apply Forall_cons in Hp as [[Hc _] Hs]. cbn [PyStr.int_rstrip]. rewrite (IH Hs).
  destruct s; [by rewrite (is_int_space_is_space c Hc) | done].
Qed.

Lemma to_int_of_Z (z : Z) :
  (PyStr.ndigits z ≤ PyStr.max_str_digits)%nat →
  PyStr.to_int (PyStr.of_Z z) = Some z.
Proof.
  intros Hlen. unfold PyStr.to_int.
  rewrite int_lstrip_plain, int_rstrip_plain by apply plain_of_Z.
  destruct (of_Z_shape z) as (d & Hd & -> & Hval & Hn). rewrite Hn in Hlen.
  pose proof (number_uint d Hd Hlen) as Hnum. rewrite Hval in Hnum.
  destruct (Z.ltb_spec z 0) as [Hneg|Hpos]; cbn [String.append].
  - change ("-" ++ NilEmpty.string_of_uint d) with (String "-" (NilEmpty.string_of_uint d)).
    cbv beta iota. rewrite Hnum. cbn. f_equal. lia.
  - change ("" ++ NilEmpty.string_of_uint d) with (NilEmpty.string_of_uint d).
    assert (Some (Z.abs z) = Some z) as <- by (f_equal; lia).
    rewrite <- Hnum.
    destruct d; try done; cbn [NilEmpty.string_of_uint]; reflexivity.
Qed.

Lemma split_plain (s : string) : plain s → PyStr.split "," s = [s].
Proof.
  induction s as [|c s IH]; [done|]. intros Hp.
  apply Forall_cons in Hp as [[_ Hc] Hs]. cbn [PyStr.split].
  rewrite (proj2 (Ascii.eqb_neq _ _) Hc), (IH Hs). done.
Qed.

Lemma split_app_plain (s rest : string) :
  plain s → PyStr.split "," (s ++ String "," rest) = s :: PyStr.split "," rest.
Proof.
  induction s as [|c s IH]; [done|]. intros Hp.
  apply Forall_cons in Hp as [[_ Hc] Hs].
  change (String c s ++ String "," rest) with (String c (s ++ String "," rest)).
  cbn [PyStr.split].
  rewrite (proj2 (Ascii.eqb_neq _ _) Hc), (IH Hs). done.
Qed.

Lemma split_join (l : list string) :
  l ≠ [] → Forall plain l → PyStr.split "," (PyStr.join "," l) = l.
Proof.
  induction l as [|x l IH]; [done|]. intros _ Hl.
  apply Forall_cons in Hl as [Hx Hl].
  destruct l as [|y l].
  - cbn [PyStr.join]. by apply split_plain.
  - change (PyStr.join "," (x :: y :: l)) with (x ++ String "," (PyStr.join "," (y :: l))).
    rewrite split_app_plain by done. f_equal. by apply IH.
Qed.

(** X22.  The id list of the batch delete endpoint reads back.  For every list
    of integers of at most 4300 decimal digits each, negative ones
    included, the comma-separated text of their decimal forms is parsed by
    the endpoint into the same list, in the same order. *)
Theorem parse_ids_reads_back (ids : list Z) :
  Forall (λ z, (PyStr.ndigits z ≤ PyStr.max_str_digits)%nat) ids →
  Endpoints.parse_ids (PyStr.join "," (map PyStr.of_Z ids)) = Some ids.
Proof.
  intros Hids. unfold Endpoints.parse_ids.
  destruct ids as [|i ids]; [done|].
  rewrite split_join; [|done|].
  2: { apply Forall_forall. intros s Hs.
       apply list_elem_of_In, in_map_iff in Hs as (z & <- & _). apply plain_of_Z. }
  revert Hids. generalize (i :: ids). clear. intros l.
  induction 1 as [|z l Hz _ IH]; [done|].
  cbn [map List.filter]. rewrite strip_plain by apply plain_of_Z.
  destruct (String.eqb_spec (PyStr.of_Z z) "") as [He|_]; [by apply plain_of_Z in He|].
  cbn [negb mapM]. rewrite (to_int_of_Z z Hz), IH. done.
Qed.

Lemma parse_ids_reads_back_witness :
  Endpoints.parse_ids (PyStr.join "," (map PyStr.of_Z [12; -3; 0; 999]))
  = Some [12; -3; 0; 999].
Proof.
  apply (parse_ids_reads_back [12; -3; 0; 999]).
  repeat (constructor; [apply Nat.leb_le; reflexivity|]). constructor.
Defined.

Example parse_ids_reads_back_sample :
  PyStr.join "," (map PyStr.of_Z [12; -3; 0; 999]) = "12,-3,0,999"
  ∧ Endpoints.parse_ids "12,-3,0,999" = Some [12; -3; 0; 999].
Proof. split; reflexivity. Qed.

Example to_int_sample :
  PyStr.to_int "1_0" = Some 10
  ∧ PyStr.to_int " +1_0 " = Some 10
  ∧ PyStr.to_int "-007" = Some (-7)
  ∧ PyStr.to_int "_1" = None
  ∧ PyStr.to_int "1_" = None
  ∧ PyStr.to_int "1__0" = None
  ∧ PyStr.to_int "- 1" = None
  ∧ PyStr.to_int "" = None.
Proof. repeat split; reflexivity. Qed.

(** ** What an update stores *)

Lemma py_eqb_refl_str (s : string) : py_eqb (VStr s) (VStr s) = true.
Proof. cbn. apply String.eqb_refl. Qed.

Lemma Qeq_bool_refl (q : Q) : Qeq_bool q q = true.
Proof. apply Qeq_bool_iff. reflexivity. Qed.

Ltac setattr_reads_back :=
  match goal with
  | |- _ <$> ?o = _ → _ =>
      let H := fresh in
      destruct o eqn:H; cbn; [intros [= <-] | discriminate]
  end.


Lemma supplier_attr_class : attr_class Supplier.t.
Proof.
  split.
  - intros [i n ci cr ca ua] o' f v Hset Hf.
    cbn [model_columns Supplier_model Supplier.columns] in Hf.
    cbn [setattr getattr Supplier_model] in *.
    repeat (apply elem_of_cons in Hf as [->|Hf]); [..|by apply elem_of_nil in Hf];
      cbn in Hset; revert Hset; destruct v; cbn; try discriminate;
      intros [= <-]; cbn;
      rewrite ?String.eqb_refl, ?Z.eqb_refl, ?Qeq_bool_refl; done.
  - intros [i n ci cr ca ua] o' f g v Hset Hne.
    cbn [setattr getattr Supplier_model] in *. unfold Supplier.setattr in Hset.
    revert Hset.
    repeat match goal with
           | |- context [if String.eqb f ?s then _ else _] =>
               destruct (String.eqb_spec f s) as [->|?]
           end;
      try (intros [= <-]; reflexivity);
      setattr_reads_back; unfold Supplier.getattr;
      repeat match goal with
             | |- context [if String.eqb g ?s then _ else _] =>
                 destruct (String.eqb_spec g s) as [->|?]
             end; cbn; congruence.
  - intros now old [i n ci cr ca ua] g Hne.
    cbn [onupdate getattr Supplier_model Supplier.onupdate].
    destruct (py_eqb _ _); [|done].
    unfold Supplier.getattr.
    repeat match goal with
           | |- context [if String.eqb g ?s then _ else _] =>
               destruct (String.eqb_spec g s) as [->|?]
           end; cbn; congruence.
Qed.

Section Assignments.
Context {T : Type} `{Model T} (HA : attr_class T).





End Assignments.






(** ** Updating a supplier *)





(** ** The combined history *)

(** X25.  The combined history pairs the two date-range reads.  For a product id
    of 32 bits that is not in the store it raises the repository's not-found
    error and leaves the store unchanged.  For a stored product, and
    non-negative [skip] and [limit] of 64 bits, it succeeds with the product's id and name and
    exactly the lists that the price read and the stock read return for the
    same bounds and the same window, each taken with its own [skip] and
    [limit].  The reads without dates are the date-range reads with both
    bounds absent. *)
Theorem combined_history_pairs_both_reads
    (product_id : Z) (start_date end_date : option Z) (skip limit : Z) now st :
  (int32 product_id → product_of st product_id = None →
   HistoryService.get_combined_history product_id start_date end_date skip limit now st
   = (Err (NotFoundException
             ("Product with id " ++ PyStr.of_Z product_id ++ " not found")), st))
  ∧ (∀ p, product_of st product_id = Some p →
          0 ≤ skip < 2 ^ 63 → 0 ≤ limit < 2 ^ 63 →
     ∃ prices stocks,
       HistoryService.get_price_history_by_date_range product_id start_date end_date
         skip limit now st = (Ok prices, st)
       ∧ HistoryService.get_stock_history_by_date_range product_id start_date end_date
           skip limit now st = (Ok stocks, st)
       ∧ HistoryService.get_combined_history product_id start_date end_date
           skip limit now st
         = (Ok (HistoryService.mkCombined product_id (Product.name p) prices stocks), st))
  ∧ HistoryService.get_price_history product_id skip limit
    = HistoryService.get_price_history_by_date_range product_id None None skip limit
  ∧ HistoryService.get_stock_history product_id skip limit
    = HistoryService.get_stock_history_by_date_range product_id None None skip limit.
Proof.
  split; [|split; [|split; reflexivity]].
  - intros _ Hp. unfold HistoryService.get_combined_history, bind at 1.
    by rewrite (product_get_missing _ _ _ Hp).
  - intros p Hp [Hs _] [Hl _].
    unfold HistoryService.get_price_history_by_date_range,
      HistoryService.get_stock_history_by_date_range,
      HistoryService.get_combined_history.
    rewrite !history_after_get, Hp. unfold bind at 1.
    rewrite (product_get_found _ _ _ _ Hp).
    destruct (date_range_read (T:=PriceHistory.t) PriceHistory.product_id
                PriceHistory.timestamp price_row_product price_row_timestamp
                product_id start_date end_date skip limit now st Hs Hl)
      as (prices & Hprices & _).
    destruct (date_range_read (T:=StockHistory.t) StockHistory.product_id
                StockHistory.timestamp stock_row_product stock_row_timestamp
                product_id start_date end_date skip limit now st Hs Hl)
      as (stocks & Hstocks & _).
    exists prices, stocks.
    unfold PriceHistoryRepository.get_by_date_range,
      StockHistoryRepository.get_by_date_range.
    split; [exact Hprices|]. split; [exact Hstocks|].
    unfold bind. by rewrite Hprices, Hstocks.
Qed.

Lemma combined_history_pairs_both_reads_witness :
  HistoryService.get_combined_history 1 None None 0 100 50 Sample.store_with_history
  = (Ok (HistoryService.mkCombined 1 "Desk" [Sample.change2; Sample.change1] []),
     Sample.store_with_history).
Proof.
  destruct (combined_history_pairs_both_reads 1 None None 0 100 50
              Sample.store_with_history) as (_ & Hboth & _).
  destruct (Hboth Sample.desk) as (prices & stocks & Hp & Hs & Hc);
    [reflexivity | lia | lia |].
  injection Hp as <-. injection Hs as <-. exact Hc.
Defined.
